(** * md-book: structure detection and chapter resolution

    A shallow embedding of [structure_detector.py] (with the constants of
    [config.py] and the chapter-creation logic of [book_writer.py]) and the
    properties of its natural-language specification.

    Modelling conventions.
    - Text is a [string] whose characters are read as the code points
      0..255.  The character classes below ([\s], [\d], [\w]) and
      [lower] are the ones Python uses on those code points; [upper]
      says in its comment what it does with the two letters whose capital
      lies beyond code point 255, and [str.title] is a function of the
      runtime.
    - A [pathlib] path is the list of its [parts]; an absolute path starts
      with the anchor ["/"] (or ["//"]).  The flavour is POSIX.
    - The file system, the YAML and TOML libraries and the Python builtins
      the code calls are an environment the functions are parametrised by.
    - An exception that escapes a function is the [Raise] outcome of the
      [result] type; a [try]/[except] is a match on that outcome.  A
      library call that can raise where the code has no handler
      ([Path.exists], [str]) has an outcome for it. *)

From Stdlib Require Import ZArith NArith List String Ascii Bool Lia.
From Stdlib Require Import DecimalString DecimalN DecimalFacts.
From Stdlib Require Import Sorting.Sorted Sorting.Permutation.
Import ListNotations.
Local Open Scope string_scope.
Local Open Scope Z_scope.
Set Warnings "-register-all".

(** ** Characters and strings *)

Module Text.

Definition code (c : ascii) : N := N_of_ascii c.

Definition in_range (lo hi : N) (c : ascii) : bool :=
  (lo <=? code c)%N && (code c <=? hi)%N.

(** [str.isspace] / regex [\s]. *)
Definition is_space (c : ascii) : bool :=
  in_range 9 13 c || in_range 28 32 c || (code c =? 133)%N || (code c =? 160)%N.

(** Regex [\d]. *)
Definition is_digit (c : ascii) : bool := in_range 48 57 c.

Definition is_ascii_upper (c : ascii) : bool := in_range 65 90 c.
Definition is_ascii_lower (c : ascii) : bool := in_range 97 122 c.
Definition is_ascii_alpha (c : ascii) : bool := is_ascii_upper c || is_ascii_lower c.

(** Regex [\w]: alphanumeric code points and the underscore. *)
Definition is_word (c : ascii) : bool :=
  is_digit c || is_ascii_alpha c || (code c =? 95)%N
  || (code c =? 170)%N || (code c =? 178)%N || (code c =? 179)%N
  || (code c =? 181)%N || (code c =? 185)%N || (code c =? 186)%N
  || in_range 188 190 c || in_range 192 214 c || in_range 216 246 c
  || in_range 248 255 c.

Definition shift_up (c : ascii) : ascii := ascii_of_N (code c + 32).
Definition shift_down (c : ascii) : ascii := ascii_of_N (code c - 32).

(** [str.lower] on one character. *)
Definition lower_char (c : ascii) : ascii :=
  if is_ascii_upper c || in_range 192 214 c || in_range 216 222 c
  then shift_up c else c.

(** [str.upper] on one character.  The sharp s becomes two letters; the
    micro sign and the y with diaeresis have their capitals beyond code
    point 255 and are left as they are (no ASCII text is equal to an
    upper-cased string that contains them, either way). *)
Definition upper_char (c : ascii) : string :=
  if is_ascii_lower c || in_range 224 246 c || in_range 248 254 c
  then String (shift_down c) ""
  else if (code c =? 223)%N then "SS" else String c "".

Fixpoint lower (s : string) : string :=
  match s with
  | "" => ""
  | String c s' => String (lower_char c) (lower s')
  end.

Fixpoint upper (s : string) : string :=
  match s with
  | "" => ""
  | String c s' => upper_char c ++ upper s'
  end.

Definition is_empty (s : string) : bool :=
  match s with "" => true | _ => false end.

Fixpoint drop (n : nat) (s : string) : string :=
  match n, s with
  | O, _ => s
  | S n', String _ s' => drop n' s'
  | S _, "" => ""
  end.

(** [s.startswith(p)] *)
Fixpoint startswith (p s : string) : bool :=
  match p, s with
  | "", _ => true
  | String _ _, "" => false
  | String a p', String b s' => Ascii.eqb a b && startswith p' s'
  end.

Fixpoint rev_onto (s acc : string) : string :=
  match s with
  | "" => acc
  | String c s' => rev_onto s' (String c acc)
  end.

Definition rev (s : string) : string := rev_onto s "".

(** [s.endswith(p)] *)
Definition endswith (p s : string) : bool := startswith (rev p) (rev s).

(** [needle in hay] *)
Fixpoint contains (needle hay : string) : bool :=
  startswith needle hay ||
  match hay with
  | "" => false
  | String _ hay' => contains needle hay'
  end.

Fixpoint has_char (c : ascii) (s : string) : bool :=
  match s with
  | "" => false
  | String d s' => Ascii.eqb c d || has_char c s'
  end.

Fixpoint lstrip (s : string) : string :=
  match s with
  | "" => ""
  | String c s' => if is_space c then lstrip s' else s
  end.

Fixpoint rstrip (s : string) : string :=
  match s with
  | "" => ""
  | String c s' =>
      let r := rstrip s' in
      if is_empty r && is_space c then "" else String c r
  end.

(** [str.strip()]. *)
Definition strip (s : string) : string := rstrip (lstrip s).

(** [s.strip('-')]. *)
Fixpoint lstrip_char (x : ascii) (s : string) : string :=
  match s with
  | "" => ""
  | String c s' => if Ascii.eqb c x then lstrip_char x s' else s
  end.

Fixpoint rstrip_char (x : ascii) (s : string) : string :=
  match s with
  | "" => ""
  | String c s' =>
      let r := rstrip_char x s' in
      if is_empty r && Ascii.eqb c x then "" else String c r
  end.

Definition strip_char (x : ascii) (s : string) : string :=
  rstrip_char x (lstrip_char x s).

Definition newline : ascii := "010"%char.
Definition nl : string := String newline "".

(** [s.split('\n')]: never an empty list. *)
Fixpoint split_lines (s : string) : list string :=
  match s with
  | "" => [""]
  | String c s' =>
      if Ascii.eqb c newline then "" :: split_lines s'
      else match split_lines s' with
           | l :: ls => String c l :: ls
           | [] => [String c ""]
           end
  end.

(** The longest prefix whose characters satisfy [p], and what follows. *)
Fixpoint span (p : ascii -> bool) (s : string) : string * string :=
  match s with
  | "" => ("", "")
  | String c s' =>
      if p c then let (a, b) := span p s' in (String c a, b) else ("", s)
  end.

Definition digit_value (c : ascii) : Z := Z.of_N (code c) - 48.

Fixpoint digits_onto (acc : Z) (s : string) : Z :=
  match s with
  | "" => acc
  | String c s' => digits_onto (10 * acc + digit_value c) s'
  end.

(** [int(d)] for a run [d] of decimal digits.  The runs the code
    converts are cut from file names, which are far shorter than the
    number of digits at which [int] gives up. *)
Definition int_of_digits (d : string) : Z := digits_onto 0 d.

Definition mem (x : string) (l : list string) : bool :=
  existsb (String.eqb x) l.

End Text.

Import Text.

(** ** Python values, exceptions *)

Inductive exn : Type :=
  | TypeError | ValueError | KeyError | IndexError | AttributeError
  | OverflowError | OSError.

Inductive result (A : Type) : Type :=
  | Ok (a : A)
  | Raise (e : exn).
Arguments Ok {A} a.
Arguments Raise {A} e.

Definition bind {A B : Type} (r : result A) (k : A -> result B) : result B :=
  match r with
  | Ok a => k a
  | Raise e => Raise e
  end.

Notation "x <- e ;; k" := (bind e (fun x => k))
  (at level 61, e at next level, right associativity).

(** A float, as far as the code can observe one: [int(f)] truncates a
    finite float, and [f == 0] needs to know whether it is integral. *)
Inductive pyfloat : Type :=
  | FNan
  | FInf (negative : bool)
  | FFinite (trunc : Z) (integral : bool).

(** The values [yaml.safe_load] and [tomllib.loads] build.  A mapping is
    kept as the list of its items in insertion order; its keys are
    arbitrary values, as in YAML. *)
Inductive pyval : Type :=
  | PNone
  | PBool (b : bool)
  | PInt (z : Z)
  | PFloat (f : pyfloat)
  | PStr (s : string)
  | PDate (iso : string)
  | PList (l : list pyval)
  | PDict (d : list (pyval * pyval)).

Module Py.

(** [bool(v)]. *)
Definition truthy (v : pyval) : bool :=
  match v with
  | PNone => false
  | PBool b => b
  | PInt z => negb (z =? 0)
  | PFloat (FFinite t i) => negb ((t =? 0) && i)
  | PFloat _ => true
  | PStr s => negb (is_empty s)
  | PDate _ => true
  | PList l => match l with [] => false | _ => true end
  | PDict d => match d with [] => false | _ => true end
  end.

(** [x or y]. *)
Definition or_else (x y : pyval) : pyval := if truthy x then x else y.

(** [k == name] for a string [name]. *)
Definition is_str (name : string) (k : pyval) : bool :=
  match k with
  | PStr s => String.eqb s name
  | _ => false
  end.

(** [k == 0]. *)
Definition is_zero (k : pyval) : bool :=
  match k with
  | PInt z => z =? 0
  | PBool b => negb b
  | PFloat (FFinite t i) => (t =? 0) && i
  | _ => false
  end.

Fixpoint lookup (p : pyval -> bool) (d : list (pyval * pyval)) : option pyval :=
  match d with
  | [] => None
  | (k, v) :: d' => if p k then Some v else lookup p d'
  end.

(** [name in v]. *)
Definition contains_str (name : string) (v : pyval) : result bool :=
  match v with
  | PDict d => Ok (match lookup (is_str name) d with Some _ => true | None => false end)
  | PList l => Ok (existsb (is_str name) l)
  | PStr s => Ok (contains name s)
  | _ => Raise TypeError
  end.

(** [v[name]]. *)
Definition getitem_str (name : string) (v : pyval) : result pyval :=
  match v with
  | PDict d => match lookup (is_str name) d with
               | Some x => Ok x
               | None => Raise KeyError
               end
  | _ => Raise TypeError
  end.

(** [v.get(name, default)]. *)
Definition get (v : pyval) (name : string) (default : pyval) : result pyval :=
  match v with
  | PDict d => Ok (match lookup (is_str name) d with
                   | Some x => x
                   | None => default
                   end)
  | _ => Raise AttributeError
  end.

(** [v[0]]. *)
Definition index0 (v : pyval) : result pyval :=
  match v with
  | PList (x :: _) => Ok x
  | PList [] => Raise IndexError
  | PStr (String c _) => Ok (PStr (String c ""))
  | PStr "" => Raise IndexError
  | PDict d => match lookup is_zero d with
               | Some x => Ok x
               | None => Raise KeyError
               end
  | _ => Raise TypeError
  end.

Fixpoint chars (s : string) : list pyval :=
  match s with
  | "" => []
  | String c s' => PStr (String c "") :: chars s'
  end.

(** The items a [for] loop over [v] visits. *)
Definition iter (v : pyval) : result (list pyval) :=
  match v with
  | PList l => Ok l
  | PStr s => Ok (chars s)
  | PDict d => Ok (map fst d)
  | _ => Raise TypeError
  end.

(** [int(v)], given [int] on strings. *)
Definition int (int_of_str : string -> option Z) (v : pyval) : result Z :=
  match v with
  | PInt z => Ok z
  | PBool b => Ok (if b then 1 else 0)
  | PFloat (FFinite t _) => Ok t
  | PFloat (FInf _) => Raise OverflowError
  | PFloat FNan => Raise ValueError
  | PStr s => match int_of_str s with
              | Some z => Ok z
              | None => Raise ValueError
              end
  | _ => Raise TypeError
  end.

End Py.

(** ** Paths *)

Definition Path : Type := list string.

Module PathLib.

Definition slash : ascii := "/"%char.

Fixpoint split_slash (s : string) : list string :=
  match s with
  | "" => [""]
  | String c s' =>
      if Ascii.eqb c slash then "" :: split_slash s'
      else match split_slash s' with
           | l :: ls => String c l :: ls
           | [] => [String c ""]
           end
  end.

Definition keep_component (s : string) : bool :=
  negb (is_empty s) && negb (String.eqb s ".").

Definition components (s : string) : list string :=
  filter keep_component (split_slash s).

(** The anchor of a path string: exactly two leading slashes are kept. *)
Definition anchor (s : string) : option string :=
  if startswith "///" s then Some "/"
  else if startswith "//" s then Some "//"
  else if startswith "/" s then Some "/"
  else None.

Definition parse (s : string) : Path :=
  match anchor s with
  | Some a => a :: components s
  | None => components s
  end.

(** [p / s]: an absolute right operand replaces the left one. *)
Definition joinpath (p : Path) (s : string) : Path :=
  match anchor s with
  | Some _ => parse s
  | None => (p ++ components s)%list
  end.

Definition is_anchor (s : string) : bool := has_char slash s.

(** [p.name]. *)
Definition name (p : Path) : string :=
  match List.rev p with
  | [] => ""
  | x :: _ => if is_anchor x then "" else x
  end.

(** [p.parent]. *)
Definition parent (p : Path) : Path :=
  if is_empty (name p) then p else removelast p.

(** [s] cut at its last dot: what precedes it, and the rest from the dot on. *)
Fixpoint split_last_dot (s : string) : option (string * string) :=
  match s with
  | "" => None
  | String c s' =>
      match split_last_dot s' with
      | Some (a, b) => Some (String c a, b)
      | None => if Ascii.eqb c "."%char then Some ("", s) else None
      end
  end.

Definition suffix_of (n : string) : string :=
  match split_last_dot n with
  | Some (a, b) =>
      if negb (is_empty a) && (2 <=? String.length b)%nat then b else ""
  | None => ""
  end.

Definition stem_of (n : string) : string :=
  match split_last_dot n with
  | Some (a, b) =>
      if negb (is_empty a) && (2 <=? String.length b)%nat then a else n
  | None => n
  end.

(** [p.suffix], [p.stem]. *)
Definition suffix (p : Path) : string := suffix_of (name p).
Definition stem (p : Path) : string := stem_of (name p).

(** [p.with_suffix(sfx)]. *)
Definition with_suffix (p : Path) (sfx : string) : result Path :=
  if is_empty (name p) then Raise ValueError
  else Ok (removelast p ++ [(stem p ++ sfx)%string])%list.

Fixpoint path_eqb (p q : Path) : bool :=
  match p, q with
  | [], [] => true
  | x :: p', y :: q' => String.eqb x y && path_eqb p' q'
  | _, _ => false
  end.

(** [p <= q]: the parts compared as sequences. *)
Fixpoint path_leb (p q : Path) : bool :=
  match p, q with
  | [], _ => true
  | _ :: _, [] => false
  | x :: p', y :: q' =>
      match String.compare x y with
      | Lt => true
      | Gt => false
      | Eq => path_leb p' q'
      end
  end.

End PathLib.

Import PathLib.

(** ** Stable sorting, as [list.sort] and [sorted] do *)

Section StableSort.
Context {A : Type} (le : A -> A -> bool).

Fixpoint insert_sorted (x : A) (l : list A) : list A :=
  match l with
  | [] => [x]
  | y :: l' => if le x y then x :: l else y :: insert_sorted x l'
  end.

Definition stable_sort (l : list A) : list A :=
  fold_right insert_sorted [] l.
End StableSort.

(** Python compares tuples item by item, strings by code point. *)
Definition tuple_compare {A B : Type} (ca : A -> A -> comparison)
    (cb : B -> B -> comparison) (x y : A * B) : comparison :=
  match ca (fst x) (fst y) with
  | Eq => cb (snd x) (snd y)
  | o => o
  end.

(** [x <= y] from a three-way comparison. *)
Definition leb_of {A : Type} (cmp : A -> A -> comparison) (x y : A) : bool :=
  match cmp x y with
  | Gt => false
  | _ => true
  end.

(** ** The environment: file system and libraries *)

Record FileSystem : Type := {
  (** [p.exists()]; [None] when it raises [OSError], as it does when the
      path cannot be examined (a name longer than the file system
      allows, a directory that may not be searched). *)
  fs_exists : Path -> option bool;
  (** [p.read_text(encoding='utf-8')]; [None] when it raises. *)
  fs_read_text : Path -> option string;
  (** [p.is_file()]; [None] when it raises [OSError]. *)
  fs_is_file : Path -> option bool;
  (** The entry names [p.glob] goes through, in scan order: none when
      [p] is not a directory or may not be read ([glob] is reached only
      after [exists()] has returned on a path below [p]). *)
  fs_listdir : Path -> list string;
  (** The entry names [p.iterdir()] yields; [None] when it raises
      [OSError] ([p] is not a directory, or may not be read). *)
  fs_iterdir : Path -> option (list string)
}.

Record Runtime : Type := {
  YAML_AVAILABLE : bool;
  (** [yaml.safe_load]; [None] when it raises. *)
  yaml_safe_load : string -> option pyval;
  (** [yaml.dump(v, default_flow_style=False, allow_unicode=True)] *)
  yaml_dump : pyval -> string;
  TOML_AVAILABLE : bool;
  (** [tomllib.loads]; [None] when it raises. *)
  tomllib_loads : string -> option pyval;
  (** [str(v)]; [None] when it raises [ValueError] (an integer with
      more digits than the conversion limit). *)
  py_str : pyval -> option string;
  (** [int(s)] on a string; [None] when it raises [ValueError]. *)
  py_int_of_str : string -> option Z;
  (** [s.title()] *)
  str_title : string -> string
}.

Record Env : Type := {
  rt : Runtime;
  fs : FileSystem;
  book_root : Path
}.

(** [p.glob('*.md')] and [p.glob('chapter-*')]. *)
Definition glob (E : Env) (p : Path) (pat : string -> bool) : list Path :=
  map (fun n => (p ++ [n])%list) (filter pat (fs_listdir (fs E) p)).

Definition pat_md (n : string) : bool := endswith ".md" n.
Definition pat_chapter_dir (n : string) : bool := startswith "chapter-" n.

(** ** config.py *)

Module BookReaderConfig.

Definition INTRO_FILES : list string :=
  ["README.md"; "readme.md"; "index.md"; "INDEX.md"; "introduction.md";
   "INTRODUCTION.md"; "00-introduction.md"; "00-intro.md"].

Definition SKIP_FILES : list string :=
  ["CONTRIBUTING.md"; "CHANGELOG.md"; "LICENSE.md"; "CODE_OF_CONDUCT.md"].

End BookReaderConfig.

Import BookReaderConfig.

(** ** Data model *)

Record Chapter : Type := {
  number : Z;
  title : pyval;
  file_path : Path;
  is_intro : bool;
  is_draft : pyval;
  author : pyval;
  date : option string;
  metadata : pyval
}.

(** [Chapter(number=.., title=.., file_path=.., is_intro=..)] *)
Definition mk_chapter (n : Z) (t : pyval) (p : Path) (intro : bool) : Chapter :=
  {| number := n; title := t; file_path := p; is_intro := intro;
     is_draft := PBool false; author := PNone; date := None;
     metadata := PDict [] |}.

Inductive format : Type :=
  | summary | leanpub | bookdown | mdbook | auto.

Record BookStructure : Type := {
  format_type : format;
  book_title : pyval;
  book_author : pyval;
  chapters : list Chapter;
  root_path : option Path
}.

Definition mk_structure (f : format) (E : Env) (t a : pyval)
    (cs : list Chapter) : BookStructure :=
  {| format_type := f; book_title := t; book_author := a; chapters := cs;
     root_path := Some (book_root E) |}.

(** ** The regular expressions of the code, as matchers

    Each matcher returns what the code reads from the match object.  The
    comments say why the greedy, backtracking search of [re] has the one
    outcome computed here. *)

Module Regex.

Definition not_char (x : ascii) (c : ascii) : bool := negb (Ascii.eqb c x).

(** [\[([^\]]+)\]\(([^)]+\.md)\)] attempted at the start of [s]; returns
    group 1, group 2 and the text after the match.  [[^\]]+] must stop at
    a closing bracket, so it is the whole run of other characters; in the
    same way [[^)]+\.md] is the whole run up to the first closing
    parenthesis, which has to end in [.md] after at least one character. *)
Definition link_here (s : string) : option (string * string * string) :=
  match s with
  | String "["%char s1 =>
      let (g1, r1) := span (not_char "]"%char) s1 in
      if is_empty g1 then None
      else match r1 with
           | String "]"%char (String "("%char s2) =>
               let (g2, r2) := span (not_char ")"%char) s2 in
               match r2 with
               | String ")"%char r3 =>
                   if endswith ".md" g2 && (4 <=? String.length g2)%nat
                   then Some (g1, g2, r3) else None
               | _ => None
               end
           | _ => None
           end
  | _ => None
  end.

(** [link_pattern.search(line)]: the leftmost match. *)
Fixpoint link_search (s : string) : option (string * string * string) :=
  match s with
  | "" => None
  | String _ s' =>
      match link_here s with
      | Some m => Some m
      | None => link_search s'
      end
  end.

(** [\s*\n] at the start of [s]: the run of white space that starts [s]
    contains a line feed. *)
Fixpoint blank_to_eol (s : string) : bool :=
  match s with
  | "" => false
  | String c s' =>
      if Ascii.eqb c newline then true
      else if is_space c then blank_to_eol s' else false
  end.

(** [\n---\s*\n] at the start of [s]. *)
Definition closer_here (s : string) : bool :=
  startswith (String newline "---") s && blank_to_eol (drop 4 s).

(** [m = re.search(r'\n---\s*\n', s)]: the text [s[:m.start()]]. *)
Fixpoint before_closer (s : string) : option string :=
  match s with
  | "" => None
  | String c s' =>
      if closer_here s then Some ""
      else match before_closer s' with
           | Some t => Some (String c t)
           | None => None
           end
  end.

(** [re.match(r'^(\d+)', s)]: group 1. *)
Definition leading_digits (s : string) : option string :=
  let (d, _) := span is_digit s in
  if is_empty d then None else Some d.

Definition is_sep (c : ascii) : bool :=
  Ascii.eqb c "-"%char || Ascii.eqb c "_"%char.

(** [[-_]?] *)
Definition skip_sep (s : string) : string :=
  match s with
  | String c s' => if is_sep c then s' else s
  | "" => ""
  end.

Fixpoint removelast_char (s : string) : string :=
  match s with
  | "" => ""
  | String c "" => ""
  | String c s' => String c (removelast_char s')
  end.

(** [(.{n,})\.md$] read case-insensitively, matched against all of [s]:
    [$] also matches before a final line feed, and [.] matches no line
    feed. *)
Definition dot_md_tail (n : nat) (s : string) : bool :=
  let s' := if endswith nl s then removelast_char s else s in
  negb (has_char newline s') && endswith ".md" (lower s')
  && (n + 3 <=? String.length s')%nat.

(** [^word[-_]?(\d+)[-_]?( .* )\.md$] (written here with spaces
    around the second group) with IGNORECASE, or without the first
    [[-_]?] when [sep] is false: group 1.  The digit run is taken whole:
    giving digits back to the second group never turns a failure into a match. *)
Definition word_number (word : string) (sep : bool) (s : string) : option string :=
  if String.eqb (lower (substring 0 (String.length word) s)) word
  then
    let r := drop (String.length word) s in
    let r := if sep then skip_sep r else r in
    let (d, r') := span is_digit r in
    if negb (is_empty d) && dot_md_tail 0 r' then Some d else None
  else None.

(** [^(\d+)[-_](.+)\.md$] with IGNORECASE: group 1. *)
Definition number_sep_name (s : string) : option string :=
  let (d, r) := span is_digit s in
  match r with
  | String c r' =>
      if negb (is_empty d) && is_sep c && dot_md_tail 1 r' then Some d else None
  | "" => None
  end.

(** [.*word\.md$] with IGNORECASE, matched from the start of [s]. *)
Definition ends_word_md (word : string) (s : string) : bool :=
  let s' := if endswith nl s then removelast_char s else s in
  negb (has_char newline s') && endswith (word ++ ".md") (lower s').

(** [re.sub(r'^\d+[-_]?', '', s)] *)
Definition strip_number (s : string) : string :=
  let (d, r) := span is_digit s in
  if is_empty d then s else skip_sep r.

(** [re.sub(cls+, rep, s)]: every maximal run of the class is replaced. *)
Fixpoint sub_runs (cls : ascii -> bool) (rep : string) (in_run : bool)
    (s : string) : string :=
  match s with
  | "" => ""
  | String c s' =>
      if cls c
      then (if in_run then sub_runs cls rep true s'
            else rep ++ sub_runs cls rep true s')
      else String c (sub_runs cls rep false s')
  end.

(** [re.sub(cls, '', s)] for a one-character class. *)
Fixpoint remove_chars (cls : ascii -> bool) (s : string) : string :=
  match s with
  | "" => ""
  | String c s' =>
      if cls c then remove_chars cls s' else String c (remove_chars cls s')
  end.

End Regex.

Import Regex.

Module CHAPTER_FILE_PATTERNS.

(** [CHAPTER_FILE_PATTERNS], each as the matcher that returns group 1. *)
Definition patterns : list (string -> option string) :=
  [ number_sep_name;
    word_number "chapter" true;
    word_number "ch" false;
    word_number "part" true ].

End CHAPTER_FILE_PATTERNS.

(** ** structure_detector.py *)

Section StructureDetector.

Variable E : Env.

(** [p.exists()], called outside any [try]. *)
Definition exists_ (p : Path) : result bool :=
  match fs_exists (fs E) p with
  | Some b => Ok b
  | None => Raise OSError
  end.

Definition read_text (p : Path) : option string := fs_read_text (fs E) p.

(** [_parse_frontmatter]; [PNone] is Python's [None]. *)
Definition _parse_frontmatter (content : string) : pyval :=
  if negb (YAML_AVAILABLE (rt E)) then PNone
  else if negb (startswith "---" content) then PNone
  else match before_closer (drop 3 content) with
       | None => PNone
       | Some frontmatter_text =>
           match yaml_safe_load (rt E) frontmatter_text with
           | Some v => v
           | None => PNone
           end
       end.

(** [if key in frontmatter: c = set(c, frontmatter[key])] *)
Definition update_if_present (key : string) (frontmatter : pyval)
    (set : Chapter -> pyval -> result Chapter) (c : Chapter) : result Chapter :=
  present <- Py.contains_str key frontmatter ;;
  if present
  then v <- Py.getitem_str key frontmatter ;; set c v
  else Ok c.

Definition set_title (c : Chapter) (v : pyval) : result Chapter :=
  Ok {| number := number c; title := v; file_path := file_path c;
        is_intro := is_intro c; is_draft := is_draft c; author := author c;
        date := date c; metadata := metadata c |}.

Definition set_author (c : Chapter) (v : pyval) : result Chapter :=
  Ok {| number := number c; title := title c; file_path := file_path c;
        is_intro := is_intro c; is_draft := is_draft c; author := v;
        date := date c; metadata := metadata c |}.

(** [chapter.date = str(v)] *)
Definition set_date (c : Chapter) (v : pyval) : result Chapter :=
  match py_str (rt E) v with
  | Some d =>
      Ok {| number := number c; title := title c; file_path := file_path c;
            is_intro := is_intro c; is_draft := is_draft c;
            author := author c; date := Some d; metadata := metadata c |}
  | None => Raise ValueError
  end.

Definition set_draft (c : Chapter) (v : pyval) : result Chapter :=
  Ok {| number := number c; title := title c; file_path := file_path c;
        is_intro := is_intro c; is_draft := v; author := author c;
        date := date c; metadata := metadata c |}.

Definition with_number (c : Chapter) (n : Z) : Chapter :=
  {| number := n; title := title c; file_path := file_path c;
     is_intro := is_intro c; is_draft := is_draft c; author := author c;
     date := date c; metadata := metadata c |}.

(** [int(frontmatter['chapter'])] *)
Definition chapter_value (frontmatter : pyval) : result Z :=
  v <- Py.getitem_str "chapter" frontmatter ;;
  Py.int (py_int_of_str (rt E)) v.

(** [if 'chapter' in frontmatter:
       try: chapter.number = int(frontmatter['chapter'])
       except (ValueError, TypeError): pass]: the membership test is
    outside the handler, the subscript and [int] are inside. *)
Definition update_number (frontmatter : pyval) (c : Chapter) : result Chapter :=
  present <- Py.contains_str "chapter" frontmatter ;;
  if present
  then match chapter_value frontmatter with
       | Ok n => Ok (with_number c n)
       | Raise ValueError => Ok c
       | Raise TypeError => Ok c
       | Raise e => Raise e
       end
  else Ok c.

Definition set_metadata (c : Chapter) (v : pyval) : Chapter :=
  {| number := number c; title := title c; file_path := file_path c;
     is_intro := is_intro c; is_draft := is_draft c; author := author c;
     date := date c; metadata := v |}.

(** [_enrich_with_frontmatter]: the chapter after the in-place update. *)
Definition _enrich_with_frontmatter (chapter : Chapter) : result Chapter :=
  match read_text (file_path chapter) with
  | None => Ok chapter
  | Some content =>
      let frontmatter := _parse_frontmatter content in
      if negb (Py.truthy frontmatter) then Ok chapter
      else
        c <- update_if_present "title" frontmatter set_title chapter ;;
        c <- update_if_present "author" frontmatter set_author c ;;
        c <- update_if_present "date" frontmatter set_date c ;;
        c <- update_if_present "draft" frontmatter set_draft c ;;
        c <- update_number frontmatter c ;;
        Ok (set_metadata c frontmatter)
  end.

(** The first line that, stripped, starts with ["# "], without the marker. *)
Fixpoint first_heading (lines : list string) : pyval :=
  match lines with
  | [] => PNone
  | line :: rest =>
      let line := strip line in
      if startswith "# " line then PStr (strip (drop 2 line))
      else first_heading rest
  end.

(** [_extract_title_from_file] *)
Definition _extract_title_from_file (p : Path) : result pyval :=
  match read_text p with
  | None => Ok PNone
  | Some content =>
      let heading := first_heading (split_lines content) in
      if startswith "---" content
      then
        let frontmatter := _parse_frontmatter content in
        if Py.truthy frontmatter
        then
          present <- Py.contains_str "title" frontmatter ;;
          if present then Py.getitem_str "title" frontmatter
          else Ok heading
        else Ok heading
      else Ok heading
  end.

(** [_title_from_filename] *)
Definition _title_from_filename (stem : string) : string :=
  let title := strip_number stem in
  let title := sub_runs is_sep " " false title in
  str_title (rt E) title.

Fixpoint first_pattern (ps : list (string -> option string)) (n : string)
    : option string :=
  match ps with
  | [] => None
  | p :: ps' =>
      match p n with
      | Some d => Some d
      | None => first_pattern ps' n
      end
  end.

(** [_extract_sort_key] *)
Definition _extract_sort_key (p : Path) : Z * string :=
  let name := stem p in
  match leading_digits name with
  | Some d => (int_of_digits d, name)
  | None =>
      match first_pattern CHAPTER_FILE_PATTERNS.patterns (PathLib.name p) with
      | Some d => (int_of_digits d, name)
      | None => (999999, name)
      end
  end.

Definition priority_patterns : list (string -> bool) :=
  [ ends_word_md "complete"; ends_word_md "enhanced";
    ends_word_md "revised"; ends_word_md "final" ].

Fixpoint first_matching (ps : list (string -> bool)) (files : list Path)
    : option Path :=
  match ps with
  | [] => None
  | pat :: ps' =>
      match find (fun f => pat (PathLib.name f)) files with
      | Some f => Some f
      | None => first_matching ps' files
      end
  end.

(** [_pick_best_content_file] *)
Definition _pick_best_content_file (files : list Path) : option Path :=
  match files with
  | [] => None
  | f0 :: _ =>
      match first_matching priority_patterns files with
      | Some f => Some f
      | None => Some f0
      end
  end.

Definition append_opt (l : list Path) (o : option Path) : list Path :=
  match o with
  | Some f => (l ++ [f])%list
  | None => l
  end.

(** The loop of [_collect_markdown_files] over the chapter directories. *)
Fixpoint collect_chapter_dirs (dirs : list Path) (md_files : list Path)
    : result (list Path) :=
  match dirs with
  | [] => Ok md_files
  | chapter_dir :: rest =>
      let content_dir := joinpath chapter_dir "content" in
      has_content <- exists_ content_dir ;;
      let content_files :=
        if has_content then glob E content_dir pat_md else [] in
      match content_files with
      | _ :: _ =>
          collect_chapter_dirs rest
            (append_opt md_files (_pick_best_content_file content_files))
      | [] =>
          let direct_files :=
            filter (fun f => negb (startswith "_" (PathLib.name f)))
                   (glob E chapter_dir pat_md) in
          match direct_files with
          | _ :: _ =>
              collect_chapter_dirs rest
                (append_opt md_files (_pick_best_content_file direct_files))
          | [] => collect_chapter_dirs rest md_files
          end
      end
  end.

(** The filter of the flat branch of [_collect_markdown_files]. *)
Definition flat_candidate (md_file : Path) : bool :=
  let n := PathLib.name md_file in
  negb (startswith "_" n)
  && negb (mem (upper n) ["SUMMARY.MD"; "BOOK.TXT"])
  && negb (mem n INTRO_FILES)
  && negb (mem n SKIP_FILES).

(** [_collect_markdown_files] *)
Definition _collect_markdown_files : result (list Path) :=
  let chapter_dirs :=
    stable_sort path_leb (glob E (book_root E) pat_chapter_dir) in
  match chapter_dirs with
  | _ :: _ => collect_chapter_dirs chapter_dirs []
  | [] => Ok (filter flat_candidate (glob E (book_root E) pat_md))
  end.

(** The key of [md_files.sort]: [(_extract_sort_key(p), p.name.lower())]. *)
Definition sort_key (p : Path) : (Z * string) * string :=
  (_extract_sort_key p, lower (PathLib.name p)).

Definition key_compare : (Z * string) * string -> (Z * string) * string -> comparison :=
  tuple_compare (tuple_compare Z.compare String.compare) String.compare.

Definition key_leb (k1 k2 : (Z * string) * string) : bool :=
  leb_of key_compare k1 k2.

Definition sort_md_files (md_files : list Path) : list Path :=
  stable_sort (fun p q => key_leb (sort_key p) (sort_key q)) md_files.

(** The first loop of [_auto_detect]: the first intro file that exists. *)
Fixpoint intro_step (names : list string) : result (list Chapter) :=
  match names with
  | [] => Ok []
  | intro_file :: rest =>
      let intro_path := joinpath (book_root E) intro_file in
      found <- exists_ intro_path ;;
      if found
      then
        t <- _extract_title_from_file intro_path ;;
        c <- _enrich_with_frontmatter
               (mk_chapter 0 (Py.or_else t (PStr "Introduction")) intro_path true) ;;
        Ok [c]
      else intro_step rest
  end.

(** [self._extract_title_from_file(file_path) or
    self._title_from_filename(file_path.stem)] *)
Definition auto_title (p : Path) : result pyval :=
  t <- _extract_title_from_file p ;;
  Ok (Py.or_else t (PStr (_title_from_filename (stem p)))).

(** The second loop of [_auto_detect]. *)
Fixpoint number_step (md_files : list Path) (chapter_num : Z)
    (chapters : list Chapter) : result (list Chapter) :=
  match md_files with
  | [] => Ok chapters
  | p :: rest =>
      if existsb (fun c => path_eqb (file_path c) p) chapters
      then number_step rest chapter_num chapters
      else if mem (PathLib.name p) SKIP_FILES
      then number_step rest chapter_num chapters
      else
        title <- auto_title p ;;
        let chapter_num := chapter_num + 1 in
        c <- _enrich_with_frontmatter (mk_chapter chapter_num title p false) ;;
        number_step rest chapter_num (chapters ++ [c])
  end.

(** [_auto_detect] *)
Definition _auto_detect : result BookStructure :=
  chapters <- intro_step INTRO_FILES ;;
  md_files <- _collect_markdown_files ;;
  chapters <- number_step (sort_md_files md_files) 0 chapters ;;
  Ok (mk_structure auto E PNone PNone chapters).

(** [self.book_root / rel_path], or [summary_path.parent / rel_path] when
    the former does not exist. *)
Definition resolve_link (summary_path : Path) (rel_path : string)
    : result Path :=
  let file_path := joinpath (book_root E) rel_path in
  found <- exists_ file_path ;;
  if found then Ok file_path
  else Ok (joinpath (parent summary_path) rel_path).

Definition SUMMARY_INTRO : list string :=
  ["readme.md"; "index.md"; "introduction.md"].

(** The loop of [_parse_summary_md] over the lines of the manifest. *)
Fixpoint summary_step (summary_path : Path) (lines : list string)
    (chapter_num : Z) (chapters : list Chapter) : result (list Chapter) :=
  match lines with
  | [] => Ok chapters
  | line :: rest =>
      match link_search line with
      | None => summary_step summary_path rest chapter_num chapters
      | Some (g1, g2, _) =>
          let title := strip g1 in
          let rel_path := strip g2 in
          file_path <- resolve_link summary_path rel_path ;;
          found <- exists_ file_path ;;
          if found
          then
            if mem (lower rel_path) SUMMARY_INTRO
            then
              c <- _enrich_with_frontmatter
                     (mk_chapter 0 (PStr title) file_path true) ;;
              summary_step summary_path rest chapter_num (chapters ++ [c])
            else
              let chapter_num := chapter_num + 1 in
              c <- _enrich_with_frontmatter
                     (mk_chapter chapter_num (PStr title) file_path false) ;;
              summary_step summary_path rest chapter_num (chapters ++ [c])
          else summary_step summary_path rest chapter_num chapters
      end
  end.

(** [_parse_summary_md] *)
Definition _parse_summary_md (summary_path : Path) : result BookStructure :=
  match read_text summary_path with
  | None => _auto_detect
  | Some content =>
      chapters <- summary_step summary_path (split_lines content) 0 [] ;;
      Ok (mk_structure summary E PNone PNone chapters)
  end.

Definition LEANPUB_MARKERS : list string :=
  ["frontmatter:"; "mainmatter:"; "backmatter:"].

Definition LEANPUB_INTRO : list string :=
  ["introduction.md"; "preface.md"; "foreword.md"].

(** [base_dir / line], or [self.book_root / line] when the former does
    not exist. *)
Definition resolve_entry (base_dir : Path) (line : string) : result Path :=
  let file_path := joinpath base_dir line in
  found <- exists_ file_path ;;
  if found then Ok file_path else Ok (joinpath (book_root E) line).

(** The loop of [_parse_leanpub] over the lines of [Book.txt]. *)
Fixpoint leanpub_step (base_dir : Path) (lines : list string)
    (chapter_num : Z) (chapters : list Chapter) : result (list Chapter) :=
  match lines with
  | [] => Ok chapters
  | line :: rest =>
      let line := strip line in
      if is_empty line || startswith "#" line
      then leanpub_step base_dir rest chapter_num chapters
      else if mem line LEANPUB_MARKERS
      then leanpub_step base_dir rest chapter_num chapters
      else
        file_path <- resolve_entry base_dir line ;;
        found <- exists_ file_path ;;
        if found && String.eqb (suffix file_path) ".md"
        then
          t <- _extract_title_from_file file_path ;;
          let title := Py.or_else t (PStr (stem file_path)) in
          if mem (lower line) LEANPUB_INTRO
          then
            c <- _enrich_with_frontmatter (mk_chapter 0 title file_path true) ;;
            leanpub_step base_dir rest chapter_num (chapters ++ [c])
          else
            let chapter_num := chapter_num + 1 in
            c <- _enrich_with_frontmatter
                   (mk_chapter chapter_num title file_path false) ;;
            leanpub_step base_dir rest chapter_num (chapters ++ [c])
        else leanpub_step base_dir rest chapter_num chapters
  end.

(** [manuscript_dir if manuscript_dir.exists() else self.book_root] *)
Definition leanpub_base : result Path :=
  let manuscript_dir := joinpath (book_root E) "manuscript" in
  found <- exists_ manuscript_dir ;;
  Ok (if found then manuscript_dir else book_root E).

(** [_parse_leanpub] *)
Definition _parse_leanpub (book_txt_path : Path) : result BookStructure :=
  match read_text book_txt_path with
  | None => _auto_detect
  | Some content =>
      base_dir <- leanpub_base ;;
      chapters <- leanpub_step base_dir (split_lines content) 0 [] ;;
      Ok (mk_structure leanpub E PNone PNone chapters)
  end.

(** ['index' in file_name.lower() or file_name == rmd_files[0]] *)
Definition bookdown_is_intro (rmd_files : pyval) (file_name : string)
    : result bool :=
  if contains "index" (lower file_name) then Ok true
  else first <- Py.index0 rmd_files ;; Ok (Py.is_str file_name first).

(** [self.book_root / file_name], with the retry on the [.md] suffix;
    [None] is the [continue] of the loop. *)
Definition bookdown_resolve (file_name : string) : result (option Path) :=
  let file_path := joinpath (book_root E) file_name in
  found <- exists_ file_path ;;
  if found then Ok (Some file_path)
  else
    md_path <- with_suffix file_path ".md" ;;
    found <- exists_ md_path ;;
    if found then Ok (Some md_path) else Ok None.

(** The loop of [_parse_bookdown] over [rmd_files]. *)
Fixpoint bookdown_step (rmd_files : pyval) (items : list pyval)
    (chapter_num : Z) (chapters : list Chapter) : result (list Chapter) :=
  match items with
  | [] => Ok chapters
  | item :: rest =>
      match item with
      | PStr file_name =>
          resolved <- bookdown_resolve file_name ;;
          match resolved with
          | None => bookdown_step rmd_files rest chapter_num chapters
          | Some file_path =>
              t <- _extract_title_from_file file_path ;;
              let title := Py.or_else t (PStr (stem file_path)) in
              intro <- bookdown_is_intro rmd_files file_name ;;
              if intro && (chapter_num =? 0)
              then
                c <- _enrich_with_frontmatter
                       (mk_chapter 0 title file_path true) ;;
                bookdown_step rmd_files rest chapter_num (chapters ++ [c])
              else
                let chapter_num := chapter_num + 1 in
                c <- _enrich_with_frontmatter
                       (mk_chapter chapter_num title file_path false) ;;
                bookdown_step rmd_files rest chapter_num (chapters ++ [c])
          end
      | _ => Raise TypeError
      end
  end.

(** [_parse_bookdown] *)
Definition _parse_bookdown (bookdown_path : Path) : result BookStructure :=
  if negb (YAML_AVAILABLE (rt E)) then _auto_detect
  else
    match read_text bookdown_path with
    | None => _auto_detect
    | Some content =>
        match yaml_safe_load (rt E) content with
        | None => _auto_detect
        | Some config =>
            fallback <- Py.get config "title" PNone ;;
            book_title <- Py.get config "book_filename" fallback ;;
            rmd_files <- Py.get config "rmd_files" (PList []) ;;
            items <- Py.iter rmd_files ;;
            chapters <- bookdown_step rmd_files items 0 [] ;;
            Ok (mk_structure bookdown E book_title PNone chapters)
        end
    end.

(** [config.get('book', {}).get(key, default)] *)
Definition toml_book_get (config : pyval) (key : string) (default : pyval)
    : result pyval :=
  book <- Py.get config "book" (PDict []) ;;
  Py.get book key default.

(** The [try] block of [_parse_mdbook_toml]: the title and author left
    in the structure when the block ends or is abandoned. *)
Definition toml_metadata (toml_path : Path) : pyval * pyval :=
  if TOML_AVAILABLE (rt E)
  then
    match read_text toml_path with
    | None => (PNone, PNone)
    | Some content =>
        match tomllib_loads (rt E) content with
        | None => (PNone, PNone)
        | Some config =>
            match toml_book_get config "title" PNone with
            | Raise _ => (PNone, PNone)
            | Ok t =>
                match
                  (authors <- toml_book_get config "authors" PNone ;;
                   if Py.truthy authors
                   then
                     l <- toml_book_get config "authors" (PList [PNone]) ;;
                     Py.index0 l
                   else Ok PNone)
                with
                | Raise _ => (t, PNone)
                | Ok a => (t, a)
                end
            end
        end
    end
  else (PNone, PNone).

(** [_parse_mdbook_toml] *)
Definition _parse_mdbook_toml (toml_path : Path) : result BookStructure :=
  let (t, a) := toml_metadata toml_path in
  let src_summary := joinpath (joinpath (book_root E) "src") "SUMMARY.md" in
  found <- exists_ src_summary ;;
  if found
  then
    summary_structure <- _parse_summary_md src_summary ;;
    Ok (mk_structure mdbook E t a (chapters summary_structure))
  else _auto_detect.

(** [detect_structure] *)
Definition detect_structure : result BookStructure :=
  let summary_path := joinpath (book_root E) "SUMMARY.md" in
  found <- exists_ summary_path ;;
  if found then _parse_summary_md summary_path
  else
    let leanpub_path := joinpath (book_root E) "Book.txt" in
    found <- exists_ leanpub_path ;;
    if found then _parse_leanpub leanpub_path
    else
      let bookdown_path := joinpath (book_root E) "_bookdown.yml" in
      found <- exists_ bookdown_path ;;
      if found then _parse_bookdown bookdown_path
      else
        let mdbook_path := joinpath (book_root E) "book.toml" in
        found <- exists_ mdbook_path ;;
        if found then _parse_mdbook_toml mdbook_path
        else _auto_detect.

End StructureDetector.

(** ** book_writer.py: chapter creation *)

Module BookWriter.

(** [slugify] *)
Definition slugify (text : string) : string :=
  let text := strip (lower text) in
  let text :=
    remove_chars
      (fun c => negb (is_word c || is_space c || Ascii.eqb c "-"%char)) text in
  let text :=
    sub_runs (fun c => is_space c || is_sep c) "-" false text in
  strip_char "-"%char text.

(** [item.is_file()] *)
Definition is_file (E : Env) (p : Path) : result bool :=
  match fs_is_file (fs E) p with
  | Some b => Ok b
  | None => Raise OSError
  end.

(** [chapters_dir.iterdir()], run to its end. *)
Definition iterdir (E : Env) (p : Path) : result (list string) :=
  match fs_iterdir (fs E) p with
  | Some names => Ok names
  | None => Raise OSError
  end.

(** The loop of [get_next_chapter_number]. *)
Fixpoint max_chapter_number (E : Env) (chapters_dir : Path)
    (items : list string) (max_num : Z) : result Z :=
  match items with
  | [] => Ok max_num
  | n :: rest =>
      let item := (chapters_dir ++ [n])%list in
      file <- is_file E item ;;
      if file && String.eqb (suffix item) ".md"
      then match leading_digits (stem item) with
           | Some d =>
               max_chapter_number E chapters_dir rest
                 (Z.max max_num (int_of_digits d))
           | None => max_chapter_number E chapters_dir rest max_num
           end
      else max_chapter_number E chapters_dir rest max_num
  end.

(** [get_next_chapter_number] *)
Definition get_next_chapter_number (E : Env) (chapters_dir : Path)
    : result Z :=
  found <- exists_ E chapters_dir ;;
  if negb found then Ok 1
  else
    items <- iterdir E chapters_dir ;;
    max_num <- max_chapter_number E chapters_dir items 0 ;;
    Ok (max_num + 1).

Definition decimal (n : N) : string :=
  NilEmpty.string_of_uint (N.to_uint n).

(** [f"{n:02d}"] *)
Definition format_02d (n : Z) : string :=
  if n <? 0 then "-" ++ decimal (Z.to_N (- n))
  else
    let d := decimal (Z.to_N n) in
    if (String.length d <? 2)%nat then "0" ++ d else d.

(** The file name of [new_chapter]. *)
Definition chapter_filename (chapter_num : Z) (title : string) : string :=
  format_02d chapter_num ++ "-" ++ slugify title ++ ".md".

(** The [frontmatter] dict of [new_chapter]. *)
Definition chapter_frontmatter (title : string) (chapter_num : Z)
    (today : string) (draft : bool) : pyval :=
  PDict ([(PStr "title", PStr title); (PStr "chapter", PInt chapter_num);
          (PStr "date", PStr today)]
         ++ (if draft then [(PStr "draft", PBool true)] else []))%list.

(** The [content] of [new_chapter], given the dumped frontmatter. *)
Definition chapter_content (frontmatter_yaml title : string) : string :=
  "---" ++ nl ++ frontmatter_yaml ++ "---" ++ nl ++ nl ++ "# " ++ title
  ++ nl ++ nl.

(** [new_chapter], up to [chapter_path.write_text(content)]: the path
    written and the text written to it, or [None] when the command exits
    because [chapters/] is missing.  [today] is
    [date.today().isoformat()]. *)
Definition new_chapter (E : Env) (today title : string) (draft : bool)
    : result (option (Path * string)) :=
  let chapters_dir := joinpath (book_root E) "chapters" in
  found <- exists_ E chapters_dir ;;
  if negb found then Ok None
  else
    chapter_num <- get_next_chapter_number E chapters_dir ;;
    let filename := chapter_filename chapter_num title in
    let chapter_path := joinpath chapters_dir filename in
    let frontmatter := chapter_frontmatter title chapter_num today draft in
    let frontmatter_yaml := yaml_dump (rt E) frontmatter in
    Ok (Some (chapter_path, chapter_content frontmatter_yaml title)).

End BookWriter.

(** ** Concrete environments

    A file system given by the text of its files and the listing of its
    directories, and a runtime whose YAML loader knows the documents of a
    table (and raises on any other text), used to run the code on
    examples. *)

Module Fixture.

Fixpoint assoc {A : Type} (p : Path) (l : list (Path * A)) : option A :=
  match l with
  | [] => None
  | (q, a) :: l' => if path_eqb p q then Some a else assoc p l'
  end.

Definition is_some {A : Type} (o : option A) : bool :=
  match o with Some _ => true | None => false end.

Definition mem_fs (files : list (Path * string))
    (dirs : list (Path * list string)) : FileSystem :=
  {| fs_exists :=
       fun p => Some (is_some (assoc p files) || is_some (assoc p dirs));
     fs_read_text := fun p => assoc p files;
     fs_is_file := fun p => Some (is_some (assoc p files));
     fs_listdir := fun p => match assoc p dirs with
                            | Some l => l
                            | None => []
                            end;
     fs_iterdir := fun p => assoc p dirs |}.

Fixpoint table_lookup {A : Type} (k : string) (l : list (string * A))
    : option A :=
  match l with
  | [] => None
  | (k', a) :: l' => if String.eqb k k' then Some a else table_lookup k l'
  end.

(** Digits with single underscores between them. *)
Fixpoint digits_body (after_digit : bool) (s : string) : bool :=
  match s with
  | "" => after_digit
  | String c s' =>
      if is_digit c then digits_body true s'
      else if Ascii.eqb c "_"%char then after_digit && digits_body false s'
      else false
  end.

(** [int(s)] on signed decimal numerals. *)
Definition int_of_numeral (s : string) : option Z :=
  let s := strip s in
  let (neg, body) :=
    match s with
    | String "-"%char r => (true, r)
    | String "+"%char r => (false, r)
    | _ => (false, s)
    end in
  if digits_body false body
  then
    let n := int_of_digits (remove_chars (fun c => Ascii.eqb c "_"%char) body) in
    Some (if neg then - n else n)
  else None.

(** [str(v)] on the scalars of the examples. *)
Definition str_of_scalar (v : pyval) : string :=
  match v with
  | PStr s => s
  | PDate iso => iso
  | PNone => "None"
  | PBool true => "True"
  | PBool false => "False"
  | PInt z => (if z <? 0 then "-" else "")
              ++ BookWriter.decimal (Z.to_N (Z.abs z))
  | _ => ""
  end.

(** [s.title()] on ASCII text, all the examples have: a letter is
    upper-cased after a character that is not a letter and lower-cased
    after a letter. *)
Fixpoint title_ascii (prev_cased : bool) (s : string) : string :=
  match s with
  | "" => ""
  | String c s' =>
      if is_ascii_alpha c
      then String (if prev_cased
                   then lower_char c
                   else (if is_ascii_lower c then shift_down c else c))
                  (title_ascii true s')
      else String c (title_ascii false s')
  end.

Definition table_runtime (yaml_docs toml_docs : list (string * pyval))
    (dumps : pyval -> string) : Runtime :=
  {| YAML_AVAILABLE := true;
     yaml_safe_load := fun text => table_lookup text yaml_docs;
     yaml_dump := dumps;
     TOML_AVAILABLE := true;
     tomllib_loads := fun text => table_lookup text toml_docs;
     py_str := fun v => Some (str_of_scalar v);
     py_int_of_str := int_of_numeral;
     str_title := title_ascii false |}.

Definition root : Path := ["book"].

Definition at_root (n : string) : Path := joinpath root n.

Definition env (yaml_docs : list (string * pyval))
    (files : list (Path * string)) (dirs : list (Path * list string)) : Env :=
  {| rt := table_runtime yaml_docs [] (fun _ => "");
     fs := mem_fs files dirs;
     book_root := root |}.

(** What a test reads off a chapter. *)
Definition view (c : Chapter) : Z * pyval * Path * bool :=
  (number c, title c, file_path c, is_intro c).

Definition views (r : result BookStructure)
    : result (format * list (Z * pyval * Path * bool)) :=
  s <- r ;; Ok (format_type s, map view (chapters s)).

End Fixture.

(** ** Definitions used to state the properties *)

(** The integer a file's frontmatter gives for [chapter], when the file
    can be read, has a non-empty frontmatter with that key, and [int]
    accepts the value. *)
Definition frontmatter_chapter (E : Env) (p : Path) : option Z :=
  match read_text E p with
  | None => None
  | Some content =>
      let frontmatter := _parse_frontmatter E content in
      if Py.truthy frontmatter
      then match chapter_value E frontmatter with
           | Ok n => Some n
           | Raise _ => None
           end
      else None
  end.

(** Chapter [c] carries the number [k] it was given by position, unless
    its frontmatter overrides it. *)
Definition numbered_as (E : Env) (k : Z) (c : Chapter) : Prop :=
  number c = match frontmatter_chapter E (file_path c) with
             | Some n => n
             | None => k
             end.

(** A frontmatter on which neither enrichment nor title extraction can
    raise: nothing, or a mapping whose [chapter] is not an infinite float
    and whose [date], if any, [str] accepts. *)
Definition benign_frontmatter (R : Runtime) (v : pyval) : bool :=
  match v with
  | PDict d =>
      match Py.lookup (Py.is_str "chapter") d with
      | Some (PFloat (FInf _)) => false
      | _ => true
      end
      && match Py.lookup (Py.is_str "date") d with
         | Some x => match py_str R x with Some _ => true | None => false end
         | None => true
         end
  | _ => negb (Py.truthy v)
  end.

(** The file at [p] cannot be read or has such a frontmatter. *)
Definition benign_file (E : Env) (p : Path) : Prop :=
  forall content,
    read_text E p = Some content ->
    benign_frontmatter (rt E) (_parse_frontmatter E content) = true.

Definition benign (E : Env) : Prop := forall p, benign_file E p.

(** [exists()] raises on no path. *)
Definition examinable (E : Env) : Prop :=
  forall p, fs_exists (fs E) p <> None.

(** [exists()] returns, and returns true. *)
Definition found (E : Env) (p : Path) : bool :=
  match fs_exists (fs E) p with
  | Some true => true
  | _ => false
  end.

Definition intro_count (cs : list Chapter) : nat :=
  List.length (filter is_intro cs).

Definition non_intro (cs : list Chapter) : list Chapter :=
  filter (fun c => negb (is_intro c)) cs.

(** [k+1, k+2, ..., k+n] *)
Fixpoint count_from (k : Z) (n : nat) : list Z :=
  match n with
  | O => []
  | S n' => (k + 1) :: count_from (k + 1) n'
  end.

(** The numbers a manifest parser hands out: 0 to an introduction, the
    next number to anything else. *)
Fixpoint numbering (k : Z) (intro_flags : list bool) : list Z :=
  match intro_flags with
  | [] => []
  | true :: rest => 0 :: numbering k rest
  | false :: rest => (k + 1) :: numbering (k + 1) rest
  end.

(** A three-way comparison that is a total order. *)
Class TotalCompare {A : Type} (cmp : A -> A -> comparison) : Prop := {
  cmp_eq : forall x y, cmp x y = Eq -> x = y;
  cmp_refl : forall x, cmp x x = Eq;
  cmp_antisym : forall x y, cmp y x = CompOpp (cmp x y);
  cmp_trans : forall x y z, cmp x y = Lt -> cmp y z = Lt -> cmp x z = Lt
}.

(** A step that keeps the path, the intro flag and the number. *)
Definition keeps (set : Chapter -> pyval -> result Chapter) : Prop :=
  forall c v c', set c v = Ok c' ->
    file_path c' = file_path c /\ is_intro c' = is_intro c
    /\ number c' = number c.

(** Sublists in order. *)
Inductive subseq {A : Type} : list A -> list A -> Prop :=
  | subseq_nil : subseq [] []
  | subseq_skip x l1 l2 : subseq l1 l2 -> subseq l1 (x :: l2)
  | subseq_take x l1 l2 : subseq l1 l2 -> subseq (x :: l1) (x :: l2).


(** The number [_extract_sort_key] finds in a file name, if any. *)
Definition extracted_number (p : Path) : option Z :=
  match leading_digits (stem p) with
  | Some d => Some (int_of_digits d)
  | None =>
      match first_pattern CHAPTER_FILE_PATTERNS.patterns (PathLib.name p) with
      | Some d => Some (int_of_digits d)
      | None => None
      end
  end.






Module Cases.

Import Fixture.

(** Two numbered files, the first with [chapter: 5] in its frontmatter. *)
Definition override_env : Env :=
  env [(nl ++ "chapter: 5", PDict [(PStr "chapter", PInt 5)])]
      [(at_root "01-a.md", "---" ++ nl ++ "chapter: 5" ++ nl ++ "---" ++ nl);
       (at_root "02-b.md", "# B" ++ nl)]
      [(root, ["02-b.md"; "01-a.md"])].

(** A file named by a number alone, and a file whose frontmatter has an
    empty [title] above a heading. *)
Definition title_env : Env :=
  env [(nl ++ "title: ''", PDict [(PStr "title", PStr "")])]
      [(at_root "01.md", "Some text." ++ nl);
       (at_root "ch.md",
        "---" ++ nl ++ "title: ''" ++ nl ++ "---" ++ nl ++ "# X" ++ nl)]
      [(root, ["01.md"; "ch.md"])].

(** A chapter whose frontmatter is the scalar 42. *)
Definition scalar_frontmatter_env : Env :=
  env [(nl ++ "42", PInt 42)]
      [(at_root "01-a.md",
        "---" ++ nl ++ "42" ++ nl ++ "---" ++ nl ++ "# A" ++ nl)]
      [(root, ["01-a.md"])].

(** A chapter whose frontmatter has [chapter: .inf]. *)
Definition infinite_chapter_env : Env :=
  env [(nl ++ "chapter: .inf",
        PDict [(PStr "chapter", PFloat (FInf false))])]
      [(at_root "01-a.md",
        "---" ++ nl ++ "chapter: .inf" ++ nl ++ "---" ++ nl ++ "# A" ++ nl)]
      [(root, ["01-a.md"])].

Definition book_toml : string :=
  "[book]" ++ nl ++ "title = 'My Book'" ++ nl ++ "authors = ['Ann']" ++ nl.

(** A [book.toml] with a title and an author, and no [src/SUMMARY.md]. *)
Definition toml_env : Env :=
  {| rt := table_runtime []
             [(book_toml,
               PDict [(PStr "book",
                       PDict [(PStr "title", PStr "My Book");
                              (PStr "authors", PList [PStr "Ann"])])])]
             (fun _ => "");
     fs := mem_fs [(at_root "book.toml", book_toml);
                   (at_root "01-a.md", "# A" ++ nl)]
                  [(root, ["book.toml"; "01-a.md"])];
     book_root := root |}.

Definition summary_path : Path := at_root "SUMMARY.md".


(** A manifest whose first link names a [README.md] in a subdirectory,
    followed by two links that pass the intro test, with a dangling link
    in between. *)
Definition intro_links_env : Env :=
  env []
      [(summary_path,
        "[Guide](docs/README.md)" ++ nl ++ "[Intro](README.md)" ++ nl
        ++ "[Gone](missing.md)" ++ nl ++ "[Index](index.md)" ++ nl);
       (at_root "docs/README.md", "# Guide" ++ nl);
       (at_root "README.md", "# Intro" ++ nl);
       (at_root "index.md", "# Index" ++ nl)]
      [(root, ["SUMMARY.md"; "README.md"; "index.md"; "docs"])].

Definition second_yaml : string :=
  "chapter: 2" ++ nl ++ "date: '2024-05-01'" ++ nl
  ++ "title: Second Chapter" ++ nl.

Definition second_loaded : pyval :=
  PDict [(PStr "chapter", PInt 2); (PStr "date", PStr "2024-05-01");
         (PStr "title", PStr "Second Chapter")].

Definition writer_runtime : Runtime :=
  table_runtime
    [(nl ++ "chapter: 2" ++ nl ++ "date: '2024-05-01'" ++ nl
      ++ "title: Second Chapter", second_loaded)]
    [] (fun _ => second_yaml).

(** The book the writer adds a chapter to: one chapter is there. *)
Definition writer_env : Env :=
  {| rt := writer_runtime;
     fs := mem_fs [(at_root "chapters/01-first.md", "# First" ++ nl)]
                  [(root, ["chapters"]);
                   (at_root "chapters", ["01-first.md"])];
     book_root := root |}.


(** The scenarios of the specification. *)
Definition scenario_summary : Env :=
  env []
      [(summary_path,
        "# My Book" ++ nl ++ "- [Intro](README.md)" ++ nl
        ++ "- [One](chapters/01.md)" ++ nl ++ "- [Two](chapters/02.md)");
       (at_root "README.md", "# Hello" ++ nl);
       (at_root "chapters/01.md", ""); (at_root "chapters/02.md", "")]
      [(root, ["SUMMARY.md"; "README.md"; "chapters"])].

Definition scenario_flat : Env :=
  env []
      [(at_root "02-two.md", ""); (at_root "01-one.md", "");
       (at_root "readme.md", "")]
      [(root, ["02-two.md"; "01-one.md"; "readme.md"])].

Definition scenario_variants : Env :=
  env [] []
      [(root, ["chapter-01"]);
       (at_root "chapter-01/content", ["draft.md"; "revised.md"])].

(** An empty [_bookdown.yml]: YAML loads it to [None]. *)
Definition empty_bookdown_env : Env :=
  env [("", PNone)]
      [(at_root "_bookdown.yml", ""); (at_root "index.md", "# Index" ++ nl)]
      [(root, ["_bookdown.yml"; "index.md"])].

Definition bookdown_yaml : string :=
  "rmd_files:" ++ nl ++ "- index.Rmd" ++ nl ++ "- preface-index.Rmd" ++ nl
  ++ "- 01-start.Rmd" ++ nl ++ "- index-of-terms.Rmd" ++ nl.

(** A [_bookdown.yml] with two index files first and one last. *)
Definition bookdown_env : Env :=
  env [(bookdown_yaml,
        PDict [(PStr "rmd_files",
                PList [PStr "index.Rmd"; PStr "preface-index.Rmd";
                       PStr "01-start.Rmd"; PStr "index-of-terms.Rmd"])])]
      [(at_root "_bookdown.yml", bookdown_yaml);
       (at_root "index.md", "# Index" ++ nl);
       (at_root "preface-index.md", "# Preface" ++ nl);
       (at_root "01-start.md", "# Start" ++ nl);
       (at_root "index-of-terms.md", "# Terms" ++ nl)]
      [(root, ["_bookdown.yml"; "index.md"; "preface-index.md";
               "01-start.md"; "index-of-terms.md"])].

(** A root that holds three manifests at once, [SUMMARY.md] not among
    them. *)
Definition three_manifests_env : Env :=
  env [(bookdown_yaml, PDict [(PStr "rmd_files", PList [PStr "b.md"])])]
      [(at_root "Book.txt", "a.md" ++ nl);
       (at_root "_bookdown.yml", bookdown_yaml);
       (at_root "book.toml", book_toml);
       (at_root "a.md", "# A" ++ nl); (at_root "b.md", "# B" ++ nl)]
      [(root, ["Book.txt"; "_bookdown.yml"; "book.toml"; "a.md"; "b.md"])].

(** A chapter whose frontmatter is the string [chapter one], not a
    mapping. *)
Definition string_frontmatter_env : Env :=
  env [(nl ++ "chapter one", PStr "chapter one")]
      [(at_root "01-a.md",
        "---" ++ nl ++ "chapter one" ++ nl ++ "---" ++ nl ++ "# A" ++ nl)]
      [(root, ["01-a.md"])].

(** A [book.toml] with a title and an author, no [src/SUMMARY.md], and a
    [Book.txt] beside it. *)
Definition toml_leanpub_env : Env :=
  {| rt := table_runtime []
             [(book_toml,
               PDict [(PStr "book",
                       PDict [(PStr "title", PStr "My Book");
                              (PStr "authors", PList [PStr "Ann"])])])]
             (fun _ => "");
     fs := mem_fs [(at_root "book.toml", book_toml);
                   (at_root "Book.txt", "01-a.md" ++ nl);
                   (at_root "01-a.md", "# A" ++ nl)]
                  [(root, ["book.toml"; "Book.txt"; "01-a.md"])];
     book_root := root |}.



(** A [Book.txt] with a marker, a comment, an entry found in
    [manuscript/], an entry found in the root only, a dangling entry and
    an entry that is no markdown file. *)
Definition leanpub_env : Env :=
  env []
      [(at_root "Book.txt",
        "frontmatter:" ++ nl ++ "preface.md" ++ nl ++ "# comment" ++ nl
        ++ " 01-a.md " ++ nl ++ "missing.md" ++ nl ++ "notes.txt" ++ nl);
       (at_root "manuscript/preface.md", "# Preface" ++ nl);
       (at_root "01-a.md", "# A" ++ nl);
       (at_root "notes.txt", "notes")]
      [(root, ["Book.txt"; "manuscript"; "01-a.md"; "notes.txt"]);
       (at_root "manuscript", ["preface.md"])].


End Cases.

(** The [title] of a file's frontmatter, when the frontmatter is a
    mapping that has the key. *)
Definition frontmatter_title (E : Env) (content : string) : option pyval :=
  if startswith "---" content
  then match _parse_frontmatter E content with
       | PDict d => Py.lookup (Py.is_str "title") d
       | _ => None
       end
  else None.

(** The title by priority: the frontmatter [title] if there is one,
    else the first level-1 heading, else a fallback. *)
Definition title_with_fallback (E : Env) (p : Path) (fallback : pyval)
    : pyval :=
  match read_text E p with
  | None => fallback
  | Some content =>
      match frontmatter_title E content with
      | Some v => v
      | None =>
          match first_heading (split_lines content) with
          | PNone => fallback
          | h => h
          end
      end
  end.

(** The title as the specification words it: the fallback is the title
    derived from the file name. *)
Definition title_by_priority (E : Env) (p : Path) : pyval :=
  title_with_fallback E p (PStr (_title_from_filename E (stem p))).

(** The link a line of [SUMMARY.md] contributes: title, path as written
    and resolved path of the first link on the line, when the resolved
    path exists. *)
Definition resolved_path (E : Env) (summary_path : Path)
    (rel_path : string) : Path :=
  let file_path := joinpath (book_root E) rel_path in
  if found E file_path then file_path
  else joinpath (parent summary_path) rel_path.

Definition line_link (E : Env) (summary_path : Path) (line : string)
    : option (string * string * Path) :=
  match link_search line with
  | None => None
  | Some (g1, g2, _) =>
      let rel_path := strip g2 in
      let file_path := resolved_path E summary_path rel_path in
      if found E file_path then Some (strip g1, rel_path, file_path)
      else None
  end.

Fixpoint resolved_links (E : Env) (summary_path : Path) (lines : list string)
    : list (string * string * Path) :=
  match lines with
  | [] => []
  | line :: rest =>
      match line_link E summary_path line with
      | Some l => l :: resolved_links E summary_path rest
      | None => resolved_links E summary_path rest
      end
  end.

(** What the manifest-link parser needs of a line to get past it:
    [exists()] returns on the paths it is asked about, and the file the
    first link resolves to, if any, has a frontmatter on which enrichment
    does not raise. *)
Definition line_passable (E : Env) (summary_path : Path) (line : string)
    : Prop :=
  match link_search line with
  | None => True
  | Some (_, g2, _) =>
      let rel_path := strip g2 in
      fs_exists (fs E) (joinpath (book_root E) rel_path) <> None
      /\ fs_exists (fs E) (resolved_path E summary_path rel_path) <> None
      /\ (found E (resolved_path E summary_path rel_path) = true ->
          benign_file E (resolved_path E summary_path rel_path))
  end.

(** The intro test of the manifest-link parser: on the path as written. *)
Definition link_is_intro (l : string * string * Path) : bool :=
  mem (lower (snd (fst l))) SUMMARY_INTRO.



(** The intro test as the specification words it: on the file name of the
    resolved path. *)
Definition intro_by_filename (cs : list Chapter) : Prop :=
  forall c, In c cs ->
    is_intro c = mem (lower (PathLib.name (file_path c))) SUMMARY_INTRO.

(** The numbers as the specification words them: 0 for the first
    introduction only, the next number for every other link. *)
Fixpoint numbering_first_intro (seen : bool) (k : Z) (intro_flags : list bool)
    : list Z :=
  match intro_flags with
  | [] => []
  | true :: rest =>
      if seen then (k + 1) :: numbering_first_intro true (k + 1) rest
      else 0 :: numbering_first_intro true k rest
  | false :: rest => (k + 1) :: numbering_first_intro seen (k + 1) rest
  end.

(** The directory [Book.txt] entries are resolved against first. *)
Definition leanpub_base_dir (E : Env) : Path :=
  let manuscript_dir := joinpath (book_root E) "manuscript" in
  if found E manuscript_dir then manuscript_dir else book_root E.

(** The entry a line of [Book.txt] contributes: the stripped line and the
    resolved path, when the line names an existing markdown file. *)
Definition leanpub_entry (E : Env) (base_dir : Path) (raw : string)
    : option (string * Path) :=
  let line := strip raw in
  if is_empty line || startswith "#" line then None
  else if mem line LEANPUB_MARKERS then None
  else
    let file_path := joinpath base_dir line in
    let file_path :=
      if found E file_path then file_path
      else joinpath (book_root E) line in
    if found E file_path && String.eqb (suffix file_path) ".md"
    then Some (line, file_path) else None.

Fixpoint leanpub_entries (E : Env) (base_dir : Path) (lines : list string)
    : list (string * Path) :=
  match lines with
  | [] => []
  | raw :: rest =>
      match leanpub_entry E base_dir raw with
      | Some e => e :: leanpub_entries E base_dir rest
      | None => leanpub_entries E base_dir rest
      end
  end.

(** The intro test of the plain-text parser. *)
Definition entry_is_intro (e : string * Path) : bool :=
  mem (lower (fst e)) LEANPUB_INTRO.

(** An item of [rmd_files] that resolves and passes the intro test of the
    YAML-config parser. *)
Definition bookdown_eligible (E : Env) (rmd_files : pyval) (item : pyval)
    : bool :=
  match item with
  | PStr file_name =>
      match bookdown_resolve E file_name,
            bookdown_is_intro rmd_files file_name with
      | Ok (Some _), Ok true => true
      | _, _ => false
      end
  | _ => false
  end.



(** The shape of the file names the writer creates: a digit first, not
    two zeros in front, no slash, and the markdown suffix. *)
Definition chapter_name_shape (fname : string) : Prop :=
  exists c1 c2 r,
    fname = String c1 (String c2 r)
    /\ is_digit c1 = true
    /\ ~ (c1 = "0"%char /\ c2 = "0"%char)
    /\ has_char slash fname = false
    /\ endswith ".md" fname = true.

(** A name that no file name of that shape is equal to. *)
Definition not_chapter_name (n : string) : Prop :=
  match n with
  | String c1 (String c2 _) =>
      is_digit c1 = false \/ (c1 = "0"%char /\ c2 = "0"%char)
  | _ => True
  end.


(** [p] is a markdown file directly in directory [d], or in its
    [content] subdirectory. *)
Definition in_chapter_dir (d p : Path) : Prop :=
  exists n, pat_md n = true
    /\ (p = (d ++ [n])%list \/ p = (d ++ ["content"; n])%list).

(** An entry of [dir] that the loop of [get_next_chapter_number]
    counts, with the number it reads from its name. *)
Definition numbered_file (W : Env) (dir : Path) (n : string) (k : Z) : Prop :=
  fs_is_file (fs W) (dir ++ [n])%list = Some true
  /\ suffix (dir ++ [n])%list = ".md"
  /\ exists d, leading_digits (stem (dir ++ [n])%list) = Some d
       /\ k = int_of_digits d.

(** Every character of [s] satisfies [p]. *)
Fixpoint all_chars (p : ascii -> bool) (s : string) : bool :=
  match s with
  | "" => true
  | String c s' => p c && all_chars p s'
  end.

(** A character of a slug: a word character that is neither the
    underscore nor an ASCII capital, or a hyphen. *)
Definition slug_char (c : ascii) : bool :=
  (is_word c && negb (Ascii.eqb c "_"%char) && negb (is_ascii_upper c))
  || Ascii.eqb c "-"%char.

(** * Properties *)

#[local] Arguments mem : simpl never.
#[local] Arguments joinpath : simpl never.
#[local] Arguments sort_md_files : simpl never.
#[local] Arguments _collect_markdown_files : simpl never.
#[local] Arguments auto_title : simpl never.
#[local] Arguments _enrich_with_frontmatter : simpl never.
#[local] Arguments _extract_title_from_file : simpl never.
#[local] Arguments _parse_frontmatter : simpl never.
#[local] Arguments link_search : simpl never.
#[local] Arguments strip : simpl never.
#[local] Arguments lower : simpl never.
#[local] Arguments startswith : simpl never.
#[local] Arguments contains : simpl never.

(** ** [exists()] *)

Lemma exists_found (E : Env) (p : Path) (b : bool) :
  exists_ E p = Ok b -> found E p = b.
Proof.
  unfold exists_, found. destruct (fs_exists (fs E) p) as [[|]|];
    intros H; try discriminate; injection H as <-; reflexivity.
Qed.

Lemma examined_exists (E : Env) (p : Path) :
  fs_exists (fs E) p <> None -> exists_ E p = Ok (found E p).
Proof.
  unfold exists_, found. destruct (fs_exists (fs E) p) as [[|]|];
    intros H; try reflexivity. now contradiction H.
Qed.

(** ** Facts about frontmatter enrichment *)

Section EnrichFacts.

Variable E : Env.

Lemma update_if_present_inv key fm set c c1 :
  update_if_present key fm set c = Ok c1 ->
  (Py.contains_str key fm = Ok false /\ c1 = c)
  \/ (Py.contains_str key fm = Ok true
      /\ exists v, Py.getitem_str key fm = Ok v /\ set c v = Ok c1).
Proof.
  unfold update_if_present, bind.
  destruct (Py.contains_str key fm) as [[|]|e]; try discriminate.
  - destruct (Py.getitem_str key fm) as [v|e]; try discriminate.
    intros H. right. split; [reflexivity|]. exists v. auto.
  - intros H. left. split; congruence.
Qed.

Lemma absent_getitem key fm :
  Py.contains_str key fm = Ok false ->
  exists e, Py.getitem_str key fm = Raise e.
Proof.
  destruct fm; simpl; try discriminate; try (eexists; reflexivity).
  destruct (Py.lookup (Py.is_str key) d); try discriminate.
  eexists; reflexivity.
Qed.

Lemma update_if_present_dict key d set c :
  update_if_present key (PDict d) set c =
  match Py.lookup (Py.is_str key) d with
  | Some v => set c v
  | None => Ok c
  end.
Proof.
  unfold update_if_present; simpl.
  destruct (Py.lookup (Py.is_str key) d); reflexivity.
Qed.

Lemma set_title_keeps : keeps set_title.
Proof. intros c v c' H; injection H as <-; auto. Qed.

Lemma set_author_keeps : keeps set_author.
Proof. intros c v c' H; injection H as <-; auto. Qed.

Lemma set_date_keeps : keeps (set_date E).
Proof.
  intros c v c'. unfold set_date.
  destruct (py_str (rt E) v); [|discriminate].
  intros H; injection H as <-; auto.
Qed.

Lemma set_draft_keeps : keeps set_draft.
Proof. intros c v c' H; injection H as <-; auto. Qed.

Lemma update_keeps key fm set c c1 :
  keeps set ->
  update_if_present key fm set c = Ok c1 ->
  file_path c1 = file_path c /\ is_intro c1 = is_intro c
  /\ number c1 = number c.
Proof.
  intros K H. apply update_if_present_inv in H.
  destruct H as [[_ ->]|[_ [v [_ H]]]]; [auto | exact (K _ _ _ H)].
Qed.

Lemma with_number_same (c : Chapter) : with_number c (number c) = c.
Proof. destruct c; reflexivity. Qed.

(** The [chapter] step: the number becomes the integer of the
    frontmatter's [chapter] when there is one, and nothing else
    changes. *)
Lemma update_number_inv fm c c' :
  update_number E fm c = Ok c' ->
  c' = with_number c match chapter_value E fm with
                     | Ok n => n
                     | Raise _ => number c
                     end.
Proof.
  unfold update_number, bind.
  destruct (Py.contains_str "chapter" fm) as [[|]|e] eqn:P; try discriminate.
  - destruct (chapter_value E fm) as [n|[]]; try discriminate;
      intros H; injection H as <-;
      rewrite ?with_number_same; reflexivity.
  - intros H; injection H as <-.
    destruct (absent_getitem _ _ P) as [e G].
    unfold chapter_value, bind. rewrite G.
    now rewrite with_number_same.
Qed.

(** The chain of updates of [_enrich_with_frontmatter], opened up. *)
Lemma enrich_inv chapter c' :
  _enrich_with_frontmatter E chapter = Ok c' ->
  (c' = chapter /\ frontmatter_chapter E (file_path chapter) = None
   /\ forall content, read_text E (file_path chapter) = Some content ->
        Py.truthy (_parse_frontmatter E content) = false)
  \/ exists content c1 c2 c3 c4 c5,
       read_text E (file_path chapter) = Some content
       /\ Py.truthy (_parse_frontmatter E content) = true
       /\ update_if_present "title" (_parse_frontmatter E content)
            set_title chapter = Ok c1
       /\ update_if_present "author" (_parse_frontmatter E content)
            set_author c1 = Ok c2
       /\ update_if_present "date" (_parse_frontmatter E content)
            (set_date E) c2 = Ok c3
       /\ update_if_present "draft" (_parse_frontmatter E content)
            set_draft c3 = Ok c4
       /\ update_number E (_parse_frontmatter E content) c4 = Ok c5
       /\ c' = set_metadata c5 (_parse_frontmatter E content).
Proof.
  unfold _enrich_with_frontmatter, frontmatter_chapter.
  destruct (read_text E (file_path chapter)) as [content|].
  2:{ intros H; injection H as <-; left; repeat split; auto; discriminate. }
  destruct (Py.truthy (_parse_frontmatter E content)) eqn:T; simpl.
  2:{ intros H; injection H as <-; left; repeat split; auto.
      intros ? K; injection K as <-; exact T. }
  unfold bind.
  destruct (update_if_present "title" _ set_title chapter) as [c1|] eqn:H1;
    try discriminate.
  destruct (update_if_present "author" _ set_author c1) as [c2|] eqn:H2;
    try discriminate.
  destruct (update_if_present "date" _ (set_date E) c2) as [c3|] eqn:H3;
    try discriminate.
  destruct (update_if_present "draft" _ set_draft c3) as [c4|] eqn:H4;
    try discriminate.
  destruct (update_number E _ c4) as [c5|] eqn:H5; try discriminate.
  intros H; injection H as <-. right.
  exists content, c1, c2, c3, c4, c5. repeat split; auto.
Qed.

Lemma enrich_keeps chapter c' :
  _enrich_with_frontmatter E chapter = Ok c' ->
  file_path c' = file_path chapter /\ is_intro c' = is_intro chapter.
Proof.
  intros H. apply enrich_inv in H.
  destruct H as [[-> _]|(content & c1 & c2 & c3 & c4 & c5 & R & T & H1 & H2
                         & H3 & H4 & H5 & ->)]; [auto|].
  apply (update_keeps _ _ _ _ _ set_title_keeps) in H1.
  apply (update_keeps _ _ _ _ _ set_author_keeps) in H2.
  apply (update_keeps _ _ _ _ _ set_date_keeps) in H3.
  apply (update_keeps _ _ _ _ _ set_draft_keeps) in H4.
  apply update_number_inv in H5. rewrite H5. simpl.
  intuition congruence.
Qed.

(** The number after enrichment: the frontmatter's integer [chapter] if
    there is one, the number given by position otherwise. *)
Lemma enrich_number chapter c' :
  _enrich_with_frontmatter E chapter = Ok c' ->
  numbered_as E (number chapter) c'.
Proof.
  intros H. unfold numbered_as.
  destruct (enrich_keeps _ _ H) as [P _]. rewrite P.
  apply enrich_inv in H.
  destruct H as [(-> & -> & _)|(content & c1 & c2 & c3 & c4 & c5 & R & T & H1
                                & H2 & H3 & H4 & H5 & ->)]; [reflexivity|].
  apply (update_keeps _ _ _ _ _ set_title_keeps) in H1.
  apply (update_keeps _ _ _ _ _ set_author_keeps) in H2.
  apply (update_keeps _ _ _ _ _ set_date_keeps) in H3.
  apply (update_keeps _ _ _ _ _ set_draft_keeps) in H4.
  assert (N4 : number c4 = number chapter) by (intuition congruence).
  unfold frontmatter_chapter. rewrite R, T.
  apply update_number_inv in H5. rewrite H5. simpl.
  destruct (chapter_value E (_parse_frontmatter E content)); auto.
Qed.

Lemma benign_truthy_dict v :
  benign_frontmatter (rt E) v = true -> Py.truthy v = true ->
  exists d, v = PDict d.
Proof.
  intros B T.
  destruct v;
    try (unfold benign_frontmatter in B; rewrite T in B; discriminate); eauto.
Qed.

(** On a benign file enrichment and title extraction return. *)
Lemma benign_update key d set c :
  (forall c v, Py.lookup (Py.is_str key) d = Some v -> exists c', set c v = Ok c') ->
  exists c', update_if_present key (PDict d) set c = Ok c'.
Proof.
  intros H. rewrite update_if_present_dict.
  destruct (Py.lookup (Py.is_str key) d) as [v|] eqn:L; eauto.
Qed.

Lemma benign_enrich chapter :
  benign_file E (file_path chapter) ->
  exists c', _enrich_with_frontmatter E chapter = Ok c'.
Proof.
  intros B. unfold _enrich_with_frontmatter.
  destruct (read_text E (file_path chapter)) as [content|] eqn:R; eauto.
  specialize (B _ R).
  destruct (Py.truthy (_parse_frontmatter E content)) eqn:T; simpl; eauto.
  destruct (benign_truthy_dict _ B T) as [d D]. rewrite D in *.
  simpl in B. apply andb_true_iff in B. destruct B as [BC BD].
  destruct (benign_update "title" d set_title chapter) as [c1 ->];
    [unfold set_title; eauto|]. simpl.
  destruct (benign_update "author" d set_author c1) as [c2 ->];
    [unfold set_author; eauto|]. simpl.
  destruct (benign_update "date" d (set_date E) c2) as [c3 ->].
  { intros c v L. rewrite L in BD. unfold set_date.
    destruct (py_str (rt E) v); [eauto|discriminate]. }
  simpl.
  destruct (benign_update "draft" d set_draft c3) as [c4 ->];
    [unfold set_draft; eauto|]. simpl.
  assert (N : exists c5, update_number E (PDict d) c4 = Ok c5).
  { unfold update_number, chapter_value. simpl.
    destruct (Py.lookup (Py.is_str "chapter") d) as [v|]; simpl; eauto.
    destruct v as [| | |[| |]| | | |]; simpl; try discriminate; eauto.
    destruct (py_int_of_str (rt E) s); eauto. }
  destruct N as [c5 ->]. simpl. eauto.
Qed.

Lemma benign_extract_title p :
  benign_file E p -> exists t, _extract_title_from_file E p = Ok t.
Proof.
  intros B. unfold _extract_title_from_file.
  destruct (read_text E p) as [content|] eqn:R; eauto.
  specialize (B _ R).
  destruct (startswith "---" content); eauto.
  destruct (Py.truthy (_parse_frontmatter E content)) eqn:T; eauto.
  destruct (benign_truthy_dict _ B T) as [d ->].
  simpl. destruct (Py.lookup (Py.is_str "title") d); simpl; eauto.
Qed.

End EnrichFacts.

(** ** Three-way comparisons that are total orders *)


#[local] Instance Z_total : TotalCompare Z.compare.
Proof.
  split.
  - intros x y; apply Z.compare_eq.
  - apply Z.compare_refl.
  - intros x y; apply Z.compare_antisym.
  - intros x y z; rewrite !Z.compare_lt_iff; lia.
Qed.

Lemma ascii_compare_refl (a : ascii) : Ascii.compare a a = Eq.
Proof. apply N.compare_refl. Qed.

Lemma ascii_compare_trans (a b c : ascii) :
  Ascii.compare a b = Lt -> Ascii.compare b c = Lt -> Ascii.compare a c = Lt.
Proof. unfold Ascii.compare; rewrite !N.compare_lt_iff; lia. Qed.

Lemma string_compare_refl (s : string) : String.compare s s = Eq.
Proof.
  induction s as [|a s IH]; simpl; [reflexivity|].
  now rewrite ascii_compare_refl.
Qed.

Lemma string_compare_trans (x y z : string) :
  String.compare x y = Lt -> String.compare y z = Lt ->
  String.compare x z = Lt.
Proof.
  revert y z.
  induction x as [|a x IH]; intros [|b y] [|c z]; simpl; try discriminate; auto.
  destruct (Ascii.compare a b) eqn:AB; try discriminate;
    destruct (Ascii.compare b c) eqn:BC; try discriminate; intros H1 H2.
  - apply Ascii.compare_eq_iff in AB, BC. subst.
    rewrite ascii_compare_refl. eauto.
  - apply Ascii.compare_eq_iff in AB. subst. now rewrite BC.
  - apply Ascii.compare_eq_iff in BC. subst. now rewrite AB.
  - now rewrite (ascii_compare_trans _ _ _ AB BC).
Qed.

#[local] Instance string_total : TotalCompare String.compare.
Proof.
  split.
  - apply String.compare_eq_iff.
  - apply string_compare_refl.
  - intros x y; apply String.compare_antisym.
  - apply string_compare_trans.
Qed.

#[local] Instance tuple_total {A B : Type} (ca : A -> A -> comparison)
    (cb : B -> B -> comparison) `{!TotalCompare ca} `{!TotalCompare cb} :
  TotalCompare (tuple_compare ca cb).
Proof.
  split; unfold tuple_compare.
  - intros [a b] [a' b']; simpl.
    destruct (ca a a') eqn:H; try discriminate.
    intros H'. apply cmp_eq in H, H'. congruence.
  - intros [a b]; simpl. now rewrite !cmp_refl.
  - intros [a b] [a' b']; simpl.
    rewrite (cmp_antisym (cmp := ca) a a').
    destruct (ca a a'); simpl; auto using cmp_antisym.
  - intros [a b] [a' b'] [a'' b'']; simpl.
    destruct (ca a a') eqn:H1; try discriminate;
      destruct (ca a' a'') eqn:H2; try discriminate; intros K1 K2.
    + apply cmp_eq in H1, H2. subst. rewrite cmp_refl. eauto using cmp_trans.
    + apply cmp_eq in H1. subst. now rewrite H2.
    + apply cmp_eq in H2. subst. now rewrite H1.
    + now rewrite (cmp_trans _ _ _ H1 H2).
Qed.

Section LebOf.
Context {A : Type} (cmp : A -> A -> comparison) `{!TotalCompare cmp}.


End LebOf.

(** ** The stable sort sorts *)

Section StableSortFacts.
Context {A : Type} (le : A -> A -> bool).
Hypothesis le_total : forall x y, le x y = false -> le y x = true.
Hypothesis le_trans :
  forall x y z, le x y = true -> le y z = true -> le x z = true.

Lemma insert_sorted_perm x l : Permutation (x :: l) (insert_sorted le x l).
Proof.
  induction l as [|y l IH]; simpl; [reflexivity|].
  destruct (le x y); [reflexivity|].
  rewrite perm_swap. now apply perm_skip.
Qed.

Lemma stable_sort_perm l : Permutation l (stable_sort le l).
Proof.
  induction l as [|x l IH]; simpl; [constructor|].
  rewrite <- insert_sorted_perm. now apply perm_skip.
Qed.


End StableSortFacts.


Lemma subseq_In {A : Type} (l1 l2 : list A) x :
  subseq l1 l2 -> In x l1 -> In x l2.
Proof.
  induction 1; simpl; intuition.
Qed.





Lemma sort_md_files_perm files :
  Permutation files (sort_md_files files).
Proof. apply stable_sort_perm. Qed.

(** ** The loops of the auto-detector *)

Lemma path_eqb_eq (p q : Path) : path_eqb p q = true <-> p = q.
Proof.
  revert q. induction p as [|x p IH]; intros [|y q]; simpl;
    try (split; [discriminate|congruence]); [tauto|].
  rewrite andb_true_iff, String.eqb_eq, IH.
  split; [intros [-> ->]; reflexivity|intros H; injection H; auto].
Qed.

Lemma count_from_length k n : List.length (count_from k n) = n.
Proof. revert k; induction n; simpl; auto. Qed.


Section AutoDetectFacts.

Variable E : Env.

Lemma intro_step_spec names cs :
  intro_step E names = Ok cs ->
  cs = []
  \/ exists c n, cs = [c] /\ is_intro c = true /\ In n names
       /\ found E (joinpath (book_root E) n) = true
       /\ file_path c = joinpath (book_root E) n.
Proof.
  induction names as [|n names IH]; cbn [intro_step].
  - intros H; injection H as <-; auto.
  - unfold bind at 1.
    destruct (exists_ E (joinpath (book_root E) n)) as [[|]|] eqn:X;
      [| |discriminate].
    + apply exists_found in X. unfold bind.
      destruct (_extract_title_from_file E _) as [t|]; try discriminate.
      destruct (_enrich_with_frontmatter E _) as [c|] eqn:H; try discriminate.
      intros K; injection K as <-. right.
      apply enrich_keeps in H. simpl in H. destruct H as [P I].
      exists c, n. simpl. auto.
    + intros H. destruct (IH H) as [->|(c & m & ? & ? & ? & ? & ?)]; auto.
      right. exists c, m. simpl. auto.
Qed.

Lemma intro_step_none names cs :
  (forall n, In n names -> found E (joinpath (book_root E) n) = false) ->
  intro_step E names = Ok cs -> cs = [].
Proof.
  intros N H. destruct (intro_step_spec _ _ H) as [->|(c & n & _ & _ & I & X & _)];
    [reflexivity|].
  rewrite (N _ I) in X. discriminate.
Qed.

(** What the numbering loop adds: chapters that are not introductions,
    numbered from [k + 1] on unless their frontmatter says otherwise, for
    files taken from [md_files] in order. *)
Lemma number_step_spec md_files k acc res :
  number_step E md_files k acc = Ok res ->
  exists added,
    res = (acc ++ added)%list
    /\ Forall (fun c => is_intro c = false) added
    /\ Forall2 (numbered_as E) (count_from k (List.length added)) added
    /\ subseq (map file_path added) md_files.
Proof.
  revert k acc res.
  induction md_files as [|p rest IH]; intros k acc res; simpl.
  - intros H; injection H as <-. exists []. rewrite List.app_nil_r.
    repeat split; constructor.
  - destruct (existsb _ acc).
    { intros H. destruct (IH _ _ _ H) as (added & ? & ? & ? & ?).
      exists added. repeat split; auto. now constructor. }
    destruct (mem (PathLib.name p) SKIP_FILES).
    { intros H. destruct (IH _ _ _ H) as (added & ? & ? & ? & ?).
      exists added. repeat split; auto. now constructor. }
    unfold bind.
    destruct (auto_title E p) as [t|]; try discriminate.
    destruct (_enrich_with_frontmatter E _) as [c|] eqn:H; try discriminate.
    intros K. destruct (IH _ _ _ K) as (added & -> & F & N & S).
    pose proof (enrich_number _ _ _ H) as Nc.
    apply enrich_keeps in H. simpl in H, Nc. destruct H as [P I].
    exists (c :: added). rewrite <- List.app_assoc. simpl.
    repeat split; auto.
    rewrite P. now constructor.
Qed.

(** Every candidate outside the skip list ends up as a chapter. *)
Lemma number_step_covers md_files k acc res p :
  number_step E md_files k acc = Ok res ->
  In p md_files -> mem (PathLib.name p) SKIP_FILES = false ->
  exists c, In c res /\ file_path c = p.
Proof.
  revert k acc res.
  induction md_files as [|q rest IH]; intros k acc res; simpl; [tauto|].
  intros H [->|I] S.
  - destruct (existsb _ acc) eqn:X.
    + apply existsb_exists in X. destruct X as (c & Ic & Pc).
      apply path_eqb_eq in Pc.
      destruct (number_step_spec _ _ _ _ H) as (added & -> & _).
      exists c. split; [apply in_or_app; auto|auto].
    + rewrite S in H. unfold bind in H.
      destruct (auto_title E p) as [t|]; try discriminate.
      destruct (_enrich_with_frontmatter E _) as [c|] eqn:K; try discriminate.
      destruct (number_step_spec _ _ _ _ H) as (added & -> & _).
      apply enrich_keeps in K. simpl in K.
      exists c. split; [|tauto].
      apply in_or_app. left. apply in_or_app. right. now left.
  - destruct (existsb _ acc); [eauto|].
    destruct (mem (PathLib.name q) SKIP_FILES); [eauto|].
    unfold bind in H.
    destruct (auto_title E q) as [t|]; try discriminate.
    destruct (_enrich_with_frontmatter E _) as [c|]; try discriminate.
    eauto.
Qed.

Lemma auto_detect_spec s :
  _auto_detect E = Ok s ->
  exists intro files added,
    chapters s = (intro ++ added)%list
    /\ intro_step E INTRO_FILES = Ok intro
    /\ _collect_markdown_files E = Ok files
    /\ number_step E (sort_md_files files) 0 intro = Ok (intro ++ added)%list
    /\ format_type s = auto /\ book_title s = PNone /\ book_author s = PNone.
Proof.
  unfold _auto_detect, bind.
  destruct (intro_step E INTRO_FILES) as [intro|] eqn:I; try discriminate.
  destruct (_collect_markdown_files E) as [files|] eqn:C; try discriminate.
  destruct (number_step E _ 0 intro) as [res|] eqn:N; try discriminate.
  intros H; injection H as <-. simpl.
  destruct (number_step_spec _ _ _ _ N) as (added & -> & _).
  exists intro, files, added. repeat split; auto.
Qed.

Lemma benign_auto_title p :
  benign_file E p -> exists t, auto_title E p = Ok t.
Proof.
  intros B. unfold auto_title.
  destruct (benign_extract_title E p B) as [t ->]. simpl. eauto.
Qed.

Lemma benign_intro_step names :
  (forall n, In n names ->
     fs_exists (fs E) (joinpath (book_root E) n) <> None
     /\ benign_file E (joinpath (book_root E) n)) ->
  exists cs, intro_step E names = Ok cs.
Proof.
  induction names as [|n names IH]; intros B; cbn [intro_step]; eauto.
  destruct (B n (or_introl eq_refl)) as [X BF].
  rewrite (examined_exists E _ X). cbn [bind].
  destruct (found E (joinpath (book_root E) n)).
  - destruct (benign_extract_title E (joinpath (book_root E) n) BF) as [t ->].
    cbn [bind].
    match goal with |- context [_enrich_with_frontmatter E ?c] =>
      destruct (benign_enrich E c BF) as [c' ->] end.
    cbn [bind]. eauto.
  - apply IH. intros m I. apply B. now right.
Qed.

Lemma benign_number_step md_files k acc :
  (forall p, In p md_files -> benign_file E p) ->
  exists res, number_step E md_files k acc = Ok res.
Proof.
  revert k acc.
  induction md_files as [|p rest IH]; intros k acc B; cbn [number_step]; eauto.
  assert (B' : forall q, In q rest -> benign_file E q)
    by (intros q I; apply B; now right).
  destruct (existsb _ acc); auto.
  destruct (mem (PathLib.name p) SKIP_FILES); auto.
  destruct (benign_auto_title p (B p (or_introl eq_refl))) as [t ->].
  cbn [bind].
  match goal with |- context [_enrich_with_frontmatter E ?c] =>
    destruct (benign_enrich E c (B p (or_introl eq_refl))) as [c' ->] end.
  cbn [bind]. auto.
Qed.

Lemma examinable_collect_dirs dirs acc :
  examinable E -> exists files, collect_chapter_dirs E dirs acc = Ok files.
Proof.
  intros X. revert acc.
  induction dirs as [|d dirs IH]; intros acc; cbn [collect_chapter_dirs]; eauto.
  rewrite (examined_exists E _ (X _)). cbn [bind].
  destruct (if found E (joinpath d "content")
            then glob E (joinpath d "content") pat_md else []); [|apply IH].
  destruct (filter _ (glob E d pat_md)); apply IH.
Qed.

Lemma examinable_collect :
  examinable E -> exists files, _collect_markdown_files E = Ok files.
Proof.
  intros X. unfold _collect_markdown_files.
  destruct (stable_sort path_leb (glob E (book_root E) pat_chapter_dir));
    [eauto|].
  apply examinable_collect_dirs. exact X.
Qed.

Lemma benign_auto_detect :
  benign E -> examinable E -> exists s, _auto_detect E = Ok s.
Proof.
  intros B X. unfold _auto_detect.
  destruct (benign_intro_step INTRO_FILES) as [intro ->].
  { intros n _. split; [apply X|apply B]. }
  cbn [bind].
  destruct (examinable_collect X) as [files ->]. cbn [bind].
  destruct (benign_number_step (sort_md_files files) 0 intro) as [res ->].
  { intros p _. apply B. }
  cbn [bind]. eauto.
Qed.

End AutoDetectFacts.

Lemma filter_none {A : Type} (p : A -> bool) (l : list A) :
  Forall (fun c => p c = false) l -> filter p l = [].
Proof.
  induction 1 as [|c l H _ IH]; simpl; [reflexivity|]. now rewrite H.
Qed.

Lemma filter_all {A : Type} (p : A -> bool) (l : list A) :
  Forall (fun c => p c = true) l -> filter p l = l.
Proof.
  induction 1 as [|c l H _ IH]; simpl; [reflexivity|]. now rewrite H, IH.
Qed.

Lemma filter_split_flags (intro added : list Chapter) :
  Forall (fun c => is_intro c = true) intro ->
  Forall (fun c => is_intro c = false) added ->
  non_intro (intro ++ added) = added
  /\ intro_count (intro ++ added) = List.length intro.
Proof.
  unfold non_intro, intro_count. intros FI FA.
  rewrite !filter_app, length_app.
  rewrite (filter_none is_intro added FA), (filter_all is_intro intro FI).
  rewrite (filter_none (fun c => negb (is_intro c)) intro),
          (filter_all (fun c => negb (is_intro c)) added).
  - simpl. split; [reflexivity|lia].
  - eapply Forall_impl; [|exact FA]. intros c ->. reflexivity.
  - eapply Forall_impl; [|exact FI]. intros c ->. reflexivity.
Qed.

(** The shape of what the auto-detector returns. *)
Lemma auto_detect_chapters E s :
  _auto_detect E = Ok s ->
  exists intro files added,
    chapters s = (intro ++ added)%list
    /\ (List.length intro <= 1)%nat
    /\ ((forall n, In n INTRO_FILES ->
           found E (joinpath (book_root E) n) = false) -> intro = [])
    /\ Forall (fun c => is_intro c = true) intro
    /\ Forall (fun c => is_intro c = false) added
    /\ Forall2 (numbered_as E) (count_from 0 (List.length added)) added
    /\ _collect_markdown_files E = Ok files
    /\ subseq (map file_path added) (sort_md_files files).
Proof.
  intros H.
  destruct (auto_detect_spec _ _ H) as (intro & files & added & C & I & CF & N & _).
  exists intro, files, added.
  destruct (number_step_spec _ _ _ _ _ N) as (added' & EQ & F & NA & S).
  apply app_inv_head in EQ. subst added'.
  split; [exact C|].
  split.
  { destruct (intro_step_spec _ _ _ I) as [->|(c & n & -> & _)]; simpl; lia. }
  split.
  { intros X. exact (intro_step_none _ _ _ X I). }
  split.
  { destruct (intro_step_spec _ _ _ I) as [->|(c & n & -> & T & _)];
      repeat constructor; auto. }
  auto.
Qed.





(** A frontmatter that is a string holding the word chapter: the
    subscript raises inside the handler, and the chapter keeps the number
    given by position. *)
Example string_frontmatter_keeps_number :
  Fixture.views (detect_structure Cases.string_frontmatter_env)
  = Ok (auto, [(1, PStr "A", Fixture.at_root "01-a.md", false)]).
Proof. vm_compute. reflexivity. Qed.

(** ** The candidate ordering *)








(** ** Titles *)

Lemma rstrip_idempotent (s : string) : rstrip (rstrip s) = rstrip s.
Proof.
  induction s as [|c s IH]; simpl; [reflexivity|].
  destruct (is_empty (rstrip s) && is_space c) eqn:C; simpl; [reflexivity|].
  now rewrite IH, C.
Qed.

Lemma rstripped_tail (a : ascii) (r : string) :
  rstrip (String a r) = String a r ->
  rstrip r = r /\ (r = "" -> is_space a = false).
Proof.
  simpl. destruct (is_empty (rstrip r) && is_space a) eqn:C; [discriminate|].
  intros H; injection H as H. split; [exact H|].
  intros ->. simpl in C. exact C.
Qed.

Lemma lstrip_rstripped (r : string) :
  rstrip r = r -> r <> "" -> rstrip (lstrip r) = lstrip r /\ lstrip r <> "".
Proof.
  induction r as [|a r IH]; [congruence|].
  intros H _. simpl.
  destruct (rstripped_tail _ _ H) as [T N].
  destruct (is_space a) eqn:S.
  - apply IH; [exact T|]. intros ->. specialize (N eq_refl). congruence.
  - split; [exact H|discriminate].
Qed.

Lemma starts_with_hash_space (line : string) :
  startswith "# " line = true -> exists r, line = String "#" (String " " r).
Proof.
  destruct line as [|a [|b r]];
    cbv beta iota delta [startswith]; fold startswith;
    try discriminate.
  - rewrite andb_false_r. discriminate.
  - rewrite !andb_true_iff, !Ascii.eqb_eq.
    intros (<- & <- & _). eauto.
Qed.

(** A heading is never empty. *)
Lemma first_heading_nonempty (lines : list string) :
  first_heading lines = PNone
  \/ exists h, first_heading lines = PStr h /\ h <> "".
Proof.
  induction lines as [|line rest IH]; simpl; [auto|].
  destruct (startswith "# " (strip line)) eqn:S; [|exact IH].
  right. eexists; split; [reflexivity|].
  destruct (starts_with_hash_space _ S) as [r R].
  rewrite R. simpl.
  assert (K : rstrip (strip line) = strip line) by apply rstrip_idempotent.
  rewrite R in K.
  destruct (rstripped_tail _ _ K) as [K1 _].
  destruct (rstripped_tail _ _ K1) as [K2 N].
  assert (r <> "") by (intros ->; specialize (N eq_refl); discriminate).
  unfold strip.
  destruct (lstrip_rstripped r K2 H) as [-> ?]. assumption.
Qed.

Lemma sub_runs_empty cls (c : ascii) (s : string) :
  sub_runs cls (String c "") false s = "" <-> s = "".
Proof.
  destruct s as [|a s]; simpl; [tauto|].
  destruct (cls a); simpl; split; discriminate.
Qed.

(** The frontmatter [title] is looked for only in a mapping. *)
Lemma frontmatter_title_eq (E : Env) (content : string) :
  frontmatter_title E content
  = match _parse_frontmatter E content with
    | PDict d => Py.lookup (Py.is_str "title") d
    | _ => None
    end.
Proof.
  unfold frontmatter_title, _parse_frontmatter.
  destruct (startswith "---" content); [reflexivity|].
  destruct (negb (YAML_AVAILABLE (rt E))); reflexivity.
Qed.

Lemma truthy_frontmatter_starts (E : Env) (content : string) :
  Py.truthy (_parse_frontmatter E content) = true ->
  startswith "---" content = true.
Proof.
  unfold _parse_frontmatter.
  destruct (negb (YAML_AVAILABLE (rt E))); [discriminate|].
  destruct (startswith "---" content); [reflexivity|discriminate].
Qed.

(** What a title-lookup that returns found: the mapping's [title], or
    nothing to find. *)
Lemma title_lookup (fm : pyval) :
  match Py.contains_str "title" fm with
  | Ok true =>
      forall v, Py.getitem_str "title" fm = Ok v ->
        exists d, fm = PDict d /\ Py.lookup (Py.is_str "title") d = Some v
  | Ok false =>
      match fm with
      | PDict d => Py.lookup (Py.is_str "title") d
      | _ => None
      end = None
  | Raise _ => True
  end.
Proof.
  destruct fm as [|b|z|f|s|iso|l|d]; cbn [Py.contains_str Py.getitem_str];
    try exact I.
  - destruct (contains "title" s); [discriminate|reflexivity].
  - destruct (existsb _ l); [discriminate|reflexivity].
  - destruct (Py.lookup (Py.is_str "title") d) as [x|] eqn:L; [|reflexivity].
    intros v H; injection H as <-. eauto.
Qed.

Lemma falsy_no_title (fm : pyval) :
  Py.truthy fm = false ->
  match fm with
  | PDict d => Py.lookup (Py.is_str "title") d
  | _ => None
  end = None.
Proof.
  destruct fm as [|b|z|f|s|iso|l|d]; try reflexivity.
  destruct d; [reflexivity|discriminate].
Qed.

Section TitleFacts.

Variable E : Env.

(** The title enrichment leaves: the frontmatter's, or the one the
    chapter had. *)
Lemma enrich_title chapter c :
  _enrich_with_frontmatter E chapter = Ok c ->
  title c = match read_text E (file_path chapter) with
            | Some content =>
                match frontmatter_title E content with
                | Some v => v
                | None => title chapter
                end
            | None => title chapter
            end.
Proof.
  intros H. apply enrich_inv in H.
  destruct H as [(-> & _ & F)|(content & c1 & c2 & c3 & c4 & c5 & R & T & H1
                               & H2 & H3 & H4 & H5 & ->)].
  - destruct (read_text E (file_path chapter)) as [content|]; [|reflexivity].
    rewrite frontmatter_title_eq, (falsy_no_title _ (F _ eq_refl)).
    reflexivity.
  - rewrite R, frontmatter_title_eq.
    assert (K : forall key set a b,
              (forall x v y, set x v = Ok y -> title y = title x) ->
              update_if_present key (_parse_frontmatter E content) set a = Ok b ->
              title b = title a).
    { intros key set a b S U. apply update_if_present_inv in U.
      destruct U as [[_ ->]|[_ [v [_ U]]]]; [reflexivity|exact (S _ _ _ U)]. }
    apply K in H2; [|intros ? ? ? Q; injection Q as <-; reflexivity].
    apply K in H3.
    2:{ intros x v y. unfold set_date. destruct (py_str (rt E) v);
          [|discriminate]. intros Q; injection Q as <-; reflexivity. }
    apply K in H4; [|intros ? ? ? Q; injection Q as <-; reflexivity].
    apply update_number_inv in H5.
    assert (T5 : title (set_metadata c5 (_parse_frontmatter E content))
                 = title c1).
    { rewrite H5. simpl. congruence. }
    rewrite T5. clear - H1.
    pose proof (title_lookup (_parse_frontmatter E content)) as L.
    apply update_if_present_inv in H1.
    destruct H1 as [[A ->]|[A [v [G H1]]]]; rewrite A in L.
    + now rewrite L.
    + destruct (L v G) as (d & -> & ->). injection H1 as <-. reflexivity.
Qed.

(** What [_extract_title_from_file] returns: the frontmatter [title]
    if there is one, else the first heading, if any. *)
Lemma extract_title_spec p t :
  _extract_title_from_file E p = Ok t ->
  match read_text E p with
  | None => t = PNone
  | Some content =>
      match frontmatter_title E content with
      | Some v => t = v
      | None => t = first_heading (split_lines content)
      end
  end.
Proof.
  unfold _extract_title_from_file. intros H.
  destruct (read_text E p) as [content|]; [|now injection H as <-].
  rewrite frontmatter_title_eq.
  unfold _parse_frontmatter in *.
  destruct (startswith "---" content).
  2:{ injection H as <-.
      destruct (negb (YAML_AVAILABLE (rt E))); reflexivity. }
  cbn [negb] in *.
  match type of H with context [Py.truthy ?x] => set (fm := x) in * end.
  destruct (Py.truthy fm) eqn:T.
  2:{ injection H as <-. now rewrite (falsy_no_title _ T). }
  pose proof (title_lookup fm) as L. unfold bind in H.
  destruct (Py.contains_str "title" fm) as [[|]|]; [| |discriminate].
  - destruct (Py.getitem_str "title" fm) as [v|] eqn:G; [|discriminate].
    destruct (L v eq_refl) as (d & -> & ->). now injection H as <-.
  - rewrite L. now injection H as <-.
Qed.

Lemma heading_or_fallback (lines : list string) (fallback : pyval) :
  Py.or_else (first_heading lines) fallback
  = match first_heading lines with
    | PNone => fallback
    | h => h
    end.
Proof.
  destruct (first_heading_nonempty lines) as [->|(h & -> & N)];
    [reflexivity|].
  unfold Py.or_else; simpl. destruct h; [congruence|reflexivity].
Qed.

(** The title of a chapter made from the extracted title or a fallback,
    once enriched. *)
Lemma enriched_title p t fallback k intro c :
  _extract_title_from_file E p = Ok t ->
  _enrich_with_frontmatter E (mk_chapter k (Py.or_else t fallback) p intro)
  = Ok c ->
  title c = title_with_fallback E p fallback.
Proof.
  intros X H. apply extract_title_spec in X. apply enrich_title in H.
  cbn [file_path title mk_chapter] in H. rewrite H.
  unfold title_with_fallback.
  destruct (read_text E p) as [content|]; [|now rewrite X].
  destruct (frontmatter_title E content) as [v|]; [reflexivity|].
  rewrite X. apply heading_or_fallback.
Qed.

End TitleFacts.

(** C7 (the code departs from it): the title is not always there.  In a
    root with [01.md], a text without heading, and [ch.md], whose
    frontmatter has an empty [title] above the heading [# X], the
    auto-detector returns both chapters with the empty title: the
    file-name title of the stem [01] is empty, and enrichment puts the
    empty frontmatter title back over the title resolved for [ch.md]. *)
Theorem C7_empty_titles_returned :
  Fixture.views (detect_structure Cases.title_env)
  = Ok (auto, [(1, PStr "", Fixture.at_root "01.md", false);
               (2, PStr "", Fixture.at_root "ch.md", false)])
  /\ _title_from_filename Cases.title_env "01" = ""
  /\ auto_title Cases.title_env (Fixture.at_root "ch.md") = Ok (PStr "Ch")
  /\ first_heading
       (split_lines ("---" ++ nl ++ "title: ''" ++ nl ++ "---" ++ nl ++ "# X"
                     ++ nl)) = PStr "X".
Proof. repeat split; vm_compute; reflexivity. Qed.

(** ** The orchestrator *)

(** C10 (as amended): when [book.toml] is the first manifest found
    (there is no [SUMMARY.md], [Book.txt] or [_bookdown.yml] in the root)
    and there is no [src/SUMMARY.md], [detect_structure] returns what the
    auto-detector returns: the format is the heuristic one and the title
    and author are absent, whatever [book.toml] contains. *)
Theorem C10_book_toml_without_summary_is_auto (E : Env) :
  exists_ E (joinpath (book_root E) "SUMMARY.md") = Ok false ->
  exists_ E (joinpath (book_root E) "Book.txt") = Ok false ->
  exists_ E (joinpath (book_root E) "_bookdown.yml") = Ok false ->
  exists_ E (joinpath (book_root E) "book.toml") = Ok true ->
  exists_ E (joinpath (joinpath (book_root E) "src") "SUMMARY.md") = Ok false ->
  detect_structure E = _auto_detect E
  /\ (forall s, detect_structure E = Ok s ->
        format_type s = auto /\ book_title s = PNone /\ book_author s = PNone)
  /\ (benign E -> examinable E -> exists s, detect_structure E = Ok s).
Proof.
  intros H1 H2 H3 H4 H5.
  assert (EQ : detect_structure E = _auto_detect E).
  { unfold detect_structure. rewrite H1. cbn [bind]. rewrite H2. cbn [bind].
    rewrite H3. cbn [bind]. rewrite H4. cbn [bind].
    unfold _parse_mdbook_toml.
    destruct (toml_metadata E (joinpath (book_root E) "book.toml")) as [t a].
    now rewrite H5. }
  split; [exact EQ|]. rewrite EQ. split.
  - intros s H.
    destruct (auto_detect_spec _ _ H) as (intro & files & added & _ & _ & _ & _ & F).
    exact F.
  - apply benign_auto_detect.
Qed.

Lemma C10_witness :
  toml_metadata Cases.toml_env (Fixture.at_root "book.toml")
  = (PStr "My Book", PStr "Ann")
  /\ detect_structure Cases.toml_env = _auto_detect Cases.toml_env
  /\ Fixture.views (detect_structure Cases.toml_env)
     = Ok (auto, [(1, PStr "A", Fixture.at_root "01-a.md", false)])
  /\ option_map book_title
       (match detect_structure Cases.toml_env with
        | Ok s => Some s
        | Raise _ => None
        end) = Some PNone.
Proof.
  split; [vm_compute; reflexivity|].
  split.
  - refine (proj1 (C10_book_toml_without_summary_is_auto Cases.toml_env
                     _ _ _ _ _)); vm_compute; reflexivity.
  - split; vm_compute; reflexivity.
Defined.

(** C10 as stated fails: [book.toml] exists and parses with a title and
    an author, there is no [src/SUMMARY.md], and yet, with a [Book.txt]
    beside it, the structure returned is the plain-text parser's. *)
Lemma C10_counterexample :
  exists_ Cases.toml_leanpub_env (Fixture.at_root "book.toml") = Ok true
  /\ toml_metadata Cases.toml_leanpub_env (Fixture.at_root "book.toml")
     = (PStr "My Book", PStr "Ann")
  /\ exists_ Cases.toml_leanpub_env
       (joinpath (Fixture.at_root "src") "SUMMARY.md") = Ok false
  /\ ~ (forall s, detect_structure Cases.toml_leanpub_env = Ok s ->
          format_type s = auto).
Proof.
  split; [vm_compute; reflexivity|].
  split; [vm_compute; reflexivity|].
  split; [vm_compute; reflexivity|].
  intros H. specialize (H _ ltac:(vm_compute; reflexivity)).
  vm_compute in H. discriminate.
Qed.

(** C4 (the code departs from it): a chapter file whose frontmatter block
    is valid YAML but not a mapping, here the scalar 42, makes
    [detect_structure] raise [TypeError] instead of returning a structure
    in which the file is a chapter without metadata. *)
Theorem C4_scalar_frontmatter_raises :
  _parse_frontmatter Cases.scalar_frontmatter_env
    ("---" ++ nl ++ "42" ++ nl ++ "---" ++ nl ++ "# A" ++ nl) = PInt 42
  /\ detect_structure Cases.scalar_frontmatter_env = Raise TypeError.
Proof. split; vm_compute; reflexivity. Qed.

(** C8 (the code departs from it): a frontmatter [chapter] that is an
    infinite float does not parse as an integer, yet the number given by
    position is not kept: [int] raises [OverflowError], which the handler
    of enrichment does not catch, and detection as a whole raises. *)
Theorem C8_infinite_chapter_raises :
  _enrich_with_frontmatter Cases.infinite_chapter_env
    (mk_chapter 1 (PStr "A") (Fixture.at_root "01-a.md") false)
  = Raise OverflowError
  /\ detect_structure Cases.infinite_chapter_env = Raise OverflowError.
Proof. split; vm_compute; reflexivity. Qed.

(** ** The manifest-link parser *)

Section SummaryFacts.

Variable E : Env.

Lemma link_is_intro_eq (t r : string) (p : Path) :
  link_is_intro (t, r, p) = mem (lower r) SUMMARY_INTRO.
Proof. reflexivity. Qed.

Lemma resolve_link_spec sp rel p :
  resolve_link E sp rel = Ok p -> p = resolved_path E sp rel.
Proof.
  unfold resolve_link, resolved_path, bind.
  destruct (exists_ E (joinpath (book_root E) rel)) as [b|] eqn:X;
    [|discriminate].
  rewrite (exists_found _ _ _ X).
  destruct b; intros H; injection H as <-; reflexivity.
Qed.

Lemma summary_step_spec sp lines k acc res :
  summary_step E sp lines k acc = Ok res ->
  exists added,
    res = (acc ++ added)%list
    /\ map file_path added = map snd (resolved_links E sp lines)
    /\ map is_intro added = map link_is_intro (resolved_links E sp lines)
    /\ Forall2 (numbered_as E)
         (numbering k (map link_is_intro (resolved_links E sp lines))) added.
Proof.
  revert k acc res.
  induction lines as [|line rest IH]; intros k acc res.
  - simpl. intros H; injection H as <-. exists [].
    rewrite List.app_nil_r. repeat split; constructor.
  - cbn [summary_step resolved_links]. unfold line_link.
    destruct (link_search line) as [[[g1 g2] r]|]; [|apply IH].
    cbv zeta. unfold bind at 1.
    destruct (resolve_link E sp (strip g2)) as [fp|] eqn:RL; [|discriminate].
    apply resolve_link_spec in RL. subst fp.
    unfold bind at 1.
    destruct (exists_ E (resolved_path E sp (strip g2))) as [b|] eqn:X;
      [|discriminate].
    rewrite (exists_found _ _ _ X).
    destruct b; [|apply IH].
    cbn [map]. rewrite !link_is_intro_eq. cbn [snd].
    destruct (mem (lower (strip g2)) SUMMARY_INTRO) eqn:I; cbn [numbering];
      unfold bind;
      (destruct (_enrich_with_frontmatter E _) as [c|] eqn:H; [|discriminate]);
      intros K; destruct (IH _ _ _ K) as (added & -> & P & F & N);
      pose proof (enrich_number _ _ _ H) as Nc;
      apply enrich_keeps in H;
      cbn [file_path is_intro number mk_chapter] in H, Nc;
      destruct H as [Pc Ic];
      exists (c :: added); rewrite <- List.app_assoc;
      cbn [map app]; rewrite Pc, Ic, P, F;
      repeat split; auto.
Qed.

Lemma passable_summary_step sp lines k acc :
  Forall (line_passable E sp) lines ->
  exists res, summary_step E sp lines k acc = Ok res.
Proof.
  intros B. revert k acc.
  induction B as [|line rest L _ IH]; intros k acc; cbn [summary_step]; eauto.
  unfold line_passable in L.
  destruct (link_search line) as [[[g1 g2] r]|]; [|apply IH].
  cbv zeta in *. destruct L as (X1 & X2 & BF).
  unfold resolve_link. rewrite (examined_exists E _ X1). cbn [bind].
  fold (resolved_path E sp (strip g2)).
  assert (RP : (if found E (joinpath (book_root E) (strip g2))
                then Ok (joinpath (book_root E) (strip g2))
                else Ok (joinpath (parent sp) (strip g2)))
               = Ok (resolved_path E sp (strip g2))).
  { unfold resolved_path.
    destruct (found E (joinpath (book_root E) (strip g2))); reflexivity. }
  rewrite RP. cbn [bind]. rewrite (examined_exists E _ X2). cbn [bind].
  destruct (found E (resolved_path E sp (strip g2))); [|apply IH].
  specialize (BF eq_refl).
  destruct (mem _ SUMMARY_INTRO);
    match goal with |- context [_enrich_with_frontmatter E ?c] =>
      destruct (benign_enrich E c BF) as [c' ->] end;
    cbn [bind]; apply IH.
Qed.

(** Every line is passable when [exists()] raises on no path and no
    file has a frontmatter on which enrichment raises. *)
Lemma benign_lines_passable sp lines :
  benign E -> examinable E -> Forall (line_passable E sp) lines.
Proof.
  intros B X. apply Forall_forall. intros line _. unfold line_passable.
  destruct (link_search line) as [[[g1 g2] r]|]; [|exact I].
  cbv zeta. split; [apply X|]. split; [apply X|]. intros _. apply B.
Qed.

Lemma parse_summary_spec sp content s :
  read_text E sp = Some content ->
  _parse_summary_md E sp = Ok s ->
  let links := resolved_links E sp (split_lines content) in
  format_type s = summary
  /\ map file_path (chapters s) = map snd links
  /\ map is_intro (chapters s) = map link_is_intro links
  /\ Forall2 (numbered_as E) (numbering 0 (map link_is_intro links))
       (chapters s).
Proof.
  intros R. unfold _parse_summary_md. rewrite R. unfold bind.
  destruct (summary_step E sp (split_lines content) 0 []) as [res|] eqn:H;
    [|discriminate].
  intros K; injection K as <-. cbn [chapters format_type mk_structure].
  destruct (summary_step_spec _ _ _ _ _ H) as (added & -> & P & F & N).
  auto.
Qed.

End SummaryFacts.





(** C3 (as amended): in the manifest-link parser the first link of a
    line is classified as introduction exactly when its path as written
    in the link, stripped and lower-cased, is one of readme.md, index.md,
    introduction.md; every such link that resolves gets the number 0, and
    every other first link that resolves gets the next number 1, 2, ...
    in the order of the lines, regardless of numbers in its path (a
    frontmatter [chapter] that is an integer replaces the number
    afterwards). *)
Theorem C3_intro_by_written_path_and_numbering (E : Env) (sp : Path)
    (content : string) (s : BookStructure) :
  read_text E sp = Some content ->
  _parse_summary_md E sp = Ok s ->
  let links := resolved_links E sp (split_lines content) in
  map is_intro (chapters s) = map link_is_intro links
  /\ Forall2 (numbered_as E) (numbering 0 (map link_is_intro links))
       (chapters s).
Proof.
  intros R H. destruct (parse_summary_spec E sp content s R H) as (_ & _ & F & N).
  auto.
Qed.

Lemma C3_witness :
  exists s, _parse_summary_md Cases.intro_links_env Cases.summary_path = Ok s
    /\ map is_intro (chapters s) = [false; true; true]
    /\ Forall2 (numbered_as Cases.intro_links_env) [1; 0; 0] (chapters s).
Proof.
  eexists. split; [vm_compute; reflexivity|].
  match goal with
  | |- map is_intro (chapters ?s) = _ /\ _ =>
      destruct (C3_intro_by_written_path_and_numbering Cases.intro_links_env
                  Cases.summary_path _ s ltac:(vm_compute; reflexivity)
                  ltac:(vm_compute; reflexivity)) as [F N]
  end.
  split; [rewrite F; vm_compute; reflexivity|].
  repeat constructor; vm_compute; reflexivity.
Defined.

(** C3 as stated fails: the link to [docs/README.md] resolves to a file
    named README.md and is not an introduction, and both later
    introductions get the number 0. *)
Lemma C3_counterexample :
  ~ (forall s,
       _parse_summary_md Cases.intro_links_env Cases.summary_path = Ok s ->
       intro_by_filename (chapters s))
  /\ ~ (forall s,
         _parse_summary_md Cases.intro_links_env Cases.summary_path = Ok s ->
         map number (chapters s)
         = numbering_first_intro false 0 (map is_intro (chapters s))).
Proof.
  split; intros H;
    specialize (H _ ltac:(vm_compute; reflexivity)).
  - specialize (H (mk_chapter 1 (PStr "Guide")
                     (Fixture.at_root "docs/README.md") false)
                  ltac:(vm_compute; left; reflexivity)).
    vm_compute in H. discriminate.
  - vm_compute in H. discriminate.
Qed.

(** ** Introductions in the other parsers *)

Lemma count_flags {A B : Type} (f : A -> bool) (g : B -> bool)
    (l : list A) (l' : list B) :
  map f l = map g l' ->
  List.length (filter f l) = List.length (filter g l').
Proof.
  revert l'. induction l as [|a l IH]; intros [|b l']; simpl;
    try discriminate; [reflexivity|].
  intros H; injection H as H1 H2. rewrite H1.
  destruct (g b); simpl; auto.
Qed.

Section ManifestFacts.

Variable E : Env.

Lemma resolve_entry_spec base line p :
  resolve_entry E base line = Ok p ->
  p = if found E (joinpath base line) then joinpath base line
      else joinpath (book_root E) line.
Proof.
  unfold resolve_entry, bind.
  destruct (exists_ E (joinpath base line)) as [b|] eqn:X; [|discriminate].
  rewrite (exists_found _ _ _ X).
  destruct b; intros H; injection H as <-; reflexivity.
Qed.

Lemma leanpub_base_spec base :
  leanpub_base E = Ok base -> base = leanpub_base_dir E.
Proof.
  unfold leanpub_base, leanpub_base_dir, bind.
  destruct (exists_ E (joinpath (book_root E) "manuscript")) as [b|] eqn:X;
    [|discriminate].
  rewrite (exists_found _ _ _ X). intros H; injection H as <-. reflexivity.
Qed.

Lemma leanpub_step_spec base lines k acc res :
  leanpub_step E base lines k acc = Ok res ->
  exists added,
    res = (acc ++ added)%list
    /\ map file_path added = map snd (leanpub_entries E base lines)
    /\ map is_intro added = map entry_is_intro (leanpub_entries E base lines)
    /\ Forall2 (numbered_as E)
         (numbering k (map entry_is_intro (leanpub_entries E base lines)))
         added.
Proof.
  revert k acc res.
  induction lines as [|raw rest IH]; intros k acc res.
  - simpl. intros H; injection H as <-. exists [].
    rewrite List.app_nil_r. repeat split; constructor.
  - cbn [leanpub_step leanpub_entries]. unfold leanpub_entry. cbv zeta.
    destruct (is_empty (strip raw) || startswith "#" (strip raw)); [apply IH|].
    destruct (mem (strip raw) LEANPUB_MARKERS); [apply IH|].
    unfold bind at 1.
    destruct (resolve_entry E base (strip raw)) as [fp|] eqn:RE; [|discriminate].
    apply resolve_entry_spec in RE. rewrite <- RE.
    unfold bind at 1.
    destruct (exists_ E fp) as [b|] eqn:X; [|discriminate].
    rewrite (exists_found _ _ _ X).
    destruct (b && String.eqb (suffix fp) ".md"); [|apply IH].
    cbn [map]. unfold entry_is_intro at 1 3. cbn [fst snd].
    unfold bind.
    destruct (_extract_title_from_file E _) as [t|]; [|discriminate].
    destruct (mem (lower (strip raw)) LEANPUB_INTRO) eqn:I; cbn [numbering];
      (destruct (_enrich_with_frontmatter E _) as [c|] eqn:H; [|discriminate]);
      intros K; destruct (IH _ _ _ K) as (added & -> & P & F & N);
      pose proof (enrich_number _ _ _ H) as Nc;
      apply enrich_keeps in H;
      cbn [file_path is_intro number mk_chapter] in H, Nc;
      destruct H as [Pc Ic];
      exists (c :: added); rewrite <- List.app_assoc;
      cbn [map app]; rewrite Pc, Ic, P, F; repeat split; auto.
Qed.

Lemma bookdown_step_spec rmd_files items k acc res :
  bookdown_step E rmd_files items k acc = Ok res ->
  exists added,
    res = (acc ++ added)%list
    /\ (intro_count added
        <= List.length (filter (bookdown_eligible E rmd_files) items))%nat.
Proof.
  revert k acc res.
  induction items as [|item rest IH]; intros k acc res.
  - simpl. intros H; injection H as <-. exists [].
    rewrite List.app_nil_r. auto.
  - cbn [bookdown_step filter].
    destruct item as [|b|z|f|file_name|iso|l|d]; try discriminate.
    unfold bookdown_eligible at 1. unfold bind.
    destruct (bookdown_resolve E file_name) as [[fp|]|]; try discriminate.
    2:{ intros H. destruct (IH _ _ _ H) as (added & -> & L).
        exists added. auto. }
    destruct (_extract_title_from_file E fp) as [t|]; [|discriminate].
    destruct (bookdown_is_intro rmd_files file_name) as [intro|]; [|discriminate].
    destruct (intro && (k =? 0)) eqn:C;
      (destruct (_enrich_with_frontmatter E _) as [c|] eqn:H; [|discriminate]);
      intros K; destruct (IH _ _ _ K) as (added & -> & L);
      apply enrich_keeps in H; cbn [file_path is_intro mk_chapter] in H;
      destruct H as [Pc Ic];
      exists (c :: added); rewrite <- List.app_assoc;
      (split; [reflexivity|]);
      unfold intro_count in *; cbn [filter]; rewrite Ic.
    + apply andb_true_iff in C. destruct C as [-> _]. simpl. lia.
    + destruct intro; simpl; lia.
Qed.

Lemma parse_leanpub_spec bp content s :
  read_text E bp = Some content ->
  _parse_leanpub E bp = Ok s ->
  let entries :=
    leanpub_entries E (leanpub_base_dir E) (split_lines content) in
  format_type s = leanpub
  /\ map file_path (chapters s) = map snd entries
  /\ map is_intro (chapters s) = map entry_is_intro entries
  /\ Forall2 (numbered_as E) (numbering 0 (map entry_is_intro entries))
       (chapters s).
Proof.
  intros R. unfold _parse_leanpub. rewrite R. unfold bind.
  destruct (leanpub_base E) as [base|] eqn:B; [|discriminate].
  apply leanpub_base_spec in B. subst base.
  destruct (leanpub_step E (leanpub_base_dir E) (split_lines content) 0 [])
    as [res|] eqn:H; [|discriminate].
  intros K; injection K as <-. cbn [chapters format_type mk_structure].
  destruct (leanpub_step_spec _ _ _ _ _ H) as (added & -> & P & F & N).
  auto.
Qed.

End ManifestFacts.

Lemma auto_not_other_format (E : Env) (s : BookStructure) :
  _auto_detect E = Ok s -> format_type s = auto.
Proof.
  intros H. destruct (auto_detect_spec E s H) as (? & ? & ? & _ & _ & _ & _ & F & _).
  exact F.
Qed.

(** C1 (as amended): the auto-detector returns at most one chapter with
    [is_intro] set, and none when none of its intro file names exists in
    the root.  A manifest parser sets [is_intro] on every entry that
    passes its intro test, so its structure can hold several such
    chapters: as many as there are lines whose first link resolves and
    has an intro path (manifest-link parser, also when reached through
    [book.toml]), as many as there are resolved entries with an intro
    name (plain-text parser), and at most as many as there are resolved
    items that pass the intro test (YAML-config parser).  In every case
    there is none when no entry is intro-eligible. *)
Theorem C1_intro_chapters_per_parser (E : Env) :
  (forall s, _auto_detect E = Ok s ->
     (intro_count (chapters s) <= 1)%nat
     /\ ((forall n, In n INTRO_FILES ->
            found E (joinpath (book_root E) n) = false) ->
         intro_count (chapters s) = 0%nat))
  /\ (forall sp content s,
        read_text E sp = Some content -> _parse_summary_md E sp = Ok s ->
        intro_count (chapters s)
        = List.length (filter link_is_intro
                         (resolved_links E sp (split_lines content))))
  /\ (forall bp content s,
        read_text E bp = Some content -> _parse_leanpub E bp = Ok s ->
        intro_count (chapters s)
        = List.length (filter entry_is_intro
                         (leanpub_entries E (leanpub_base_dir E)
                            (split_lines content))))
  /\ (forall bp s,
        _parse_bookdown E bp = Ok s -> format_type s = bookdown ->
        exists content config rmd_files items,
          read_text E bp = Some content
          /\ yaml_safe_load (rt E) content = Some config
          /\ Py.get config "rmd_files" (PList []) = Ok rmd_files
          /\ Py.iter rmd_files = Ok items
          /\ (intro_count (chapters s)
              <= List.length (filter (bookdown_eligible E rmd_files) items))%nat)
  /\ (forall tp content s,
        let sp := joinpath (joinpath (book_root E) "src") "SUMMARY.md" in
        found E sp = true -> read_text E sp = Some content ->
        _parse_mdbook_toml E tp = Ok s ->
        intro_count (chapters s)
        = List.length (filter link_is_intro
                         (resolved_links E sp (split_lines content)))).
Proof.
  assert (SUMMARY : forall sp content s,
        read_text E sp = Some content -> _parse_summary_md E sp = Ok s ->
        intro_count (chapters s)
        = List.length (filter link_is_intro
                         (resolved_links E sp (split_lines content)))).
  { intros sp content s R H.
    destruct (parse_summary_spec E sp content s R H) as (_ & _ & F & _).
    exact (count_flags _ _ _ _ F). }
  split.
  { intros s H.
    destruct (auto_detect_chapters _ _ H)
      as (intro & files & added & C & L & N & FI & FA & _).
    rewrite C.
    destruct (filter_split_flags intro added FI FA) as [_ ->].
    split; [exact L|]. intros X. now rewrite (N X). }
  split; [exact SUMMARY|].
  split.
  { intros bp content s R H.
    destruct (parse_leanpub_spec E bp content s R H) as (_ & _ & F & _).
    exact (count_flags _ _ _ _ F). }
  split.
  { intros bp s. unfold _parse_bookdown.
    destruct (negb (YAML_AVAILABLE (rt E))).
    { intros H F. rewrite (auto_not_other_format _ _ H) in F. discriminate. }
    destruct (read_text E bp) as [content|] eqn:R.
    2:{ intros H F. rewrite (auto_not_other_format _ _ H) in F. discriminate. }
    destruct (yaml_safe_load (rt E) content) as [config|] eqn:Y.
    2:{ intros H F. rewrite (auto_not_other_format _ _ H) in F. discriminate. }
    unfold bind.
    destruct (Py.get config "title" PNone) as [fallback|]; [|discriminate].
    destruct (Py.get config "book_filename" fallback) as [bt|]; [|discriminate].
    destruct (Py.get config "rmd_files" (PList [])) as [rmd_files|] eqn:G;
      [|discriminate].
    destruct (Py.iter rmd_files) as [items|] eqn:IT; [|discriminate].
    destruct (bookdown_step E rmd_files items 0 []) as [res|] eqn:H;
      [|discriminate].
    intros K _; injection K as <-. cbn [chapters mk_structure].
    destruct (bookdown_step_spec _ _ _ _ _ _ H) as (added & -> & L).
    exists content, config, rmd_files, items. repeat split; auto. }
  intros tp content s sp X R. unfold _parse_mdbook_toml.
  destruct (toml_metadata E tp) as [t a]. fold sp. unfold bind.
  destruct (exists_ E sp) as [b|] eqn:XS; [|discriminate].
  rewrite <- (exists_found _ _ _ XS), X.
  destruct (_parse_summary_md E sp) as [s'|] eqn:H; [|discriminate].
  intros K; injection K as <-. cbn [chapters mk_structure].
  exact (SUMMARY sp content s' R H).
Qed.

Lemma C1_witness :
  (exists s, _auto_detect Cases.scenario_flat = Ok s
     /\ intro_count (chapters s) = 1%nat
     /\ (intro_count (chapters s) <= 1)%nat)
  /\ (exists s,
        _parse_summary_md Cases.intro_links_env Cases.summary_path = Ok s
        /\ intro_count (chapters s) = 2%nat).
Proof.
  split.
  - eexists. split; [vm_compute; reflexivity|].
    split; [vm_compute; reflexivity|].
    refine (proj1 (proj1 (C1_intro_chapters_per_parser Cases.scenario_flat)
                     _ _)).
    vm_compute; reflexivity.
  - eexists. split; [vm_compute; reflexivity|].
    match goal with
    | |- intro_count (chapters ?s) = _ =>
        rewrite (proj1 (proj2 (C1_intro_chapters_per_parser
                                 Cases.intro_links_env))
                   Cases.summary_path _ s ltac:(vm_compute; reflexivity)
                   ltac:(vm_compute; reflexivity))
    end.
    vm_compute. reflexivity.
Defined.

(** C1 as stated fails: a manifest with links to [README.md] and
    [index.md], both existing, yields two chapters with [is_intro]. *)
Lemma C1_counterexample :
  ~ (forall s, detect_structure Cases.intro_links_env = Ok s ->
       (intro_count (chapters s) <= 1)%nat).
Proof.
  intros H. specialize (H _ ltac:(vm_compute; reflexivity)).
  vm_compute in H. lia.
Qed.

(** ** Strings: appending, searching *)

Lemma length_append (a b : string) :
  String.length (a ++ b) = (String.length a + String.length b)%nat.
Proof. induction a as [|c a IH]; simpl; auto. Qed.

Lemma append_assoc (a b c : string) : ((a ++ b) ++ c = a ++ (b ++ c))%string.
Proof. induction a as [|x a IH]; simpl; [reflexivity|now rewrite IH]. Qed.

Lemma append_empty_r (a : string) : (a ++ "")%string = a.
Proof. induction a as [|x a IH]; simpl; [reflexivity|now rewrite IH]. Qed.

Lemma has_char_app (x : ascii) (a b : string) :
  has_char x (a ++ b) = has_char x a || has_char x b.
Proof.
  induction a as [|c a IH]; simpl; [reflexivity|].
  now rewrite IH, orb_assoc.
Qed.

Lemma startswith_cons (a b : ascii) (p s : string) :
  startswith (String a p) (String b s) = Ascii.eqb a b && startswith p s.
Proof. reflexivity. Qed.

Lemma startswith_app (p s : string) : startswith p (p ++ s) = true.
Proof.
  induction p as [|c p IH]; simpl; [reflexivity|].
  now rewrite startswith_cons, Ascii.eqb_refl, IH.
Qed.

Lemma rev_onto_app (a b acc : string) :
  rev_onto (a ++ b) acc = rev_onto b (rev_onto a acc).
Proof.
  revert acc. induction a as [|c a IH]; intros acc; simpl; [reflexivity|].
  apply IH.
Qed.

Lemma rev_onto_acc (a acc : string) :
  rev_onto a acc = (rev_onto a "" ++ acc)%string.
Proof.
  revert acc. induction a as [|c a IH]; intros acc; simpl; [reflexivity|].
  rewrite IH, (IH (String c "")), append_assoc. reflexivity.
Qed.

Lemma endswith_app (s p : string) : endswith p (s ++ p) = true.
Proof.
  unfold endswith, rev.
  rewrite rev_onto_app, (rev_onto_acc p (rev_onto s "")).
  apply startswith_app.
Qed.

Lemma startswith_has_char (x : ascii) (p s : string) :
  startswith (String x p) s = true -> has_char x s = true.
Proof.
  destruct s as [|c s]; [discriminate|].
  rewrite startswith_cons, andb_true_iff. simpl. intros [H _]. now rewrite H.
Qed.

(** A character that the slug never contains. *)
Lemma remove_chars_has_char cls (x : ascii) (s : string) :
  cls x = true -> has_char x (remove_chars cls s) = false.
Proof.
  intros C. induction s as [|c s IH]; simpl; [reflexivity|].
  destruct (cls c) eqn:K; [exact IH|]. simpl. rewrite IH, orb_false_r.
  destruct (Ascii.eqb_spec x c) as [->|]; [congruence|reflexivity].
Qed.

Lemma sub_runs_has_char cls rep (x : ascii) (b : bool) (s : string) :
  has_char x rep = false -> has_char x s = false ->
  has_char x (sub_runs cls rep b s) = false.
Proof.
  intros R. revert b. induction s as [|c s IH]; intros b; simpl; [reflexivity|].
  rewrite orb_false_iff. intros [H1 H2].
  destruct (cls c); [destruct b|]; simpl;
    rewrite ?has_char_app, ?R, ?H1; simpl; auto.
Qed.

Lemma lstrip_char_has_char (x y : ascii) (s : string) :
  has_char x s = false -> has_char x (lstrip_char y s) = false.
Proof.
  induction s as [|c s IH]; simpl; [reflexivity|].
  rewrite orb_false_iff. intros [H1 H2].
  destruct (Ascii.eqb c y); [auto|]. simpl. now rewrite H1, H2.
Qed.

Lemma rstrip_char_has_char (x y : ascii) (s : string) :
  has_char x s = false -> has_char x (rstrip_char y s) = false.
Proof.
  induction s as [|c s IH]; simpl; [reflexivity|].
  rewrite orb_false_iff. intros [H1 H2].
  destruct (is_empty (rstrip_char y s) && Ascii.eqb c y); [reflexivity|].
  simpl. now rewrite H1, IH.
Qed.

Lemma slugify_no_slash (text : string) :
  has_char slash (BookWriter.slugify text) = false.
Proof.
  unfold BookWriter.slugify, strip_char.
  apply rstrip_char_has_char, lstrip_char_has_char, sub_runs_has_char;
    [reflexivity|].
  apply remove_chars_has_char. reflexivity.
Qed.

(** ** Decimal numerals *)

Lemma nzhead_not_zero_headed (d d' : Decimal.uint) :
  Decimal.nzhead d <> Decimal.D0 d'.
Proof. induction d; simpl; try discriminate. exact IHd. Qed.

Lemma pos_to_uint_head (p : positive) :
  Pos.to_uint p <> Decimal.Nil
  /\ forall d, Pos.to_uint p <> Decimal.D0 d.
Proof.
  split; [apply DecimalPos.Unsigned.to_uint_nonnil|].
  intros d H.
  pose proof (DecimalN.Unsigned.to_of (Pos.to_uint p)) as K.
  rewrite DecimalPos.Unsigned.of_to in K. simpl in K.
  rewrite H in K. unfold Decimal.unorm in K. simpl in K.
  destruct (Decimal.nzhead d) as [|u|u|u|u|u|u|u|u|u|u] eqn:Z;
    try discriminate.
  - injection K as ->.
    exact (DecimalPos.Unsigned.to_uint_nonzero p H).
  - exact (nzhead_not_zero_headed d u Z).
Qed.

Lemma string_of_uint_digits (d : Decimal.uint) :
  d <> Decimal.Nil -> (forall d', d <> Decimal.D0 d') ->
  exists c r, NilEmpty.string_of_uint d = String c r
    /\ is_digit c = true /\ c <> "0"%char
    /\ has_char slash (NilEmpty.string_of_uint d) = false.
Proof.
  assert (NS : forall u, has_char slash (NilEmpty.string_of_uint u) = false).
  { induction u; simpl; auto. }
  intros N Z.
  destruct d as [|u|u|u|u|u|u|u|u|u|u];
    [congruence|exfalso; exact (Z u eq_refl)|..];
    simpl; eexists _, _; (split; [reflexivity|]);
    (split; [reflexivity|]); (split; [discriminate|]); apply NS.
Qed.

(** The two-digit prefix [new_chapter] gives to a file name. *)
Lemma format_02d_head (n : Z) :
  1 <= n ->
  exists c1 c2 r, BookWriter.format_02d n = String c1 (String c2 r)
    /\ is_digit c1 = true
    /\ ~ (c1 = "0"%char /\ c2 = "0"%char)
    /\ has_char slash (BookWriter.format_02d n) = false.
Proof.
  intros H. unfold BookWriter.format_02d, BookWriter.decimal.
  destruct (n <? 0) eqn:NEG; [apply Z.ltb_lt in NEG; lia|].
  destruct (Z.to_N n) as [|p] eqn:P; [lia|].
  change (N.to_uint (N.pos p)) with (Pos.to_uint p).
  destruct (pos_to_uint_head p) as [NN NZ].
  destruct (string_of_uint_digits _ NN NZ) as (c & r & -> & D & C0 & S).
  destruct r as [|c2 r]; simpl.
  - exists "0"%char, c, "".
    split; [reflexivity|]. split; [reflexivity|].
    split; [intros [_ K]; congruence|].
    simpl in S. exact S.
  - exists c, c2, r.
    split; [reflexivity|]. split; [exact D|].
    split; [intros [K _]; congruence|exact S].
Qed.

(** ** The files the writer creates *)

Lemma digit_cases (c : ascii) :
  is_digit c = true ->
  In c ["0"; "1"; "2"; "3"; "4"; "5"; "6"; "7"; "8"; "9"]%char.
Proof.
  destruct c as [[] [] [] [] [] [] [] []]; intros H;
    try (vm_compute in H; discriminate H); simpl; auto 12.
Qed.

Lemma max_chapter_number_ge (W : Env) (dir : Path) (items : list string)
    (m r : Z) :
  BookWriter.max_chapter_number W dir items m = Ok r -> m <= r.
Proof.
  revert m. induction items as [|n rest IH]; intros m;
    cbn [BookWriter.max_chapter_number].
  - intros H; injection H as <-. lia.
  - unfold bind.
    destruct (BookWriter.is_file W (dir ++ [n])%list) as [f|]; [|discriminate].
    destruct (f && _); [|apply IH].
    destruct (leading_digits _); [|apply IH].
    intros H. apply IH in H. lia.
Qed.

Lemma get_next_chapter_number_pos (W : Env) (dir : Path) (n : Z) :
  BookWriter.get_next_chapter_number W dir = Ok n -> 1 <= n.
Proof.
  unfold BookWriter.get_next_chapter_number, bind.
  destruct (exists_ W dir) as [[|]|]; cbn [negb]; [| |discriminate].
  - destruct (BookWriter.iterdir W dir) as [items|]; [|discriminate].
    destruct (BookWriter.max_chapter_number W dir items 0) as [m|] eqn:M;
      [|discriminate].
    intros H; injection H as <-.
    apply max_chapter_number_ge in M. lia.
  - intros H; injection H as <-. lia.
Qed.

Lemma chapter_filename_shape (n : Z) (title : string) :
  1 <= n -> chapter_name_shape (BookWriter.chapter_filename n title).
Proof.
  intros H. unfold BookWriter.chapter_filename.
  destruct (format_02d_head n H) as (c1 & c2 & r & F & D & Z & S).
  exists c1, c2, (r ++ "-" ++ BookWriter.slugify title ++ ".md")%string.
  split; [rewrite F; reflexivity|].
  split; [exact D|]. split; [exact Z|]. split.
  - rewrite !has_char_app, S, slugify_no_slash. reflexivity.
  - rewrite <- !append_assoc. apply endswith_app.
Qed.

Section NameShape.

Variable fname : string.
Hypothesis shape : chapter_name_shape fname.

Lemma shape_components : components fname = [fname].
Proof.
  destruct shape as (c1 & c2 & r & F & D & Z & S & M).
  unfold components.
  assert (SP : forall s, has_char slash s = false -> split_slash s = [s]).
  { induction s as [|c s IH]; cbn [has_char split_slash]; [reflexivity|].
    rewrite orb_false_iff. intros [H1 H2].
    rewrite Ascii.eqb_sym, H1, (IH H2). reflexivity. }
  rewrite (SP _ S). simpl.
  assert (K : keep_component fname = true).
  { rewrite F. unfold keep_component. simpl.
    destruct (Ascii.eqb c1 "."); reflexivity. }
  now rewrite K.
Qed.

Lemma shape_first_not (x : ascii) (p : string) :
  is_digit x = false -> startswith (String x p) fname = false.
Proof.
  destruct shape as (c1 & c2 & r & F & D & _).
  intros X. rewrite F, startswith_cons.
  destruct (Ascii.eqb_spec x c1) as [->|]; [congruence|reflexivity].
Qed.

Lemma shape_joinpath (dir : Path) : joinpath dir fname = (dir ++ [fname])%list.
Proof.
  unfold joinpath, anchor.
  rewrite !shape_first_not by reflexivity.
  now rewrite shape_components.
Qed.

Lemma shape_name (dir : Path) : PathLib.name (dir ++ [fname])%list = fname.
Proof.
  destruct shape as (c1 & c2 & r & F & D & Z & S & M).
  unfold PathLib.name. rewrite rev_unit. unfold is_anchor. now rewrite S.
Qed.

Lemma shape_not_listed (names : list string) :
  Forall not_chapter_name names -> mem fname names = false.
Proof.
  destruct shape as (c1 & c2 & r & F & D & Z & _).
  intros A. unfold mem.
  destruct (existsb (String.eqb fname) names) eqn:X; [|reflexivity].
  exfalso. apply existsb_exists in X. destruct X as (n & I & Q).
  apply String.eqb_eq in Q. subst n.
  rewrite Forall_forall in A. specialize (A _ I). rewrite F in A.
  destruct A as [A|A]; [congruence|exact (Z A)].
Qed.

Lemma shape_upper_not_manifest :
  mem (upper fname) ["SUMMARY.MD"; "BOOK.TXT"] = false.
Proof.
  destruct shape as (c1 & c2 & r & F & D & _). rewrite F.
  destruct (digit_cases c1 D) as [<-|[<-|[<-|[<-|[<-|[<-|[<-|[<-|[<-|[<-|[]]]]]]]]]]];
    vm_compute; reflexivity.
Qed.

(** A file of that shape in the root is a candidate of the flat scan. *)
Lemma shape_flat_candidate (dir : Path) :
  flat_candidate (dir ++ [fname])%list = true /\ pat_md fname = true.
Proof.
  unfold flat_candidate. rewrite shape_name.
  rewrite (shape_first_not "_" "") by reflexivity.
  rewrite shape_upper_not_manifest.
  rewrite !shape_not_listed.
  - destruct shape as (c1 & c2 & r & F & D & Z & S & M). auto.
  - repeat (apply Forall_cons;
            [simpl; first [left; reflexivity|right; split; reflexivity]|]).
    apply Forall_nil.
  - repeat (apply Forall_cons;
            [simpl; first [left; reflexivity|right; split; reflexivity]|]).
    apply Forall_nil.
Qed.

End NameShape.

(** ** Reading back what the writer wrote *)

Lemma contains_cons (p : string) (c : ascii) (s : string) :
  contains p (String c s) = startswith p (String c s) || contains p s.
Proof. reflexivity. Qed.




(** ** The round trip *)

Lemma joinpath_plain (dir : Path) (n : string) :
  anchor n = None -> components n = [n] ->
  joinpath dir n = (dir ++ [n])%list.
Proof. intros A C. unfold joinpath. now rewrite A, C. Qed.

Lemma name_last (dir : Path) (n : string) :
  is_anchor n = false -> PathLib.name (dir ++ [n])%list = n.
Proof. intros A. unfold PathLib.name. rewrite rev_unit. now rewrite A. Qed.

Lemma intro_path_plain (dir : Path) (n : string) :
  In n INTRO_FILES -> joinpath dir n = (dir ++ [n])%list.
Proof.
  intros I. simpl in I.
  repeat (destruct I as [<-|I]; [apply joinpath_plain; reflexivity|]).
  destruct I.
Qed.

Lemma intro_path_name (dir : Path) (n : string) :
  In n INTRO_FILES -> PathLib.name (joinpath dir n) = n.
Proof.
  intros I. rewrite (intro_path_plain dir n I). simpl in I.
  repeat (destruct I as [<-|I]; [apply name_last; reflexivity|]).
  destruct I.
Qed.

Section RoundTripFacts.

Variable E : Env.






(** Without [chapter-*] entries in the root the candidates are those of
    the flat scan. *)
Lemma flat_collect :
  (forall m, In m (fs_listdir (fs E) (book_root E)) ->
     pat_chapter_dir m = false) ->
  _collect_markdown_files E
  = Ok (filter flat_candidate (glob E (book_root E) pat_md)).
Proof.
  intros ND. unfold _collect_markdown_files, glob.
  assert (Z : filter pat_chapter_dir (fs_listdir (fs E) (book_root E)) = []).
  { apply filter_none. rewrite Forall_forall. exact ND. }
  now rewrite Z.
Qed.

Lemma flat_candidates_listed p :
  In p (filter flat_candidate (glob E (book_root E) pat_md))
  <-> exists n, In n (fs_listdir (fs E) (book_root E))
        /\ p = (book_root E ++ [n])%list
        /\ pat_md n = true /\ flat_candidate p = true.
Proof.
  rewrite filter_In. unfold glob. rewrite in_map_iff. split.
  - intros [(n & <- & L) FC]. apply filter_In in L.
    exists n. tauto.
  - intros (n & L & -> & M & FC). split; [|exact FC].
    exists n. split; [reflexivity|]. apply filter_In. auto.
Qed.



End RoundTripFacts.






(** ** The scenarios of the specification, run on the code *)

Example scenario_manifest_links :
  Fixture.views (detect_structure Cases.scenario_summary)
  = Ok (summary,
        [(0, PStr "Intro", Fixture.at_root "README.md", true);
         (1, PStr "One", Fixture.at_root "chapters/01.md", false);
         (2, PStr "Two", Fixture.at_root "chapters/02.md", false)]).
Proof. vm_compute. reflexivity. Qed.

Example scenario_auto_detection :
  Fixture.views (detect_structure Cases.scenario_flat)
  = Ok (auto,
        [(0, PStr "Introduction", Fixture.at_root "readme.md", true);
         (1, PStr "One", Fixture.at_root "01-one.md", false);
         (2, PStr "Two", Fixture.at_root "02-two.md", false)]).
Proof. vm_compute. reflexivity. Qed.

Example scenario_revised_variant :
  _collect_markdown_files Cases.scenario_variants
  = Ok [Fixture.at_root "chapter-01/content/revised.md"].
Proof. vm_compute. reflexivity. Qed.

(** * Further properties of the code *)

(** ** Enrichment *)

(** X1: frontmatter enrichment never changes which file a chapter stands
    for nor whether it is the introduction, whatever the frontmatter
    holds. *)
Theorem X1_enrichment_keeps_path_and_intro (E : Env) (chapter c : Chapter) :
  _enrich_with_frontmatter E chapter = Ok c ->
  file_path c = file_path chapter /\ is_intro c = is_intro chapter.
Proof. apply enrich_keeps. Qed.

Lemma X1_witness :
  exists c,
    _enrich_with_frontmatter Cases.override_env
      (mk_chapter 1 (PStr "A") (Fixture.at_root "01-a.md") false) = Ok c
    /\ file_path c = Fixture.at_root "01-a.md" /\ is_intro c = false
    /\ number c = 5.
Proof.
  eexists. split; [vm_compute; reflexivity|].
  match goal with
  | |- file_path ?c = _ /\ _ =>
      destruct (X1_enrichment_keeps_path_and_intro Cases.override_env
                  (mk_chapter 1 (PStr "A") (Fixture.at_root "01-a.md") false)
                  c ltac:(vm_compute; reflexivity)) as [P I]
  end.
  split; [exact P|]. split; [exact I|vm_compute; reflexivity].
Defined.

(** X2: whenever enrichment returns, the chapter's number is the integer
    that [int] makes of the frontmatter's [chapter] value, if the
    frontmatter is a mapping that has the key and [int] accepts the
    value, and the number the chapter had before in every other case (no
    frontmatter, no such key, a frontmatter that is no mapping, a value
    [int] rejects with [ValueError] or [TypeError]). *)
Theorem X2_enrichment_number (E : Env) (chapter c : Chapter) :
  _enrich_with_frontmatter E chapter = Ok c ->
  number c = match frontmatter_chapter E (file_path chapter) with
             | Some n => n
             | None => number chapter
             end.
Proof.
  intros H. pose proof (enrich_number E _ _ H) as N. unfold numbered_as in N.
  destruct (enrich_keeps E _ _ H) as [P _]. now rewrite P in N.
Qed.

Lemma X2_witness :
  (exists c,
     _enrich_with_frontmatter Cases.override_env
       (mk_chapter 1 (PStr "A") (Fixture.at_root "01-a.md") false) = Ok c
     /\ number c = 5)
  /\ (exists c,
        _enrich_with_frontmatter Cases.string_frontmatter_env
          (mk_chapter 1 (PStr "A") (Fixture.at_root "01-a.md") false) = Ok c
        /\ number c = 1).
Proof.
  split; (eexists; split; [vm_compute; reflexivity|]).
  - refine (eq_trans (X2_enrichment_number Cases.override_env
              (mk_chapter 1 (PStr "A") (Fixture.at_root "01-a.md") false) _ _) _);
      vm_compute; reflexivity.
  - refine (eq_trans (X2_enrichment_number Cases.string_frontmatter_env
              (mk_chapter 1 (PStr "A") (Fixture.at_root "01-a.md") false) _ _) _);
      vm_compute; reflexivity.
Defined.

Lemma update_absent (E : Env) key fm set c :
  Py.contains_str key fm = Ok false -> update_if_present key fm set c = Ok c.
Proof. intros H. unfold update_if_present. now rewrite H. Qed.

Lemma update_present (E : Env) key fm set c v :
  Py.contains_str key fm = Ok true -> Py.getitem_str key fm = Ok v ->
  update_if_present key fm set c = set c v.
Proof. intros H G. unfold update_if_present. now rewrite H, G. Qed.

(** Whether the [chapter] step returns depends on the frontmatter
    alone. *)
Lemma update_number_again (E : Env) fm c c' x :
  update_number E fm c = Ok c' ->
  update_number E fm x
  = Ok (with_number x match chapter_value E fm with
                      | Ok n => n
                      | Raise _ => number x
                      end).
Proof.
  unfold update_number, bind.
  destruct (Py.contains_str "chapter" fm) as [[|]|e] eqn:P; try discriminate.
  - destruct (chapter_value E fm) as [n|[]]; try discriminate; intros _;
      rewrite ?with_number_same; reflexivity.
  - intros _. destruct (absent_getitem _ _ P) as [e G].
    unfold chapter_value, bind. rewrite G. now rewrite with_number_same.
Qed.

(** X3: enrichment is idempotent: enriching a chapter that came out of
    enrichment returns it unchanged. *)
Theorem X3_enrichment_idempotent (E : Env) (chapter c : Chapter) :
  _enrich_with_frontmatter E chapter = Ok c ->
  _enrich_with_frontmatter E c = Ok c.
Proof.
  intros H. pose proof H as H0. pose proof (enrich_keeps E _ _ H) as [P _].
  apply enrich_inv in H.
  destruct H as [(-> & _)|(content & c1 & c2 & c3 & c4 & c5 & R & T & H1 & H2
                          & H3 & H4 & H5 & ->)]; [exact H0|].
  clear H0.
  unfold _enrich_with_frontmatter. rewrite P, R, T. cbn [negb].
  set (fm := _parse_frontmatter E content) in *.
  rewrite (update_number_inv E _ _ _ H5).
  pose proof (update_number_again E fm c4 c5) as AGAIN.
  specialize (fun x => AGAIN x H5). clear H5 P R T.
  apply update_if_present_inv in H1, H2, H3, H4.
  destruct chapter as [n0 t0 p0 i0 d0 a0 dt0 m0].
  destruct H1 as [[A1 ->]|[A1 [v1 [G1 K1]]]];
    [rewrite (update_absent E "title" _ _ _ A1)
    |rewrite (update_present E "title" _ _ _ _ A1 G1);
     injection K1 as <-; unfold set_title at 1];
    cbn [bind number title file_path is_intro is_draft author date metadata
         set_metadata with_number];
    (destruct H2 as [[A2 ->]|[A2 [v2 [G2 K2]]]];
     [rewrite (update_absent E "author" _ _ _ A2)
     |rewrite (update_present E "author" _ _ _ _ A2 G2);
      injection K2 as <-; unfold set_author at 1]);
    cbn [bind number title file_path is_intro is_draft author date metadata
         set_metadata with_number];
    (destruct H3 as [[A3 ->]|[A3 [v3 [G3 K3]]]];
     [rewrite (update_absent E "date" _ _ _ A3)
     |rewrite (update_present E "date" _ _ _ _ A3 G3);
      unfold set_date in K3 |- * ;
      destruct (py_str (rt E) v3) as [s3|]; [|discriminate K3];
      injection K3 as <-]);
    cbn [bind number title file_path is_intro is_draft author date metadata
         set_metadata with_number];
    (destruct H4 as [[A4 ->]|[A4 [v4 [G4 K4]]]];
     [rewrite (update_absent E "draft" _ _ _ A4)
     |rewrite (update_present E "draft" _ _ _ _ A4 G4);
      injection K4 as <-; unfold set_draft at 1]);
    cbn [bind number title file_path is_intro is_draft author date metadata
         set_metadata with_number];
    rewrite AGAIN;
    cbn [bind number title file_path is_intro is_draft author date metadata
         set_metadata with_number];
    destruct (chapter_value E fm); reflexivity.
Qed.

Lemma X3_witness :
  exists c,
    _enrich_with_frontmatter Cases.override_env
      (mk_chapter 1 (PStr "A") (Fixture.at_root "01-a.md") false) = Ok c
    /\ _enrich_with_frontmatter Cases.override_env c = Ok c.
Proof.
  eexists. split; [vm_compute; reflexivity|].
  apply (X3_enrichment_idempotent Cases.override_env
           (mk_chapter 1 (PStr "A") (Fixture.at_root "01-a.md") false)).
  vm_compute; reflexivity.
Defined.

(** ** Detection returns *)

Section ReturnFacts.

Variable E : Env.
Hypothesis B : benign E.
Hypothesis X : examinable E.

Lemma benign_leanpub_step base lines k acc :
  exists res, leanpub_step E base lines k acc = Ok res.
Proof.
  revert k acc.
  induction lines as [|raw rest IH]; intros k acc; cbn [leanpub_step]; eauto.
  cbv zeta.
  destruct (is_empty (strip raw) || startswith "#" (strip raw)); [apply IH|].
  destruct (mem (strip raw) LEANPUB_MARKERS); [apply IH|].
  unfold resolve_entry. rewrite (examined_exists E _ (X _)). cbn [bind].
  match goal with |- context [bind (if ?b then Ok ?p else Ok ?q) _] =>
    replace (if b then Ok p else Ok q) with (Ok (if b then p else q))
      by (destruct b; reflexivity);
    set (fp := if b then p else q) end.
  cbn [bind]. rewrite (examined_exists E _ (X _)). cbn [bind].
  destruct (found E fp && String.eqb (suffix fp) ".md"); [|apply IH].
  destruct (benign_extract_title E fp (B fp)) as [t ->].
  cbn [bind].
  destruct (mem (lower (strip raw)) LEANPUB_INTRO);
    match goal with |- context [_enrich_with_frontmatter E ?c] =>
      destruct (benign_enrich E c (B _)) as [c' ->] end;
    cbn [bind]; apply IH.
Qed.

Lemma benign_parse_summary sp : exists s, _parse_summary_md E sp = Ok s.
Proof.
  unfold _parse_summary_md.
  destruct (read_text E sp) as [content|]; [|exact (benign_auto_detect E B X)].
  destruct (passable_summary_step E sp (split_lines content) 0 []
              (benign_lines_passable E sp _ B X)) as [res ->].
  cbn [bind]. eauto.
Qed.

Lemma benign_parse_leanpub bp : exists s, _parse_leanpub E bp = Ok s.
Proof.
  unfold _parse_leanpub.
  destruct (read_text E bp) as [content|]; [|exact (benign_auto_detect E B X)].
  unfold leanpub_base. rewrite (examined_exists E _ (X _)). cbn [bind].
  match goal with |- context [leanpub_step E ?b ?l 0 []] =>
    destruct (benign_leanpub_step b l 0 []) as [res ->] end.
  cbn [bind]. eauto.
Qed.

End ReturnFacts.

(** X4: when [exists()] raises on no path and no file has a frontmatter
    on which enrichment raises (each is absent, empty, or a mapping
    whose [chapter] is not an infinite float and whose [date] [str]
    accepts), [detect_structure] returns a structure whenever the
    manifest it commits to is [SUMMARY.md], [Book.txt] or [book.toml], or
    there is no manifest: unreadable files, unreadable manifests,
    dangling links and invalid YAML never make it raise. *)
Theorem X4_detection_returns_on_benign_files (E : Env) :
  benign E -> examinable E ->
  found E (joinpath (book_root E) "SUMMARY.md") = true
  \/ found E (joinpath (book_root E) "Book.txt") = true
  \/ found E (joinpath (book_root E) "_bookdown.yml") = false ->
  exists s, detect_structure E = Ok s.
Proof.
  intros B X H. unfold detect_structure.
  rewrite (examined_exists E _ (X _)). cbn [bind].
  destruct (found E (joinpath (book_root E) "SUMMARY.md"));
    [apply benign_parse_summary; assumption|].
  rewrite (examined_exists E _ (X _)). cbn [bind].
  destruct (found E (joinpath (book_root E) "Book.txt"));
    [apply benign_parse_leanpub; assumption|].
  rewrite (examined_exists E _ (X _)). cbn [bind].
  destruct (found E (joinpath (book_root E) "_bookdown.yml")).
  { destruct H as [H|[H|H]]; discriminate H. }
  rewrite (examined_exists E _ (X _)). cbn [bind].
  destruct (found E (joinpath (book_root E) "book.toml"));
    [|exact (benign_auto_detect E B X)].
  unfold _parse_mdbook_toml.
  destruct (toml_metadata E _) as [t a].
  rewrite (examined_exists E _ (X _)). cbn [bind].
  destruct (found E _); [|exact (benign_auto_detect E B X)].
  destruct (benign_parse_summary E B X
              (joinpath (joinpath (book_root E) "src") "SUMMARY.md"))
    as [s' ->].
  cbn [bind]. eauto.
Qed.

Lemma scenario_summary_benign : benign Cases.scenario_summary.
Proof.
  intros p content. unfold read_text.
  cbn [fs Cases.scenario_summary Fixture.env fs_read_text Fixture.mem_fs
       Fixture.assoc].
  repeat (destruct (path_eqb p _);
          [intros H; injection H as <-; vm_compute; reflexivity|]).
  discriminate.
Qed.

Lemma X4_witness : exists s, detect_structure Cases.scenario_summary = Ok s.
Proof.
  apply X4_detection_returns_on_benign_files.
  - exact scenario_summary_benign.
  - intros p. discriminate.
  - left. vm_compute. reflexivity.
Defined.

(** ** The auto-detector's chapters *)

Section AutoChapters.

Variable E : Env.

Lemma number_step_added md_files k acc res :
  number_step E md_files k acc = Ok res ->
  exists added,
    res = (acc ++ added)%list
    /\ Forall (fun c => is_intro c = false
                        /\ In (file_path c) md_files
                        /\ mem (PathLib.name (file_path c)) SKIP_FILES = false)
         added.
Proof.
  revert k acc res.
  induction md_files as [|p rest IH]; intros k acc res; cbn [number_step].
  - intros H; injection H as <-. exists []. rewrite List.app_nil_r. auto.
  - assert (W : forall added : list Chapter,
              Forall (fun c => is_intro c = false
                               /\ In (file_path c) rest
                               /\ mem (PathLib.name (file_path c)) SKIP_FILES
                                  = false) added ->
              Forall (fun c => is_intro c = false
                               /\ In (file_path c) (p :: rest)
                               /\ mem (PathLib.name (file_path c)) SKIP_FILES
                                  = false) added).
    { intros added F. eapply Forall_impl; [|exact F].
      simpl. intros c (? & ? & ?). auto. }
    destruct (existsb _ acc).
    { intros H. destruct (IH _ _ _ H) as (added & ? & F). eauto. }
    destruct (mem (PathLib.name p) SKIP_FILES) eqn:S.
    { intros H. destruct (IH _ _ _ H) as (added & ? & F). eauto. }
    unfold bind.
    destruct (auto_title E p) as [t|]; [|discriminate].
    destruct (_enrich_with_frontmatter E _) as [c|] eqn:H; [|discriminate].
    intros K. destruct (IH _ _ _ K) as (added & -> & F).
    apply enrich_keeps in H. cbn [file_path is_intro mk_chapter] in H.
    destruct H as [P I].
    exists (c :: added). rewrite <- List.app_assoc. split; [reflexivity|].
    constructor; [|apply W; exact F].
    rewrite P. simpl. auto.
Qed.

Lemma number_step_nodup md_files k acc res :
  NoDup (map file_path acc) ->
  number_step E md_files k acc = Ok res ->
  NoDup (map file_path res).
Proof.
  revert k acc res.
  induction md_files as [|p rest IH]; intros k acc res N; cbn [number_step].
  - intros H; injection H as <-. exact N.
  - destruct (existsb (fun c => path_eqb (file_path c) p) acc) eqn:X;
      [apply IH; exact N|].
    destruct (mem (PathLib.name p) SKIP_FILES); [apply IH; exact N|].
    unfold bind.
    destruct (auto_title E p) as [t|]; [|discriminate].
    destruct (_enrich_with_frontmatter E _) as [c|] eqn:H; [|discriminate].
    apply IH.
    apply enrich_keeps in H. cbn [file_path mk_chapter] in H.
    destruct H as [P _].
    rewrite map_app. cbn [map]. rewrite P.
    eapply Permutation_NoDup; [apply Permutation_cons_append|].
    constructor; [|exact N].
    intros I. apply in_map_iff in I. destruct I as (c' & Pc & Ic).
    assert (T : existsb (fun c => path_eqb (file_path c) p) acc = true).
    { apply existsb_exists. exists c'. split; [exact Ic|].
      apply path_eqb_eq. exact Pc. }
    congruence.
Qed.

End AutoChapters.

(** X5: the auto-detector never returns two chapters for the same file
    path. *)
Theorem X5_auto_detect_paths_distinct (E : Env) (s : BookStructure) :
  _auto_detect E = Ok s -> NoDup (map file_path (chapters s)).
Proof.
  intros H.
  destruct (auto_detect_spec _ _ H) as (intro & files & added & C & I & _ & N & _).
  rewrite C. apply (number_step_nodup E _ _ _ _) with (2 := N).
  destruct (intro_step_spec _ _ _ I) as [->|(c & n & -> & _)]; simpl.
  - constructor.
  - constructor; [intros []|constructor].
Qed.

Lemma X5_witness :
  exists s, _auto_detect Cases.scenario_flat = Ok s
    /\ NoDup (map file_path (chapters s)).
Proof.
  eexists. split; [vm_compute; reflexivity|].
  apply (X5_auto_detect_paths_distinct Cases.scenario_flat).
  vm_compute; reflexivity.
Defined.

Lemma subseq_length {A : Type} (l1 l2 : list A) :
  subseq l1 l2 -> (List.length l1 <= List.length l2)%nat.
Proof. induction 1; simpl; lia. Qed.

(** X6: in a root without [chapter-*] entries, the chapters of the
    auto-detector other than the introduction are exactly the entries of
    the root whose name ends in [.md], does not start with an underscore,
    is not [SUMMARY.md] or [Book.txt] in any letter case, and is neither
    an intro file name nor in the skip list. *)
Theorem X6_flat_scan_chapters (E : Env) (s : BookStructure) :
  _auto_detect E = Ok s ->
  (forall m, In m (fs_listdir (fs E) (book_root E)) ->
     pat_chapter_dir m = false) ->
  forall p,
    (exists c, In c (non_intro (chapters s)) /\ file_path c = p)
    <-> (exists n, In n (fs_listdir (fs E) (book_root E))
           /\ p = (book_root E ++ [n])%list
           /\ pat_md n = true /\ flat_candidate p = true).
Proof.
  intros H ND p.
  destruct (auto_detect_spec _ _ H) as (intro & files & added & C & I & CF & N & _).
  destruct (number_step_added E _ _ _ _ N) as (added' & EQ & F).
  apply app_inv_head in EQ. subst added'.
  assert (FI : Forall (fun c => is_intro c = true) intro).
  { destruct (intro_step_spec _ _ _ I) as [->|(c & n & -> & T & _)];
      repeat constructor; auto. }
  assert (FA : Forall (fun c => is_intro c = false) added).
  { eapply Forall_impl; [|exact F]. intros c K. apply K. }
  assert (NI : non_intro (chapters s) = added).
  { rewrite C. apply (filter_split_flags intro added FI FA). }
  rewrite (flat_collect E ND) in CF. injection CF as <-.
  rewrite NI, <- flat_candidates_listed. split.
  - intros (c & Ic & <-). rewrite Forall_forall in F.
    destruct (F c Ic) as (_ & K & _).
    eapply Permutation_in; [apply Permutation_sym, sort_md_files_perm|exact K].
  - intros K.
    assert (FC : flat_candidate p = true)
      by (apply flat_candidates_listed in K; destruct K; tauto).
    unfold flat_candidate in FC. rewrite !andb_true_iff, !negb_true_iff in FC.
    destruct FC as [[[_ _] NIN] NS].
    destruct (number_step_covers E _ _ _ _ p N) as (c & Ic & Pc).
    + eapply Permutation_in; [apply sort_md_files_perm|exact K].
    + exact NS.
    + exists c. split; [|exact Pc].
      apply in_app_or in Ic. destruct Ic as [Ic|Ic]; [|exact Ic].
      exfalso.
      destruct (intro_step_spec _ _ _ I) as [->|(c' & n & -> & _ & In' & _ & P')];
        [destruct Ic|].
      destruct Ic as [<-|[]].
      rewrite <- Pc, P', (intro_path_name _ _ In') in NIN.
      unfold mem in NIN.
      assert (T : existsb (String.eqb n) INTRO_FILES = true).
      { apply existsb_exists. exists n. split; [exact In'|].
        apply String.eqb_refl. }
      congruence.
Qed.

Lemma X6_witness :
  exists s, _auto_detect Cases.scenario_flat = Ok s
    /\ exists c, In c (non_intro (chapters s))
         /\ file_path c = Fixture.at_root "02-two.md".
Proof.
  eexists. split; [vm_compute; reflexivity|].
  refine (proj2 (X6_flat_scan_chapters Cases.scenario_flat _ _ _
                   (Fixture.at_root "02-two.md")) _).
  - vm_compute; reflexivity.
  - intros m H. vm_compute in H.
    destruct H as [<-|[<-|[<-|[]]]]; vm_compute; reflexivity.
  - exists "02-two.md". split; [vm_compute; auto|].
    repeat split; vm_compute; reflexivity.
Defined.

(** ** Chapter directories and the choice among variants *)

Lemma first_matching_spec (ps : list (string -> bool)) (files : list Path) :
  match first_matching ps files with
  | Some f =>
      In f files
      /\ exists j pat, nth_error ps j = Some pat
           /\ pat (PathLib.name f) = true
           /\ forall i q, (i < j)%nat -> nth_error ps i = Some q ->
                existsb (fun g => q (PathLib.name g)) files = false
  | None =>
      forall q, In q ps -> existsb (fun g => q (PathLib.name g)) files = false
  end.
Proof.
  induction ps as [|pat ps IH]; cbn [first_matching]; [intros q []|].
  destruct (find (fun f => pat (PathLib.name f)) files) as [f|] eqn:FD.
  - apply find_some in FD. destruct FD as [I M].
    split; [exact I|]. exists 0%nat, pat. split; [reflexivity|].
    split; [exact M|]. intros i q L. lia.
  - assert (NO : existsb (fun g => pat (PathLib.name g)) files = false).
    { destruct (existsb _ files) eqn:X; [|reflexivity].
      apply existsb_exists in X. destruct X as (g & Ig & Mg).
      pose proof (find_none _ _ FD g Ig) as K. simpl in K. congruence. }
    destruct (first_matching ps files) as [f|].
    + destruct IH as (I & j & q & NJ & M & EARLIER).
      split; [exact I|]. exists (S j), q. split; [exact NJ|].
      split; [exact M|].
      intros [|i] q' L; simpl; [intros K; injection K as <-; exact NO|].
      apply EARLIER. lia.
    + intros q [<-|Iq]; [exact NO|apply IH; exact Iq].
Qed.

Lemma pick_best_spec (files : list Path) :
  match _pick_best_content_file files with
  | None => files = []
  | Some f =>
      In f files
      /\ ((exists j pat, nth_error priority_patterns j = Some pat
             /\ pat (PathLib.name f) = true
             /\ forall i q, (i < j)%nat ->
                  nth_error priority_patterns i = Some q ->
                  existsb (fun g => q (PathLib.name g)) files = false)
          \/ (hd_error files = Some f
              /\ forall q, In q priority_patterns ->
                   existsb (fun g => q (PathLib.name g)) files = false))
  end.
Proof.
  unfold _pick_best_content_file.
  destruct files as [|f0 files]; [reflexivity|].
  pose proof (first_matching_spec priority_patterns (f0 :: files)) as K.
  destruct (first_matching priority_patterns (f0 :: files)) as [f|].
  - destruct K as [I K]. split; [exact I|]. left. exact K.
  - split; [left; reflexivity|]. right. split; [reflexivity|exact K].
Qed.


Lemma pick_best_in (files : list Path) (f : Path) :
  _pick_best_content_file files = Some f -> In f files.
Proof.
  intros H. pose proof (pick_best_spec files) as K.
  rewrite H in K. apply K.
Qed.

(** X8: [_pick_best_content_file] returns nothing only for an empty
    list; otherwise it returns one of the given files: a file matching
    the first of the patterns complete, enhanced, revised, final (in that
    priority) that any file matches, and the first file of the list when
    no file matches any of them. *)
Theorem X8_pick_best_content_file (files : list Path) :
  match _pick_best_content_file files with
  | None => files = []
  | Some f =>
      In f files
      /\ ((exists j pat, nth_error priority_patterns j = Some pat
             /\ pat (PathLib.name f) = true
             /\ forall i q, (i < j)%nat ->
                  nth_error priority_patterns i = Some q ->
                  existsb (fun g => q (PathLib.name g)) files = false)
          \/ (hd_error files = Some f
              /\ forall q, In q priority_patterns ->
                   existsb (fun g => q (PathLib.name g)) files = false))
  end.
Proof. apply pick_best_spec. Qed.

Lemma X8_witness :
  _pick_best_content_file
    [Fixture.at_root "c/draft.md"; Fixture.at_root "c/x-final.md";
     Fixture.at_root "c/Revised.md"]
  = Some (Fixture.at_root "c/Revised.md").
Proof.
  pose proof (X8_pick_best_content_file
                [Fixture.at_root "c/draft.md"; Fixture.at_root "c/x-final.md";
                 Fixture.at_root "c/Revised.md"]) as K.
  vm_compute. reflexivity.
Defined.

Section ChapterDirs.

Variable E : Env.

Lemma glob_md_in (d p : Path) :
  In p (glob E d pat_md) -> exists n, pat_md n = true /\ p = (d ++ [n])%list.
Proof.
  unfold glob. rewrite in_map_iff. intros (n & <- & I).
  apply filter_In in I. exists n. tauto.
Qed.

Lemma collect_chapter_dirs_spec (dirs : list Path) (acc res : list Path) :
  collect_chapter_dirs E dirs acc = Ok res ->
  exists extra,
    res = (acc ++ extra)%list
    /\ (List.length extra <= List.length dirs)%nat
    /\ Forall (fun p => exists d, In d dirs /\ in_chapter_dir d p) extra.
Proof.
  revert acc res. induction dirs as [|d dirs IH]; intros acc res.
  - intros H; injection H as <-. exists []. simpl.
    rewrite List.app_nil_r. auto.
  - assert (W : forall extra : list Path,
              Forall (fun p => exists d', In d' dirs /\ in_chapter_dir d' p)
                extra ->
              Forall (fun p => exists d', In d' (d :: dirs)
                                 /\ in_chapter_dir d' p) extra).
    { intros extra F. eapply Forall_impl; [|exact F].
      intros p (d' & I & K). exists d'. simpl. auto. }
    assert (STEP : forall files f,
              (forall p, In p files -> in_chapter_dir d p) ->
              _pick_best_content_file files = Some f ->
              collect_chapter_dirs E dirs (append_opt acc (Some f)) = Ok res ->
              exists extra,
                res = (acc ++ extra)%list
                /\ (List.length extra <= List.length (d :: dirs))%nat
                /\ Forall (fun p => exists d', In d' (d :: dirs)
                                      /\ in_chapter_dir d' p) extra).
    { intros files f IN PK H.
      destruct (IH _ _ H) as (extra & -> & L & F).
      exists (f :: extra). cbn [append_opt]. rewrite <- List.app_assoc.
      split; [reflexivity|]. split; [simpl; lia|].
      constructor; [|apply W; exact F].
      exists d. split; [left; reflexivity|].
      apply IN. exact (pick_best_in _ _ PK). }
    cbn [collect_chapter_dirs]. cbv zeta. unfold bind at 1.
    destruct (exists_ E (joinpath d "content")) as [has_content|];
      [|discriminate].
    set (content_files :=
           if has_content then glob E (joinpath d "content") pat_md else []).
    assert (CF : forall p, In p content_files -> in_chapter_dir d p).
    { unfold content_files. intros p I.
      destruct has_content; [|destruct I].
      apply glob_md_in in I. destruct I as (n & M & ->).
      exists n. split; [exact M|]. right.
      rewrite joinpath_plain by reflexivity.
      rewrite <- List.app_assoc. reflexivity. }
    destruct content_files as [|f1 fs1] eqn:CE.
    + set (direct_files :=
             filter (fun f => negb (startswith "_" (PathLib.name f)))
                    (glob E d pat_md)).
      assert (DF : forall p, In p direct_files -> in_chapter_dir d p).
      { unfold direct_files. intros p I. apply filter_In in I.
        destruct I as [I _]. apply glob_md_in in I.
        destruct I as (n & M & ->). exists n. auto. }
      destruct direct_files as [|f2 fs2] eqn:DE.
      * intros H. destruct (IH _ _ H) as (extra & -> & L & F).
        exists extra. split; [reflexivity|]. split; [simpl; lia|].
        apply W; exact F.
      * destruct (_pick_best_content_file (f2 :: fs2)) as [f|] eqn:PK.
        -- exact (STEP _ _ DF PK).
        -- pose proof (pick_best_spec (f2 :: fs2)) as K. rewrite PK in K.
           discriminate K.
    + destruct (_pick_best_content_file (f1 :: fs1)) as [f|] eqn:PK.
      * exact (STEP _ _ CF PK).
      * pose proof (pick_best_spec (f1 :: fs1)) as K. rewrite PK in K.
        discriminate K.
Qed.

End ChapterDirs.

(** X7: in a root with [chapter-*] entries, the auto-detector takes at
    most one file from each of them: it returns no more chapters, the
    introduction apart, than there are such entries, and each of these
    chapters is a markdown file directly in one of them or in its
    [content] subdirectory. *)
Theorem X7_one_chapter_per_directory (E : Env) (s : BookStructure) :
  _auto_detect E = Ok s ->
  glob E (book_root E) pat_chapter_dir <> [] ->
  (List.length (non_intro (chapters s))
   <= List.length (glob E (book_root E) pat_chapter_dir))%nat
  /\ forall c, In c (non_intro (chapters s)) ->
       exists d, In d (glob E (book_root E) pat_chapter_dir)
         /\ in_chapter_dir d (file_path c).
Proof.
  intros H NE.
  destruct (auto_detect_chapters _ _ H)
    as (intro & files & added & C & _ & _ & FI & FA & _ & CF & S).
  assert (NI : non_intro (chapters s) = added).
  { rewrite C. apply (filter_split_flags intro added FI FA). }
  rewrite NI.
  set (dirs := glob E (book_root E) pat_chapter_dir) in *.
  pose proof (stable_sort_perm path_leb dirs) as PM.
  assert (COL : collect_chapter_dirs E (stable_sort path_leb dirs) []
                = Ok files).
  { rewrite <- CF. unfold _collect_markdown_files. fold dirs.
    destruct (stable_sort path_leb dirs) eqn:SD; [|reflexivity].
    apply Permutation_sym, Permutation_nil in PM. contradiction. }
  destruct (collect_chapter_dirs_spec E _ _ _ COL) as (extra & CE & L & F).
  simpl in CE. subst files.
  split.
  - apply subseq_length in S. rewrite length_map in S.
    rewrite <- (Permutation_length (sort_md_files_perm extra)) in S.
    rewrite <- (Permutation_length PM) in L. lia.
  - intros c Ic.
    assert (K : In (file_path c) extra).
    { eapply Permutation_in; [apply Permutation_sym, sort_md_files_perm|].
      eapply subseq_In; [exact S|]. now apply in_map. }
    rewrite Forall_forall in F. destruct (F _ K) as (d & Id & CD).
    exists d. split; [|exact CD].
    eapply Permutation_in; [apply Permutation_sym; exact PM|exact Id].
Qed.

Lemma X7_witness :
  exists s, _auto_detect Cases.scenario_variants = Ok s
    /\ (List.length (non_intro (chapters s)) <= 1)%nat.
Proof.
  eexists. split; [vm_compute; reflexivity|].
  refine (proj1 (X7_one_chapter_per_directory Cases.scenario_variants _ _ _)).
  - vm_compute; reflexivity.
  - vm_compute; discriminate.
Defined.

(** ** Titles of the chapters returned *)

Section ChapterTitles.

Variable E : Env.

Lemma number_step_titles md_files k acc res :
  number_step E md_files k acc = Ok res ->
  exists added,
    res = (acc ++ added)%list
    /\ Forall (fun c => is_intro c = false
                        /\ title c = title_by_priority E (file_path c)) added.
Proof.
  revert k acc res.
  induction md_files as [|p rest IH]; intros k acc res; cbn [number_step].
  - intros H; injection H as <-. exists []. rewrite List.app_nil_r. auto.
  - destruct (existsb _ acc); [apply IH|].
    destruct (mem (PathLib.name p) SKIP_FILES); [apply IH|].
    unfold auto_title, bind.
    destruct (_extract_title_from_file E p) as [t|] eqn:X; [|discriminate].
    destruct (_enrich_with_frontmatter E _) as [c|] eqn:H; [|discriminate].
    intros K. destruct (IH _ _ _ K) as (added & -> & F).
    pose proof (enriched_title E _ _ _ _ _ _ X H) as T.
    apply enrich_keeps in H. cbn [file_path is_intro mk_chapter] in H.
    destruct H as [P I].
    exists (c :: added). rewrite <- List.app_assoc. split; [reflexivity|].
    constructor; [|exact F].
    split; [exact I|]. rewrite P. exact T.
Qed.

Lemma intro_step_titles names cs :
  intro_step E names = Ok cs ->
  Forall (fun c => is_intro c = true
                   /\ title c = title_with_fallback E (file_path c)
                                  (PStr "Introduction")) cs.
Proof.
  induction names as [|n names IH]; cbn [intro_step].
  - intros H; injection H as <-. constructor.
  - unfold bind at 1.
    destruct (exists_ E (joinpath (book_root E) n)) as [[|]|];
      [|exact IH|discriminate].
    unfold bind.
    destruct (_extract_title_from_file E _) as [t|] eqn:X; [|discriminate].
    destruct (_enrich_with_frontmatter E _) as [c|] eqn:H; [|discriminate].
    intros K; injection K as <-.
    pose proof (enriched_title E _ _ _ _ _ _ X H) as T.
    apply enrich_keeps in H. cbn [file_path is_intro mk_chapter] in H.
    destruct H as [P I].
    constructor; [|constructor]. split; [exact I|]. rewrite P. exact T.
Qed.

End ChapterTitles.

(** X9: the title of every chapter the auto-detector returns follows the
    priority of the title resolver, applied to the chapter's file: the
    [title] of the frontmatter if the frontmatter is a mapping that has
    one (whatever the value: enrichment puts it back over the resolved
    title), else the first line that is a level-1 heading, else the
    fallback, which is ['Introduction'] for the introduction and the
    title derived from the file name for any other chapter. *)
Theorem X9_auto_detected_titles (E : Env) (s : BookStructure) :
  _auto_detect E = Ok s ->
  forall c, In c (chapters s) ->
    title c
    = title_with_fallback E (file_path c)
        (if is_intro c then PStr "Introduction"
         else PStr (_title_from_filename E (stem (file_path c)))).
Proof.
  intros H c I.
  destruct (auto_detect_spec _ _ H) as (intro & files & added & C & IS & _ & N & _).
  destruct (number_step_titles E _ _ _ _ N) as (added' & EQ & F).
  apply app_inv_head in EQ. subst added'.
  pose proof (intro_step_titles E _ _ IS) as FI.
  rewrite C in I. apply in_app_or in I. destruct I as [I|I].
  - rewrite Forall_forall in FI. destruct (FI c I) as [-> T]. exact T.
  - rewrite Forall_forall in F. destruct (F c I) as [-> T]. exact T.
Qed.

Lemma X9_witness :
  exists s, _auto_detect Cases.override_env = Ok s
    /\ map title (chapters s) = [PStr "A"; PStr "B"]
    /\ forall c, In c (chapters s) ->
         title c
         = title_with_fallback Cases.override_env (file_path c)
             (if is_intro c then PStr "Introduction"
              else PStr (_title_from_filename Cases.override_env
                           (stem (file_path c)))).
Proof.
  eexists. split; [vm_compute; reflexivity|].
  split; [vm_compute; reflexivity|].
  apply (X9_auto_detected_titles Cases.override_env).
  vm_compute; reflexivity.
Defined.

(** ** The plain-text manifest *)

(** X10: the plain-text parser returns one chapter for each line of
    [Book.txt] that, stripped, is not empty, not a comment, not a
    section marker, and names an existing file with the suffix [.md]
    (looked up in [manuscript/] if that exists, else and failing that in
    the root), in the order of the lines.  An entry is an introduction
    exactly when its line, lower-cased, is introduction.md, preface.md or
    foreword.md; introductions get the number 0 and the other entries
    the numbers 1, 2, ... in order, unless a frontmatter [chapter]
    replaces the number. *)
Theorem X10_plain_text_entries (E : Env) (bp : Path) (content : string)
    (s : BookStructure) :
  read_text E bp = Some content ->
  _parse_leanpub E bp = Ok s ->
  let entries :=
    leanpub_entries E (leanpub_base_dir E) (split_lines content) in
  format_type s = leanpub
  /\ map file_path (chapters s) = map snd entries
  /\ map is_intro (chapters s) = map entry_is_intro entries
  /\ Forall2 (numbered_as E) (numbering 0 (map entry_is_intro entries))
       (chapters s).
Proof. apply parse_leanpub_spec. Qed.

Lemma X10_witness :
  exists s, detect_structure Cases.leanpub_env = Ok s
    /\ Fixture.views (Ok s)
       = Ok (leanpub,
             [(0, PStr "Preface", Fixture.at_root "manuscript/preface.md", true);
              (1, PStr "A", Fixture.at_root "01-a.md", false)])
    /\ map file_path (chapters s)
       = map snd (leanpub_entries Cases.leanpub_env
                    (leanpub_base_dir Cases.leanpub_env)
                    (split_lines
                       ("frontmatter:" ++ nl ++ "preface.md" ++ nl
                        ++ "# comment" ++ nl ++ " 01-a.md " ++ nl
                        ++ "missing.md" ++ nl ++ "notes.txt" ++ nl))).
Proof.
  eexists. split; [vm_compute; reflexivity|].
  split; [vm_compute; reflexivity|].
  refine (proj1 (proj2 (X10_plain_text_entries Cases.leanpub_env
                          (Fixture.at_root "Book.txt") _ _ _ _)));
    vm_compute; reflexivity.
Defined.

(** ** The YAML-config parser *)

Section BookdownFacts.

Variable E : Env.

Lemma bookdown_step_shape rmd_files items k acc res :
  0 <= k ->
  bookdown_step E rmd_files items k acc = Ok res ->
  exists added a b,
    res = (acc ++ added)%list
    /\ map is_intro added = (repeat true a ++ repeat false b)%list
    /\ Forall2 (numbered_as E) (repeat 0 a ++ count_from k b)%list added
    /\ (k <> 0 -> a = 0%nat).
Proof.
  revert k acc res.
  induction items as [|item rest IH]; intros k acc res K.
  - simpl. intros H; injection H as <-. exists [], 0%nat, 0%nat.
    rewrite List.app_nil_r. repeat split; constructor.
  - cbn [bookdown_step].
    destruct item as [|b|z|f|file_name|iso|l|d]; try discriminate.
    unfold bind.
    destruct (bookdown_resolve E file_name) as [[fp|]|]; try discriminate.
    2:{ apply IH. exact K. }
    destruct (_extract_title_from_file E fp) as [t|]; [|discriminate].
    destruct (bookdown_is_intro rmd_files file_name) as [intro|]; [|discriminate].
    destruct (intro && (k =? 0)) eqn:C;
      (destruct (_enrich_with_frontmatter E _) as [c|] eqn:H; [|discriminate]);
      intros R;
      pose proof (enrich_number _ _ _ H) as Nc;
      apply enrich_keeps in H; cbn [file_path is_intro number mk_chapter] in H, Nc;
      destruct H as [Pc Ic].
    + apply andb_true_iff in C. destruct C as [_ Z]. apply Z.eqb_eq in Z.
      subst k.
      destruct (IH _ _ _ K R) as (added & a & b & -> & F & N & _).
      exists (c :: added), (S a), b. rewrite <- List.app_assoc.
      split; [reflexivity|]. cbn [map repeat app]. rewrite Ic, F.
      split; [reflexivity|]. split; [constructor; assumption|].
      intros Z. contradiction.
    + assert (K' : 0 <= k + 1) by lia.
      destruct (IH _ _ _ K' R) as (added & a & b & -> & F & N & A).
      assert (A0 : a = 0%nat) by (apply A; lia). subst a.
      exists (c :: added), 0%nat, (S b). rewrite <- List.app_assoc.
      split; [reflexivity|]. cbn [map repeat app count_from] in *.
      rewrite Ic, F.
      split; [reflexivity|]. split; [constructor; assumption|reflexivity].
Qed.

End BookdownFacts.

(** X12: in a structure the YAML-config parser builds, the chapters
    marked as introduction come first: once an entry has been numbered no
    later entry is an introduction, even one whose name contains "index".
    The introductions have the number 0 and the chapters after them the
    numbers 1, 2, ... in order, unless a frontmatter [chapter] replaces
    the number. *)
Theorem X12_bookdown_introductions_first (E : Env) (bp : Path)
    (s : BookStructure) :
  _parse_bookdown E bp = Ok s -> format_type s = bookdown ->
  exists a b,
    map is_intro (chapters s) = (repeat true a ++ repeat false b)%list
    /\ Forall2 (numbered_as E) (repeat 0 a ++ count_from 0 b)%list
         (chapters s).
Proof.
  unfold _parse_bookdown.
  destruct (negb (YAML_AVAILABLE (rt E))).
  { intros H F. rewrite (auto_not_other_format _ _ H) in F. discriminate. }
  destruct (read_text E bp) as [content|].
  2:{ intros H F. rewrite (auto_not_other_format _ _ H) in F. discriminate. }
  destruct (yaml_safe_load (rt E) content) as [config|].
  2:{ intros H F. rewrite (auto_not_other_format _ _ H) in F. discriminate. }
  unfold bind.
  destruct (Py.get config "title" PNone) as [fallback|]; [|discriminate].
  destruct (Py.get config "book_filename" fallback) as [bt|]; [|discriminate].
  destruct (Py.get config "rmd_files" (PList [])) as [rmd_files|];
    [|discriminate].
  destruct (Py.iter rmd_files) as [items|]; [|discriminate].
  destruct (bookdown_step E rmd_files items 0 []) as [res|] eqn:H;
    [|discriminate].
  intros K _; injection K as <-. cbn [chapters mk_structure].
  destruct (bookdown_step_shape E _ _ _ _ _ (Z.le_refl 0) H)
    as (added & a & b & -> & F & N & _).
  exists a, b. auto.
Qed.

Lemma X12_witness :
  exists s,
    _parse_bookdown Cases.bookdown_env (Fixture.at_root "_bookdown.yml") = Ok s
    /\ map is_intro (chapters s) = [true; true; false; false]
    /\ exists a b,
         map is_intro (chapters s) = (repeat true a ++ repeat false b)%list
         /\ Forall2 (numbered_as Cases.bookdown_env)
              (repeat 0 a ++ count_from 0 b)%list (chapters s).
Proof.
  eexists. split; [vm_compute; reflexivity|].
  split; [vm_compute; reflexivity|].
  apply (X12_bookdown_introductions_first Cases.bookdown_env
           (Fixture.at_root "_bookdown.yml"));
    vm_compute; reflexivity.
Defined.

(** X11: when [_bookdown.yml] is the manifest found and YAML loads it to
    anything but a mapping (an empty file loads to [None]),
    [detect_structure] raises [AttributeError]: the parser falls back to
    the auto-detector only when reading or loading fails. *)
Theorem X11_bookdown_not_a_mapping_raises (E : Env) (content : string)
    (config : pyval) :
  exists_ E (joinpath (book_root E) "SUMMARY.md") = Ok false ->
  exists_ E (joinpath (book_root E) "Book.txt") = Ok false ->
  exists_ E (joinpath (book_root E) "_bookdown.yml") = Ok true ->
  YAML_AVAILABLE (rt E) = true ->
  read_text E (joinpath (book_root E) "_bookdown.yml") = Some content ->
  yaml_safe_load (rt E) content = Some config ->
  (forall d, config <> PDict d) ->
  detect_structure E = Raise AttributeError.
Proof.
  intros H1 H2 H3 Y R L N.
  unfold detect_structure. rewrite H1. cbn [bind]. rewrite H2. cbn [bind].
  rewrite H3. cbn [bind].
  unfold _parse_bookdown. rewrite Y, R, L. cbn [negb].
  destruct config as [|b|z|f|x|iso|l|d]; try reflexivity.
  exfalso. exact (N d eq_refl).
Qed.

Lemma X11_witness :
  detect_structure Cases.empty_bookdown_env = Raise AttributeError.
Proof.
  apply (X11_bookdown_not_a_mapping_raises Cases.empty_bookdown_env "" PNone);
    try (vm_compute; reflexivity).
  intros d. discriminate.
Defined.

(** ** Which manifest a structure comes from *)

Section FormatFacts.

Variable E : Env.

Lemma parse_summary_format (sp : Path) (s : BookStructure) :
  _parse_summary_md E sp = Ok s ->
  format_type s = auto
  \/ (format_type s = summary /\ read_text E sp <> None).
Proof.
  unfold _parse_summary_md.
  destruct (read_text E sp) as [content|].
  - unfold bind. destruct (summary_step E sp _ 0 []); [|discriminate].
    intros H; injection H as <-. right. split; [reflexivity|discriminate].
  - intros H. left. exact (auto_not_other_format _ _ H).
Qed.

Lemma parse_leanpub_format (bp : Path) (s : BookStructure) :
  _parse_leanpub E bp = Ok s ->
  format_type s = auto
  \/ (format_type s = leanpub /\ read_text E bp <> None).
Proof.
  unfold _parse_leanpub.
  destruct (read_text E bp) as [content|].
  - unfold bind. destruct (leanpub_base E); [|discriminate].
    destruct (leanpub_step E _ _ 0 []); [|discriminate].
    intros H; injection H as <-. right. split; [reflexivity|discriminate].
  - intros H. left. exact (auto_not_other_format _ _ H).
Qed.

Lemma parse_bookdown_format (bp : Path) (s : BookStructure) :
  _parse_bookdown E bp = Ok s ->
  format_type s = auto
  \/ (format_type s = bookdown /\ YAML_AVAILABLE (rt E) = true
      /\ exists content config,
           read_text E bp = Some content
           /\ yaml_safe_load (rt E) content = Some (PDict config)).
Proof.
  unfold _parse_bookdown.
  destruct (YAML_AVAILABLE (rt E)); cbn [negb].
  2:{ intros H. left. exact (auto_not_other_format _ _ H). }
  destruct (read_text E bp) as [content|].
  2:{ intros H. left. exact (auto_not_other_format _ _ H). }
  destruct (yaml_safe_load (rt E) content) as [config|] eqn:L.
  2:{ intros H. left. exact (auto_not_other_format _ _ H). }
  destruct config as [|b|z|f|x|iso|l|d]; try discriminate.
  unfold bind.
  destruct (Py.get (PDict d) "title" PNone) as [fallback|]; [|discriminate].
  destruct (Py.get (PDict d) "book_filename" fallback); [|discriminate].
  destruct (Py.get (PDict d) "rmd_files" (PList [])) as [rmd_files|];
    [|discriminate].
  destruct (Py.iter rmd_files) as [items|]; [|discriminate].
  destruct (bookdown_step E rmd_files items 0 []); [|discriminate].
  intros H; injection H as <-. right.
  split; [reflexivity|]. split; [reflexivity|]. eauto.
Qed.

Lemma parse_mdbook_format (tp : Path) (s : BookStructure) :
  _parse_mdbook_toml E tp = Ok s ->
  format_type s = auto
  \/ (format_type s = mdbook
      /\ found E (joinpath (joinpath (book_root E) "src") "SUMMARY.md")
         = true).
Proof.
  unfold _parse_mdbook_toml.
  destruct (toml_metadata E tp) as [t a]. unfold bind.
  destruct (exists_ E (joinpath (joinpath (book_root E) "src") "SUMMARY.md"))
    as [b|] eqn:X; [|discriminate].
  apply exists_found in X. destruct b.
  - destruct (_parse_summary_md E _); [|discriminate].
    intros H; injection H as <-. right. split; [reflexivity|exact X].
  - intros H. left. exact (auto_not_other_format _ _ H).
Qed.

End FormatFacts.

(** X13: the format of a detected structure tells which manifest was
    used, and the manifests are tried in a fixed order.  A [summary]
    structure means [SUMMARY.md] exists in the root and was read; a
    [leanpub] structure means there is no [SUMMARY.md] and [Book.txt] was
    read; a [bookdown] structure means neither of the two exists, the
    YAML library is available and [_bookdown.yml] loaded to a mapping; an
    [mdbook] structure means none of the three exists and both
    [book.toml] and [src/SUMMARY.md] exist. *)
Theorem X13_format_names_the_manifest (E : Env) (s : BookStructure) :
  detect_structure E = Ok s ->
  let at_root n := joinpath (book_root E) n in
  match format_type s with
  | summary =>
      found E (at_root "SUMMARY.md") = true
      /\ read_text E (at_root "SUMMARY.md") <> None
  | leanpub =>
      found E (at_root "SUMMARY.md") = false
      /\ found E (at_root "Book.txt") = true
      /\ read_text E (at_root "Book.txt") <> None
  | bookdown =>
      found E (at_root "SUMMARY.md") = false
      /\ found E (at_root "Book.txt") = false
      /\ found E (at_root "_bookdown.yml") = true
      /\ YAML_AVAILABLE (rt E) = true
      /\ exists content config,
           read_text E (at_root "_bookdown.yml") = Some content
           /\ yaml_safe_load (rt E) content = Some (PDict config)
  | mdbook =>
      found E (at_root "SUMMARY.md") = false
      /\ found E (at_root "Book.txt") = false
      /\ found E (at_root "_bookdown.yml") = false
      /\ found E (at_root "book.toml") = true
      /\ found E (joinpath (at_root "src") "SUMMARY.md") = true
  | auto => True
  end.
Proof.
  unfold detect_structure, bind. intros H. cbv zeta.
  destruct (exists_ E (joinpath (book_root E) "SUMMARY.md")) as [b1|] eqn:X1;
    [|discriminate].
  apply exists_found in X1. destruct b1.
  { destruct (parse_summary_format E _ _ H) as [F|[F R]]; rewrite F; auto. }
  destruct (exists_ E (joinpath (book_root E) "Book.txt")) as [b2|] eqn:X2;
    [|discriminate].
  apply exists_found in X2. destruct b2.
  { destruct (parse_leanpub_format E _ _ H) as [F|[F R]]; rewrite F; auto. }
  destruct (exists_ E (joinpath (book_root E) "_bookdown.yml")) as [b3|] eqn:X3;
    [|discriminate].
  apply exists_found in X3. destruct b3.
  { destruct (parse_bookdown_format E _ _ H) as [F|(F & Y & R)]; rewrite F;
      auto. }
  destruct (exists_ E (joinpath (book_root E) "book.toml")) as [b4|] eqn:X4;
    [|discriminate].
  apply exists_found in X4. destruct b4.
  { destruct (parse_mdbook_format E _ _ H) as [F|[F R]]; rewrite F; auto. }
  rewrite (auto_not_other_format _ _ H). exact I.
Qed.

Lemma X13_witness :
  exists s,
    detect_structure Cases.three_manifests_env = Ok s
    /\ format_type s = leanpub
    /\ found Cases.three_manifests_env (Fixture.at_root "SUMMARY.md") = false
    /\ found Cases.three_manifests_env (Fixture.at_root "Book.txt") = true.
Proof.
  eexists. split; [vm_compute; reflexivity|].
  split; [vm_compute; reflexivity|].
  pose proof (X13_format_names_the_manifest Cases.three_manifests_env _
                ltac:(vm_compute; reflexivity)) as H.
  cbv zeta in H.
  change (format_type _) with leanpub in H.
  destruct H as (A & B & _). split; [exact A|exact B].
Defined.

(** ** Slugs *)

Lemma all_chars_impl (p q : ascii -> bool) (s : string) :
  (forall c, p c = true -> q c = true) ->
  all_chars p s = true -> all_chars q s = true.
Proof.
  intros I. induction s as [|c s IH]; cbn [all_chars]; [reflexivity|].
  rewrite !andb_true_iff. intros [H1 H2]. auto.
Qed.

Lemma lower_char_not_upper (c : ascii) : is_ascii_upper (lower_char c) = false.
Proof. destruct c as [[] [] [] [] [] [] [] []]; vm_compute; reflexivity. Qed.

Lemma lower_not_upper (s : string) :
  all_chars (fun c => negb (is_ascii_upper c)) (lower s) = true.
Proof.
  induction s as [|c s IH]; [reflexivity|].
  change (lower (String c s)) with (String (lower_char c) (lower s)).
  cbn [all_chars]. now rewrite lower_char_not_upper, IH.
Qed.

Lemma lstrip_all_chars (p : ascii -> bool) (s : string) :
  all_chars p s = true -> all_chars p (lstrip s) = true.
Proof.
  induction s as [|c s IH]; cbn [lstrip all_chars]; [reflexivity|].
  intros H. destruct (is_space c); [|exact H].
  apply andb_true_iff in H. apply IH, H.
Qed.

Lemma rstrip_all_chars (p : ascii -> bool) (s : string) :
  all_chars p s = true -> all_chars p (rstrip s) = true.
Proof.
  induction s as [|c s IH]; cbn [rstrip all_chars]; [reflexivity|].
  rewrite andb_true_iff. intros [H1 H2].
  destruct (is_empty (rstrip s) && is_space c); [reflexivity|].
  cbn [all_chars]. now rewrite H1, IH.
Qed.

Lemma lstrip_char_all_chars (p : ascii -> bool) (x : ascii) (s : string) :
  all_chars p s = true -> all_chars p (lstrip_char x s) = true.
Proof.
  induction s as [|c s IH]; cbn [lstrip_char all_chars]; [reflexivity|].
  intros H. destruct (Ascii.eqb c x); [|exact H].
  apply andb_true_iff in H. apply IH, H.
Qed.

Lemma rstrip_char_all_chars (p : ascii -> bool) (x : ascii) (s : string) :
  all_chars p s = true -> all_chars p (rstrip_char x s) = true.
Proof.
  induction s as [|c s IH]; cbn [rstrip_char all_chars]; [reflexivity|].
  rewrite andb_true_iff. intros [H1 H2].
  destruct (is_empty (rstrip_char x s) && Ascii.eqb c x); [reflexivity|].
  cbn [all_chars]. now rewrite H1, IH.
Qed.

Lemma remove_chars_all_chars (p cls : ascii -> bool) (s : string) :
  all_chars p s = true ->
  all_chars (fun c => p c && negb (cls c)) (remove_chars cls s) = true.
Proof.
  induction s as [|c s IH]; cbn [remove_chars all_chars]; [reflexivity|].
  rewrite andb_true_iff. intros [H1 H2].
  destruct (cls c) eqn:C; [auto|].
  cbn [all_chars]. now rewrite H1, C, IH.
Qed.

Lemma sub_runs_all_chars (p cls : ascii -> bool) (x : ascii) (b : bool)
    (s : string) :
  all_chars p s = true ->
  all_chars (fun c => (p c && negb (cls c)) || Ascii.eqb c x)
    (sub_runs cls (String x "") b s) = true.
Proof.
  revert b. induction s as [|c s IH]; intros b; cbn [sub_runs all_chars];
    [reflexivity|].
  rewrite andb_true_iff. intros [H1 H2].
  destruct (cls c) eqn:C; [destruct b|]; cbn [append all_chars];
    rewrite ?Ascii.eqb_refl, ?H1, ?C, ?orb_true_r; cbn [negb andb orb]; auto.
Qed.

(** The text after a run replacement holds no two replacement characters
    in a row, and does not start with one when a run is being replaced. *)
Lemma sub_runs_no_double (cls : ascii -> bool) (x : ascii) (b : bool)
    (s : string) :
  cls x = true ->
  contains (String x (String x "")) (sub_runs cls (String x "") b s) = false
  /\ (b = true ->
      startswith (String x "") (sub_runs cls (String x "") b s) = false).
Proof.
  intros X. revert b. induction s as [|c s IH]; intros b; cbn [sub_runs].
  - split; [reflexivity|]. intros _. reflexivity.
  - destruct (IH true) as [T1 T2]. specialize (T2 eq_refl).
    destruct (IH false) as [F1 _].
    destruct (cls c) eqn:C; [destruct b|].
    + split; [exact T1|]. intros _. exact T2.
    + split; [|discriminate]. cbn [append].
      rewrite contains_cons, T1, orb_false_r.
      rewrite startswith_cons, T2. apply andb_false_r.
    + assert (N : Ascii.eqb x c = false).
      { destruct (Ascii.eqb_spec x c) as [->|]; [congruence|reflexivity]. }
      split.
      * rewrite contains_cons, F1, orb_false_r, startswith_cons, N.
        reflexivity.
      * intros _. rewrite startswith_cons, N. reflexivity.
Qed.

Lemma lstrip_char_contains (p : string) (x : ascii) (s : string) :
  contains p s = false -> contains p (lstrip_char x s) = false.
Proof.
  induction s as [|c s IH]; cbn [lstrip_char]; [auto|].
  intros H. destruct (Ascii.eqb c x); [|exact H].
  rewrite contains_cons in H. apply orb_false_iff in H. apply IH, H.
Qed.

Lemma rstrip_char_prefix (x : ascii) (s : string) :
  exists t, s = (rstrip_char x s ++ t)%string.
Proof.
  induction s as [|c s [t IH]]; cbn [rstrip_char]; [exists ""; reflexivity|].
  destruct (is_empty (rstrip_char x s) && Ascii.eqb c x).
  - exists (String c s). reflexivity.
  - exists t. cbn [append]. now rewrite <- IH.
Qed.

Lemma startswith_prefix (p a t : string) :
  startswith p a = true -> startswith p (a ++ t) = true.
Proof.
  revert a. induction p as [|c p IH]; intros a; [reflexivity|].
  destruct a as [|d a]; [discriminate|]. cbn [append].
  rewrite !startswith_cons, !andb_true_iff. intros [H1 H2]. auto.
Qed.

Lemma contains_prefix (p a t : string) :
  contains p (a ++ t) = false -> contains p a = false.
Proof.
  induction a as [|c a IH].
  - cbn [append]. intros H.
    destruct p as [|d p]; [destruct t; discriminate H|reflexivity].
  - cbn [append]. rewrite !contains_cons, !orb_false_iff. intros [H1 H2].
    split; [|auto].
    destruct (startswith p (String c a)) eqn:S; [|reflexivity].
    rewrite <- H1. symmetry.
    exact (startswith_prefix p (String c a) t S).
Qed.

Lemma rstrip_char_contains (p : string) (x : ascii) (s : string) :
  contains p s = false -> contains p (rstrip_char x s) = false.
Proof.
  destruct (rstrip_char_prefix x s) as [t E]. intros H.
  rewrite E in H. exact (contains_prefix _ _ _ H).
Qed.

Lemma lstrip_char_start (x : ascii) (s : string) :
  startswith (String x "") (lstrip_char x s) = false.
Proof.
  induction s as [|c s IH]; cbn [lstrip_char]; [reflexivity|].
  destruct (Ascii.eqb c x) eqn:C; [exact IH|].
  rewrite startswith_cons, Ascii.eqb_sym, C. reflexivity.
Qed.

Lemma rstrip_char_start (x : ascii) (s : string) :
  startswith (String x "") s = false ->
  startswith (String x "") (rstrip_char x s) = false.
Proof.
  destruct s as [|c s]; cbn [rstrip_char]; [auto|].
  destruct (is_empty (rstrip_char x s) && Ascii.eqb c x); [reflexivity|].
  rewrite !startswith_cons. destruct (Ascii.eqb x c); [discriminate|reflexivity].
Qed.

Lemma endswith_char_cons (x c : ascii) (r : string) :
  endswith (String x "") (String c r)
  = if is_empty r then Ascii.eqb x c else endswith (String x "") r.
Proof.
  unfold endswith, rev. cbn [rev_onto].
  rewrite (rev_onto_acc r (String c "")).
  destruct r as [|d r].
  { cbn [rev_onto append is_empty]. rewrite startswith_cons.
    destruct (Ascii.eqb x c); reflexivity. }
  cbn [is_empty].
  destruct (rev_onto (String d r) "") as [|e q] eqn:Q.
  - exfalso. cbn [rev_onto] in Q. rewrite rev_onto_acc in Q.
    destruct (rev_onto r ""); discriminate.
  - cbn [append]. rewrite !startswith_cons. reflexivity.
Qed.

Lemma rstrip_char_end (x : ascii) (s : string) :
  endswith (String x "") (rstrip_char x s) = false.
Proof.
  induction s as [|c s IH]; cbn [rstrip_char]; [reflexivity|].
  destruct (is_empty (rstrip_char x s)) eqn:M; cbn [andb].
  - destruct (Ascii.eqb c x) eqn:C; [reflexivity|].
    rewrite endswith_char_cons, M, Ascii.eqb_sym. exact C.
  - rewrite endswith_char_cons, M. exact IH.
Qed.

(** X14: whatever the text, its slug consists of hyphens and of word
    characters that are neither underscores nor ASCII capitals (so no
    white space, dot or slash); it holds no two hyphens in a row and
    neither starts nor ends with a hyphen. *)
Theorem X14_slug_shape (text : string) :
  all_chars slug_char (BookWriter.slugify text) = true
  /\ contains "--" (BookWriter.slugify text) = false
  /\ startswith "-" (BookWriter.slugify text) = false
  /\ endswith "-" (BookWriter.slugify text) = false.
Proof.
  unfold BookWriter.slugify, strip_char. repeat split.
  - apply rstrip_char_all_chars, lstrip_char_all_chars.
    eapply all_chars_impl;
      [|apply sub_runs_all_chars, remove_chars_all_chars;
        unfold strip; apply rstrip_all_chars, lstrip_all_chars,
          lower_not_upper].
    intros c. unfold slug_char, is_sep.
    destruct (Ascii.eqb c "-"), (Ascii.eqb c "_"), (is_ascii_upper c),
      (is_word c), (is_space c);
      cbn [orb negb andb]; intros H; first [reflexivity|discriminate H].
  - apply rstrip_char_contains, lstrip_char_contains.
    apply (sub_runs_no_double _ "-"%char false). reflexivity.
  - apply rstrip_char_start, lstrip_char_start.
  - apply rstrip_char_end.
Qed.

(** ** The writer's numbers and file names *)

Section NextNumber.

Variable W : Env.
Variable dir : Path.

Lemma max_chapter_number_bound items m r n k :
  BookWriter.max_chapter_number W dir items m = Ok r ->
  In n items -> numbered_file W dir n k -> k <= r.
Proof.
  intros H I (F & S & d & L & ->). revert m H.
  induction items as [|a rest IH]; intros m; [destruct I|].
  cbn [BookWriter.max_chapter_number]. unfold bind, BookWriter.is_file.
  destruct I as [->|I].
  - rewrite F, S, L. cbn [andb]. change (String.eqb ".md" ".md") with true.
    cbv iota. intros H. apply max_chapter_number_ge in H. lia.
  - destruct (fs_is_file (fs W) (dir ++ [a])%list) as [f|]; [|discriminate].
    destruct (f && _); [|apply IH; exact I].
    destruct (leading_digits (stem (dir ++ [a])%list)); apply IH; exact I.
Qed.

Lemma max_chapter_number_attained items m r :
  BookWriter.max_chapter_number W dir items m = Ok r ->
  r = m \/ exists n, In n items /\ numbered_file W dir n r.
Proof.
  revert m. induction items as [|a rest IH]; intros m;
    cbn [BookWriter.max_chapter_number].
  - intros H; injection H as <-. now left.
  - unfold bind, BookWriter.is_file.
    assert (LATER : forall m', BookWriter.max_chapter_number W dir rest m'
                               = Ok r ->
                    r = m' \/ exists n, In n (a :: rest) /\ numbered_file W dir n r).
    { intros m' H. destruct (IH _ H) as [->|(n & I & N)]; [now left|].
      right. exists n. split; [now right|exact N]. }
    destruct (fs_is_file (fs W) (dir ++ [a])%list) as [f|] eqn:F;
      [|discriminate].
    destruct f; cbn [andb]; [|apply LATER].
    destruct (String.eqb (suffix (dir ++ [a])%list) ".md") eqn:S;
      [|apply LATER].
    apply String.eqb_eq in S.
    destruct (leading_digits (stem (dir ++ [a])%list)) as [d|] eqn:L;
      [|apply LATER].
    intros H. destruct (LATER _ H) as [->|K]; [|right; exact K].
    destruct (Z.max_spec m (int_of_digits d)) as [[_ ->]|[_ ->]];
      [|now left].
    right. exists a. split; [now left|].
    split; [exact F|]. split; [exact S|]. eauto.
Qed.

Lemma next_number_spec next :
  BookWriter.get_next_chapter_number W dir = Ok next ->
  (found W dir = false /\ next = 1)
  \/ (found W dir = true
      /\ exists items,
           fs_iterdir (fs W) dir = Some items
           /\ (forall n k, In n items -> numbered_file W dir n k -> k < next)
           /\ (next = 1
               \/ exists n, In n items /\ numbered_file W dir n (next - 1))).
Proof.
  unfold BookWriter.get_next_chapter_number, bind, BookWriter.iterdir.
  destruct (exists_ W dir) as [b|] eqn:X; [|discriminate].
  apply exists_found in X. rewrite X. destruct b; cbn [negb].
  2:{ intros H; injection H as <-. now left. }
  destruct (fs_iterdir (fs W) dir) as [items|]; [|discriminate].
  destruct (BookWriter.max_chapter_number W dir items 0) as [m|] eqn:M;
    [|discriminate].
  intros H; injection H as <-. right. split; [reflexivity|].
  exists items. split; [reflexivity|]. split.
  - intros n k I N. pose proof (max_chapter_number_bound _ _ _ _ _ M I N). lia.
  - destruct (max_chapter_number_attained _ _ _ M) as [->|(n & I & N)];
      [now left|].
    right. exists n. split; [exact I|].
    now replace (m + 1 - 1) with m by lia.
Qed.

End NextNumber.

(** X15: the number [get_next_chapter_number] returns is 1 when the
    directory does not exist; otherwise it is greater than the leading
    number of every entry of the directory that is a file with the suffix
    [.md], and it is 1 or one more than the leading number of such an
    entry: the directory's highest number plus one. *)
Theorem X15_next_chapter_number (W : Env) (dir : Path) (next : Z) :
  BookWriter.get_next_chapter_number W dir = Ok next ->
  (found W dir = false /\ next = 1)
  \/ (found W dir = true
      /\ exists items,
           fs_iterdir (fs W) dir = Some items
           /\ (forall n k, In n items -> numbered_file W dir n k -> k < next)
           /\ (next = 1
               \/ exists n, In n items /\ numbered_file W dir n (next - 1))).
Proof. apply next_number_spec. Qed.

Lemma X15_witness :
  BookWriter.get_next_chapter_number Cases.writer_env
    (Fixture.at_root "chapters") = Ok 2
  /\ exists items,
       fs_iterdir (fs Cases.writer_env) (Fixture.at_root "chapters")
       = Some items
       /\ forall n k, In n items ->
            numbered_file Cases.writer_env (Fixture.at_root "chapters") n k ->
            k < 2.
Proof.
  split; [vm_compute; reflexivity|].
  destruct (X15_next_chapter_number Cases.writer_env
              (Fixture.at_root "chapters") 2 ltac:(vm_compute; reflexivity))
    as [[F _]|(_ & items & I & B & _)].
  - vm_compute in F. discriminate F.
  - exists items. split; [exact I|exact B].
Defined.

(** ** Reading a written file name back *)

Ltac digit_value_now :=
  repeat match goal with
         | |- context [digit_value ?c] =>
             let v := eval vm_compute in (digit_value c) in
             change (digit_value c) with v
         end.

Lemma digits_onto_acc (u : Decimal.uint) (acc : positive) :
  digits_onto (Z.pos acc) (NilEmpty.string_of_uint u)
  = Z.pos (Pos.of_uint_acc u acc).
Proof.
  revert acc.
  induction u as [|u IH|u IH|u IH|u IH|u IH|u IH|u IH|u IH|u IH|u IH];
    intros acc;
    cbn [NilEmpty.string_of_uint digits_onto Pos.of_uint_acc];
    [reflexivity|..];
    rewrite <- IH; f_equal; digit_value_now; lia.
Qed.

Lemma int_of_uint (u : Decimal.uint) :
  int_of_digits (NilEmpty.string_of_uint u) = Z.of_N (Pos.of_uint u).
Proof.
  unfold int_of_digits.
  induction u as [|u IH|u IH|u IH|u IH|u IH|u IH|u IH|u IH|u IH|u IH];
    cbn [NilEmpty.string_of_uint digits_onto Pos.of_uint];
    [reflexivity|exact IH|..];
    digit_value_now; cbn [Z.mul Z.add Z.of_N]; apply digits_onto_acc.
Qed.

Lemma int_of_format (n : Z) :
  0 <= n -> int_of_digits (BookWriter.format_02d n) = n.
Proof.
  intros H. unfold BookWriter.format_02d, BookWriter.decimal.
  destruct (n <? 0) eqn:NEG; [apply Z.ltb_lt in NEG; lia|].
  assert (K : int_of_digits (NilEmpty.string_of_uint (N.to_uint (Z.to_N n)))
              = n).
  { rewrite int_of_uint. change (Pos.of_uint ?u) with (N.of_uint u).
    rewrite DecimalN.Unsigned.of_to. apply Z2N.id. exact H. }
  destruct (_ <? 2)%nat; [|exact K].
  unfold int_of_digits in *. cbn [append digits_onto].
  digit_value_now. exact K.
Qed.

Lemma uint_all_digits (u : Decimal.uint) :
  all_chars is_digit (NilEmpty.string_of_uint u) = true.
Proof.
  induction u; cbn [NilEmpty.string_of_uint all_chars];
    [reflexivity|..]; rewrite IHu; reflexivity.
Qed.

Lemma format_all_digits (n : Z) :
  0 <= n -> all_chars is_digit (BookWriter.format_02d n) = true.
Proof.
  intros H. unfold BookWriter.format_02d, BookWriter.decimal.
  destruct (n <? 0) eqn:NEG; [apply Z.ltb_lt in NEG; lia|].
  destruct (_ <? 2)%nat; cbn [append all_chars];
    rewrite uint_all_digits; reflexivity.
Qed.

Lemma span_all (p : ascii -> bool) (a r : string) :
  all_chars p a = true ->
  match r with
  | "" => True
  | String c _ => p c = false
  end ->
  span p (a ++ r) = (a, r).
Proof.
  intros A R. induction a as [|c a IH]; cbn [append].
  - destruct r as [|c r]; cbn [span]; [reflexivity|]. now rewrite R.
  - cbn [all_chars] in A. apply andb_true_iff in A. destruct A as [A1 A2].
    cbn [span]. now rewrite A1, (IH A2).
Qed.

Lemma split_last_dot_md (a : string) :
  split_last_dot (a ++ ".md") = Some (a, ".md").
Proof.
  induction a as [|c a IH]; [reflexivity|].
  cbn [append split_last_dot]. now rewrite IH.
Qed.

Lemma stem_suffix_md (a : string) :
  a <> "" -> stem_of (a ++ ".md") = a /\ suffix_of (a ++ ".md") = ".md".
Proof.
  intros N. unfold stem_of, suffix_of. rewrite split_last_dot_md.
  destruct a; [congruence|]. split; reflexivity.
Qed.

(** The name of a written chapter, read back by the code that reads
    names. *)
Lemma written_name_spec (dir : Path) (n : Z) (text : string) :
  1 <= n ->
  let fname := BookWriter.chapter_filename n text in
  let p := (dir ++ [fname])%list in
  joinpath dir fname = p
  /\ PathLib.name p = fname
  /\ suffix p = ".md"
  /\ leading_digits (stem p) = Some (BookWriter.format_02d n)
  /\ int_of_digits (BookWriter.format_02d n) = n
  /\ flat_candidate p = true.
Proof.
  intros H fname p.
  pose proof (chapter_filename_shape n text H) as SH. fold fname in SH.
  assert (NM : PathLib.name p = fname) by apply (shape_name fname SH).
  split; [apply (shape_joinpath fname SH)|]. split; [exact NM|].
  assert (FN : fname
               = ((BookWriter.format_02d n ++ "-" ++ BookWriter.slugify text)
                  ++ ".md")%string).
  { unfold fname, BookWriter.chapter_filename.
    now rewrite !append_assoc. }
  destruct (format_02d_head n H) as (c1 & c2 & r & F & _).
  destruct (stem_suffix_md
              (BookWriter.format_02d n ++ "-" ++ BookWriter.slugify text))
    as [ST SF].
  { rewrite F. discriminate. }
  unfold suffix, stem. rewrite NM, FN, ST, SF.
  split; [reflexivity|]. split.
  - unfold leading_digits. rewrite span_all.
    + rewrite F. reflexivity.
    + apply format_all_digits. lia.
    + reflexivity.
  - split; [apply int_of_format; lia|].
    exact (proj1 (shape_flat_candidate fname SH dir)).
Qed.

(** X16: a file name the writer makes for a chapter number of at least 1
    is read back as written, whatever the title: joined to a directory
    it is one path component, its suffix is [.md], the leading digits of
    its stem are the number as formatted and [int] gives the number
    back, the number the sort key extracts is the chapter number, and
    the flat scan of the auto-detector does not skip it. *)
Theorem X16_written_name_read_back (dir : Path) (n : Z) (text : string) :
  1 <= n ->
  let p := (dir ++ [BookWriter.chapter_filename n text])%list in
  joinpath dir (BookWriter.chapter_filename n text) = p
  /\ suffix p = ".md"
  /\ leading_digits (stem p) = Some (BookWriter.format_02d n)
  /\ extracted_number p = Some n
  /\ flat_candidate p = true.
Proof.
  intros H p.
  destruct (written_name_spec dir n text H) as (J & _ & S & L & I & F).
  fold p in J, S, L, F.
  split; [exact J|]. split; [exact S|]. split; [exact L|].
  split; [|exact F].
  unfold extracted_number. rewrite L, I. reflexivity.
Qed.

Lemma X16_witness :
  BookWriter.chapter_filename 7 "  Hello, World! " = "07-hello-world.md"
  /\ extracted_number (Fixture.at_root "chapters/07-hello-world.md") = Some 7
  /\ flat_candidate (Fixture.at_root "chapters/07-hello-world.md") = true.
Proof.
  split; [vm_compute; reflexivity|].
  destruct (X16_written_name_read_back (Fixture.at_root "chapters") 7
              "  Hello, World! " ltac:(lia)) as (_ & _ & _ & N & F).
  split; [exact N|exact F].
Defined.

(** X17: [new_chapter] never writes over a file of the chapters
    directory: the path it writes to is none of the directory's entries
    that are files. *)
Theorem X17_new_chapter_fresh_path (W : Env) (today text : string)
    (draft : bool) (chapter_path : Path) (content : string) :
  BookWriter.new_chapter W today text draft
  = Ok (Some (chapter_path, content)) ->
  let chapters_dir := joinpath (book_root W) "chapters" in
  exists items,
    fs_iterdir (fs W) chapters_dir = Some items
    /\ forall n, In n items ->
         fs_is_file (fs W) (chapters_dir ++ [n])%list = Some true ->
         chapter_path <> (chapters_dir ++ [n])%list.
Proof.
  intros HN chapters_dir.
  unfold BookWriter.new_chapter in HN. fold chapters_dir in HN.
  unfold bind in HN.
  destruct (exists_ W chapters_dir) as [b|] eqn:X; [|discriminate].
  apply exists_found in X.
  destruct b; cbn [negb] in HN; [|discriminate].
  destruct (BookWriter.get_next_chapter_number W chapters_dir) as [num|] eqn:GN;
    [|discriminate].
  injection HN as HP _.
  pose proof (get_next_chapter_number_pos _ _ _ GN) as POS.
  destruct (written_name_spec chapters_dir num text POS)
    as (J & NM & S & L & I & _).
  rewrite J in HP.
  destruct (next_number_spec W chapters_dir num GN)
    as [[F _]|(_ & items & IT & BOUND & _)]; [congruence|].
  exists items. split; [exact IT|].
  intros n IN FILE EQ. rewrite <- HP in EQ.
  apply app_inj_tail in EQ. destruct EQ as [_ <-].
  assert (K : num < num).
  { apply (BOUND _ num IN). split; [exact FILE|]. split; [exact S|].
    exists (BookWriter.format_02d num). split; [exact L|]. now rewrite I. }
  lia.
Qed.

Lemma X17_witness :
  exists items,
    fs_iterdir (fs Cases.writer_env) (Fixture.at_root "chapters") = Some items
    /\ forall n, In n items ->
         fs_is_file (fs Cases.writer_env)
           (Fixture.at_root "chapters" ++ [n])%list = Some true ->
         Fixture.at_root "chapters/02-second-chapter.md"
         <> (Fixture.at_root "chapters" ++ [n])%list.
Proof.
  exact (X17_new_chapter_fresh_path Cases.writer_env "2024-05-01"
           "Second Chapter" false
           (Fixture.at_root "chapters/02-second-chapter.md")
           (BookWriter.chapter_content Cases.second_yaml "Second Chapter")
           ltac:(vm_compute; reflexivity)).
Defined.
